(** * freqopttest.tst: two-sample tests with optimised test locations

    A shallow embedding of [freqopttest/tst.py] (the smooth
    characteristic function test, the mean embedding test and the two
    gradient-ascent optimisers) and the properties of its specification.

    Numbers.  Python floats are modelled by the real numbers of the
    Standard Library, NumPy arrays by MathComp matrices over them: the
    arithmetic of the model is exact where the program rounds.  What is
    proved below either does not depend on the rounding (the branch
    taken, the exception raised on data that are exactly zero or
    exactly equal, the shapes and lengths of the arrays, the state of
    the random generator, identities that hold operation by operation)
    or is a relation between the exact values.  Where a float becomes
    an integer, in the size of a mini-batch, the floats are doubles
    with their rounding.  A float operation whose result is not a real
    number (a division by zero, giving [nan] or [inf] without raising)
    ends the computation of the model with the outcome [NonFinite]:
    the program goes on with such a value, the model does not follow
    it.  A Python exception is the outcome [Raise].

    Environment.  What the module obtains from other libraries is a
    parameter of the section that uses it: the chi-squared survival
    function of SciPy, the random generator of NumPy and the gradients
    that Theano derives symbolically. *)

From HB Require Import structures.
From Stdlib Require Import Reals Lra Lia ZArith.
From Stdlib Require Import ClassicalEpsilon FunctionalExtensionality.
From mathcomp Require Import boot ssralg matrix.

Set Implicit Arguments.
Unset Strict Implicit.
Unset Printing Implicit Defensive.

Delimit Scope R_scope with Re.
Import GRing.Theory.
Local Open Scope ring_scope.

(** ** The real numbers as a MathComp field *)

Definition eqr (x y : R) : bool := if Req_dec_T x y then true else false.

Lemma eqrP : Equality.axiom eqr.
Proof. by move=> x y; rewrite /eqr; case: Req_dec_T => h; constructor. Qed.

HB.instance Definition _ := hasDecEq.Build R eqrP.

Definition findR (P : pred R) (n : nat) : option R :=
  match excluded_middle_informative (exists x, P x) with
  | left ex => Some (proj1_sig (constructive_indefinite_description _ ex))
  | right _ => None
  end.

Lemma findR_correct (P : pred R) n x : findR P n = Some x -> P x.
Proof.
rewrite /findR; case: excluded_middle_informative => // ex [<-].
exact: (proj2_sig (constructive_indefinite_description _ ex)).
Qed.

Lemma findR_complete (P : pred R) : (exists x, P x) -> exists n, findR P n.
Proof.
by move=> ex; exists 0%N; rewrite /findR; case: excluded_middle_informative.
Qed.

Lemma findR_ext (P Q : pred R) : P =1 Q -> findR P =1 findR Q.
Proof. by move=> /functional_extensionality ->. Qed.

HB.instance Definition _ :=
  hasChoice.Build R findR_correct findR_complete findR_ext.

Lemma RaddA : associative Rplus.
Proof. by move=> x y z; rewrite Rplus_assoc. Qed.

Lemma RaddN : left_inverse 0%Re Ropp Rplus.
Proof. exact: Rplus_opp_l. Qed.

HB.instance Definition _ :=
  GRing.isZmodule.Build R RaddA Rplus_comm Rplus_0_l RaddN.

Lemma RmulA : associative Rmult.
Proof. by move=> x y z; rewrite Rmult_assoc. Qed.

Lemma RmulDl : left_distributive Rmult Rplus.
Proof. by move=> x y z; rewrite Rmult_plus_distr_r. Qed.

Lemma R1neq0 : 1%Re != 0%Re :> R.
Proof. by apply/eqP; exact: R1_neq_R0. Qed.

HB.instance Definition _ :=
  GRing.Zmodule_isComNzRing.Build R RmulA Rmult_comm Rmult_1_l RmulDl R1neq0.

Lemma RmulV (x : R) : x != 0 -> (Rinv x * x)%Re = 1.
Proof. by move=> /eqP x0; apply: Rinv_l. Qed.

HB.instance Definition _ := GRing.ComNzRing_isField.Build R RmulV Rinv_0.

(** The ring operations of the instance are those of the Standard
    Library, by computation. *)

Lemma RaddE (x y : R) : x + y = (x + y)%Re. Proof. by []. Qed.
Lemma RoppE (x : R) : - x = (- x)%Re. Proof. by []. Qed.
Lemma RmulE (x y : R) : x * y = (x * y)%Re. Proof. by []. Qed.
Lemma RinvE (x : R) : x^-1 = (/ x)%Re. Proof. by []. Qed.
Lemma R0E : (0 : R) = 0%Re. Proof. by []. Qed.
Lemma R1E : (1 : R) = 1%Re. Proof. by []. Qed.

Lemma RnatE (n : nat) : n%:R = INR n :> R.
Proof.
elim: n => [|n IH] //; rewrite -addn1 natrD IH plus_INR /=.
by rewrite RaddE.
Qed.

Lemma RexpE (x : R) (n : nat) : x ^+ n = (x ^ n)%Re.
Proof. by elim: n => [|n IH] //; rewrite exprS IH. Qed.

Ltac to_R :=
  rewrite ?RnatE ?RexpE;
  rewrite ?RaddE ?RoppE ?RmulE ?RinvE ?R0E ?R1E.

(** Comparisons of floats, as booleans. *)

Definition Rltb (x y : R) : bool := if Rlt_dec x y then true else false.
Definition Rleb (x y : R) : bool := if Rle_dec x y then true else false.

Lemma RltbP (x y : R) : reflect (x < y)%Re (Rltb x y).
Proof. by rewrite /Rltb; case: Rlt_dec => h; constructor. Qed.

Lemma RlebP (x y : R) : reflect (x <= y)%Re (Rleb x y).
Proof. by rewrite /Rleb; case: Rle_dec => h; constructor. Qed.

(** ** Outcomes of a Python computation *)

Inductive exn : Set :=
  | ValueError
  | LinAlgError
  | IndexError
  | UnboundLocalError
  | OverflowError.

Inductive result (A : Type) : Type :=
  | Return (a : A)
  | Raise (e : exn)
  | NonFinite.

Arguments Return {A} a.
Arguments Raise {A} e.
Arguments NonFinite {A}.

Definition bind {A B : Type} (c : result A) (k : A -> result B) : result B :=
  match c with
  | Return a => k a
  | Raise e => Raise e
  | NonFinite => NonFinite
  end.

Notation "x <- c ;; k" := (bind c (fun x => k))
  (at level 61, c at next level, right associativity).

(** [x / y] on floats: a real number unless the divisor is zero. *)
Definition fdiv (x y : R) : result R :=
  if y == 0 then NonFinite else Return (x / y).

(** [A / y], an array divided by a scalar. *)
Definition mx_fdiv {m n : nat} (A : 'M[R]_(m, n)) (y : R) :
  result 'M[R]_(m, n) :=
  if y == 0 then NonFinite else Return (y^-1 *: A).

(** ** NumPy *)

Section Numpy.

Variables (n m : nat).

(** [np.mean(Z, 0)]: the mean of the rows of [Z]; [nan] on an empty
    array. *)
Definition np_mean0 (Z : 'M[R]_(n, m)) : result 'cV[R]_m :=
  if n == 0%N then NonFinite
  else Return (\col_j ((\sum_i Z i j) / n%:R)).

(** [Z - W] for a vector [W] of the width of [Z]: [W] is broadcast over
    the rows. *)
Definition sub_row (Z : 'M[R]_(n, m)) (W : 'cV[R]_m) : 'M[R]_(n, m) :=
  \matrix_(i, j) (Z i j - W j 0).

(** The result of [np.cov]: NumPy squeezes the covariance of a single
    variable to an array of dimension 0. *)
Inductive cov_array : Type :=
  | Cov0d (c : 'M[R]_m)
  | Cov2d (c : 'M[R]_m).

(** [np.cov(Z.T)]: the variables are the columns of [Z], the
    observations its rows; the rows are centred at their mean and the
    products are divided by [n - 1].  With fewer than two observations
    the divisor is zero and the entries are [nan]. *)
Definition np_cov_T (Z : 'M[R]_(n, m)) : result cov_array :=
  if (n <= 1)%N then NonFinite
  else
    let mu : 'cV[R]_m := \col_j ((\sum_i Z i j) / n%:R) in
    let Zc := sub_row Z mu in
    let c := (n.-1%:R)^-1 *: (Zc^T *m Zc) in
    Return (if m == 1%N then Cov0d c else Cov2d c).

(** [np.linalg.solve(a, b)]: the solution of [a x = b]; a singular [a]
    raises [LinAlgError], and so does an [a] of dimension 0.  In the
    exact arithmetic of the model every singular matrix is found
    singular; LAPACK finds the ones whose elimination meets a pivot
    that is exactly zero, as a zero matrix or one with a zero or a
    repeated column has. *)
Definition linalg_solve (a : cov_array) (b : 'cV[R]_m) : result 'cV[R]_m :=
  match a with
  | Cov0d _ => Raise LinAlgError
  | Cov2d c => if c \in unitmx then Return (invmx c *m b) else Raise LinAlgError
  end.

(** [x.dot(y)] on two vectors. *)
Definition dot (x y : 'cV[R]_m) : R := \sum_j x j 0 * y j 0.

(** The entry of [A] in the row of number [k]. *)
Definition mx_nth (A : 'M[R]_(n, m)) (k : nat) (j : 'I_m) : R :=
  if insub k is Some i then A i j else 0.

End Numpy.

(** [g - h] on two arrays of the same width, by the broadcasting rule of
    NumPy: the row counts are equal, or one of them is 1 and that row is
    repeated; any other pair of shapes raises [ValueError]. *)
Definition np_sub_bcast {nx ny m : nat} (g : 'M[R]_(nx, m)) (h : 'M[R]_(ny, m)) :
  result {n : nat & 'M[R]_(n, m)} :=
  if nx == ny then
    Return (existT _ nx (\matrix_(i, j) (g i j - mx_nth h i j)))
  else if nx == 1%N then
    Return (existT _ ny (\matrix_(i, j) (mx_nth g 0 j - h i j)))
  else if ny == 1%N then
    Return (existT _ nx (\matrix_(i, j) (g i j - mx_nth h 0 j)))
  else Raise ValueError.

(** The dictionary that [perform_test] returns. *)
Record test_result : Type := TestResult {
  res_alpha : R;
  res_pvalue : R;
  res_test_stat : R;
  res_h0_rejected : bool
}.

(** ** SmoothCFTest *)

Module SmoothCFTest.

Section Class.

(** [stats.chi2.sf] of SciPy. *)
Variable chi2_sf : R -> nat -> R.

Variables (J d : nat).

(** The attributes of an instance.  [gaussian_width] is the float its
    setter stored. *)
Record t : Type := Make {
  test_freqs : option 'M[R]_(J, d);
  gaussian_width : R;
  alpha : R
}.

(** [__init__], with the setter of [gaussian_width], which accepts a
    positive width only. *)
Definition init (freqs : option 'M[R]_(J, d)) (width : R) (alpha : R) :
  result t :=
  if Rltb 0 width then Return (Make freqs width alpha) else Raise ValueError.

(** One half of [construct_z]: the rows of [hstack((sin(x_freq)*fx,
    cos(x_freq)*fx))] for data already divided by the width. *)
Definition smooth_features {n : nat} (X : 'M[R]_(n, d))
  (freqs : 'M[R]_(J, d)) : 'M[R]_(n, J + J) :=
  let fx : 'cV[R]_n := \col_i exp (- (\sum_k (X i k) ^+ 2) / 2%:R)%R in
  let x_freq := X *m freqs^T in
  row_mx (\matrix_(i, j) (sin (x_freq i j) * fx i 0))
         (\matrix_(i, j) (cos (x_freq i j) * fx i 0)).

Definition construct_z {nx ny : nat} (X : 'M[R]_(nx, d)) (Y : 'M[R]_(ny, d))
  (freqs : 'M[R]_(J, d)) (width : R) : result 'M[R]_(nx, J + J) :=
  match nx =P ny with
  | ReflectF _ => Raise ValueError
  | ReflectT e =>
      X' <- mx_fdiv X width ;;
      Y' <- mx_fdiv (castmx (esym e, erefl d) Y) width ;;
      Return (smooth_features X' freqs - smooth_features Y' freqs)
  end.

Definition compute_stat (self : t) {nx ny : nat}
  (X : 'M[R]_(nx, d)) (Y : 'M[R]_(ny, d)) : result R :=
  match test_freqs self with
  | None => Raise ValueError
  | Some freqs =>
      Z <- construct_z X Y freqs (gaussian_width self) ;;
      Sig <- np_cov_T Z ;;
      W <- np_mean0 Z ;;
      x <- linalg_solve Sig W ;;
      Return (nx%:R * dot x W)
  end.

Definition perform_test (self : t) {nx ny : nat}
  (X : 'M[R]_(nx, d)) (Y : 'M[R]_(ny, d)) : result test_result :=
  stat <- compute_stat self X Y ;;
  let pvalue := chi2_sf stat (2 * J) in
  Return (TestResult (alpha self) pvalue stat (Rltb pvalue (alpha self))).

(** The Theano version of [construct_z], on two batches of the same
    number of rows; it has no check of its own. *)
Definition construct_z_theano {n : nat} (Xth Yth : 'M[R]_(n, d))
  (Tth : 'M[R]_(J, d)) (gwidth_th : R) : result 'M[R]_(n, J + J) :=
  X' <- mx_fdiv Xth gwidth_th ;;
  Y' <- mx_fdiv Yth gwidth_th ;;
  Return (smooth_features X' Tth - smooth_features Y' Tth).

End Class.

End SmoothCFTest.

(** ** MeanEmbeddingTest *)

Module MeanEmbeddingTest.

Section Class.

(** [stats.chi2.sf] of SciPy. *)
Variable chi2_sf : R -> nat -> R.

Variables (J d : nat).

Record t : Type := Make {
  test_locs : option 'M[R]_(J, d);
  gaussian_width : R;
  alpha : R
}.

Definition init (locs : option 'M[R]_(J, d)) (width : R) (alpha : R) :
  result t :=
  if Rltb 0 width then Return (Make locs width alpha) else Raise ValueError.

(** [exp(-D2)] for data already divided by the width, where [D2] is
    [sum(X**2, 1)[:, newaxis] - 2*X.dot(test_locs.T) + sum(test_locs**2, 1)]. *)
Definition gauss_kernel {n : nat} (X : 'M[R]_(n, d))
  (locs : 'M[R]_(J, d)) : 'M[R]_(n, J) :=
  \matrix_(i, j)
    exp (- ((\sum_k (X i k) ^+ 2) - 2%:R * (X *m locs^T) i j
            + \sum_k (locs j k) ^+ 2))%R.

Definition asym_gauss_kernel {n : nat} (X : 'M[R]_(n, d))
  (locs : 'M[R]_(J, d)) (gamma : R) : result 'M[R]_(n, J) :=
  X' <- mx_fdiv X gamma ;;
  Return (gauss_kernel X' locs).

Definition compute_stat (self : t) {nx ny : nat}
  (X : 'M[R]_(nx, d)) (Y : 'M[R]_(ny, d)) : result R :=
  match test_locs self with
  | None => Raise ValueError
  | Some locs =>
      g <- asym_gauss_kernel X locs (gaussian_width self) ;;
      h <- asym_gauss_kernel Y locs (gaussian_width self) ;;
      Zs <- np_sub_bcast g h ;;
      let Z := projT2 Zs in
      Sig <- np_cov_T Z ;;
      W <- np_mean0 Z ;;
      x <- linalg_solve Sig W ;;
      Return (nx%:R * dot x W)
  end.

Definition perform_test (self : t) {nx ny : nat}
  (X : 'M[R]_(nx, d)) (Y : 'M[R]_(ny, d)) : result test_result :=
  stat <- compute_stat self X Y ;;
  let pvalue := chi2_sf stat J in
  Return (TestResult (alpha self) pvalue stat (Rltb pvalue (alpha self))).

Definition asym_gauss_kernel_theano {n : nat} (X : 'M[R]_(n, d))
  (locs : 'M[R]_(J, d)) (gamma : R) : result 'M[R]_(n, J) :=
  X' <- mx_fdiv X gamma ;;
  Return (gauss_kernel X' locs).

Definition construct_z_theano {n : nat} (Xth Yth : 'M[R]_(n, d))
  (locs : 'M[R]_(J, d)) (gaussian_width : R) : result 'M[R]_(n, J) :=
  g <- asym_gauss_kernel_theano Xth locs gaussian_width ;;
  h <- asym_gauss_kernel_theano Yth locs gaussian_width ;;
  Return (g - h).

End Class.

End MeanEmbeddingTest.

(** ** Python sequences *)

(** [s[:k]], where a negative [k] counts from the end. *)
Definition py_slice_to {A : Type} (s : seq A) (k : Z) : seq A :=
  if (0 <=? k)%Z then take (Z.to_nat k) s
  else take (size s - Z.to_nat (- k)) s.

(** [s[-1]]: the last element; [IndexError] on an empty sequence. *)
Definition py_last {A : Type} (s : seq A) : result A :=
  if s is x :: s' then Return (last x s') else Raise IndexError.

(** [X[ind, :]]: the rows of [X] whose numbers are listed in [ind]. *)
Definition take_rows {n d : nat} (X : 'M[R]_(n, d)) (ind : seq nat) :
  'M[R]_(size ind, d) :=
  \matrix_(i, j) mx_nth X (nth 0%N ind i) j.

(** ** Doubles *)

(** Where a float becomes an integer, its rounding decides the result,
    so there the float is a double and not a real number: the double
    [m * 2^e], an infinity or [nan].  The sign of a zero is not kept;
    [int] does not read it. *)
Inductive float64 : Set :=
  | F_finite (m e : Z)
  | F_inf (negative : bool)
  | F_nan.

(** The number of binary digits of [m], [m.bit_length()]. *)
Definition bit_length (m : Z) : Z :=
  if (m =? 0)%Z then 0%Z else (Z.log2 (Z.abs m) + 1)%Z.

(** The double nearest to [m * 2^e], a tie going to the even mantissa,
    as IEEE 754 rounds the exact result of an operation.  The mantissa
    keeps 53 digits, fewer when the exponent would fall below [-1074];
    a rounded value of [2^1024] or more is an infinity. *)
Definition round64 (m e : Z) : float64 :=
  let k := Z.max (bit_length m - 53) (-1074 - e) in
  let me' :=
    if (k <=? 0)%Z then (m, e)
    else
      let q := (Z.abs m / 2 ^ k)%Z in
      let r := (Z.abs m mod 2 ^ k)%Z in
      let half := (2 ^ (k - 1))%Z in
      let up := (half <? r)%Z || ((half =? r)%Z && Z.odd q) in
      ((Z.sgn m * (if up then q + 1 else q))%Z, (e + k)%Z) in
  if (me'.1 =? 0)%Z then F_finite 0 0
  else if (1024 <? bit_length me'.1 + me'.2)%Z then F_inf (me'.1 <? 0)%Z
  else F_finite me'.1 me'.2.

(** [x * y] on two doubles. *)
Definition float_mul (x y : float64) : float64 :=
  match x, y with
  | F_nan, _ | _, F_nan => F_nan
  | F_inf s, F_inf s' => F_inf (xorb s s')
  | F_inf s, F_finite m _ | F_finite m _, F_inf s =>
      if (m =? 0)%Z then F_nan else F_inf (xorb s (m <? 0)%Z)
  | F_finite m e, F_finite m' e' => round64 (m * m') (e + e')
  end.

(** The double that a Python integer becomes in an operation with a
    float; an integer too large for a double raises [OverflowError]. *)
Definition float_of_int (n : Z) : result float64 :=
  match round64 n 0 with
  | F_inf _ => Raise OverflowError
  | x => Return x
  end.

(** [int(x)] on a double: truncation towards zero; [nan] raises
    [ValueError] and an infinity [OverflowError]. *)
Definition py_int (x : float64) : result Z :=
  match x with
  | F_nan => Raise ValueError
  | F_inf _ => Raise OverflowError
  | F_finite m e =>
      Return (if (0 <=? e)%Z then m * 2 ^ e else Z.quot m (2 ^ (- e)))%Z
  end.

(** The doubles [1.0], the default of [batch_proportion], and [0.5]. *)
Definition float_one : float64 := F_finite 1 0.
Definition float_half : float64 := F_finite 1 (-1).

(** ** The random generator of NumPy *)

(** The global generator [np.random]: its state, the state that
    [np.random.seed] installs, and the draws the module makes, each
    returning the state it leaves.  [rng_choice g a size] is
    [np.random.choice(a, size, replace=False)]. *)
Record numpy_random : Type := NumpyRandom {
  rng_state : Type;
  rng_seed : nat -> rng_state;
  rng_randn : rng_state -> forall J d : nat, 'M[R]_(J, d) * rng_state;
  rng_choice : rng_state -> nat -> Z -> result (seq nat * rng_state)
}.

(** ** Theano: the compiled function of the optimisers *)

Section Theano.

Variables (J d m : nat).

(** The shared variables [T], [it] and [gamma_sq_th]. *)
Record shared : Type := Shared {
  sh_T : 'M[R]_(J, d);
  sh_it : nat;
  sh_gamma_sq : R
}.

(** The function that builds the features, [func_z]. *)
Variable func_z :
  forall nb : nat, 'M[R]_(nb, d) -> 'M[R]_(nb, d) -> 'M[R]_(J, d) -> R ->
  result 'M[R]_(nb, m).

(** The number of rows of the full data, [nx]. *)
Variable nx : nat.

(** [tensor.grad(s, [T, gamma_sq_th])]: the values of the two gradients
    at a batch and at the values of the shared variables. *)
Variable gra_T :
  forall nb : nat, 'M[R]_(nb, d) -> 'M[R]_(nb, d) -> 'M[R]_(J, d) -> R ->
  'M[R]_(J, d).
Variable gra_gamma_sq :
  forall nb : nat, 'M[R]_(nb, d) -> 'M[R]_(nb, d) -> 'M[R]_(J, d) -> R -> R.

(** [nlinalg.matrix_inverse]: a singular matrix raises [LinAlgError]. *)
Definition matrix_inverse (A : 'M[R]_m) : result 'M[R]_m :=
  if A \in unitmx then Return (invmx A) else Raise LinAlgError.

(** The output [s] of the compiled function. *)
Definition objective {nb : nat} (Xth Yth : 'M[R]_(nb, d))
  (T : 'M[R]_(J, d)) (gamma_sq : R) : result R :=
  Z <- func_z Xth Yth T (gamma_sq ^+ 2) ;;
  W <- (if nx == 0%N then NonFinite
        else Return (\col_j ((\sum_i Z i j) / nx%:R) : 'cV[R]_m)) ;;
  let Z0 := sub_row Z W in
  let Sig := (nx%:R)^-1 *: (Z0^T *m Z0) in
  Sinv <- matrix_inverse Sig ;;
  Return (dot (Sinv *m W) W * nx%:R).

(** [tensor.sgn]. *)
Definition sgn (x : R) : R :=
  if Rltb 0 x then 1 else if Rltb x 0 then -1 else 0.

(** The step of the width:
    [gwidth_step_size*sgn(g)*minimum(abs_(g), max_gam_sq_step)/it**step_pow]. *)
Definition gamma_sq_step (gwidth_step_size : R) (g : R) (it : nat) : result R :=
  fdiv (gwidth_step_size * sgn g * Rmin (Rabs g) 1) (sqrt (INR it)).

(** The step of [T]:
    [T_step_size*gra_T/it**step_pow/tensor.sum(gra_T**2)**0.5]. *)
Definition T_step (T_step_size : R) (g : 'M[R]_(J, d)) (it : nat) :
  result 'M[R]_(J, d) :=
  A <- mx_fdiv (T_step_size *: g) (sqrt (INR it)) ;;
  mx_fdiv A (sqrt (\sum_i \sum_j (g i j) ^+ 2)).

(** [func] of [optimize_T_gaussian_width]: it returns [s] and updates
    the three shared variables, each from the values before the call. *)
Definition func_T (T_step_size gwidth_step_size : R) (nb : nat)
  (Xth Yth : 'M[R]_(nb, d)) (sh : shared) : result (R * shared) :=
  s <- objective Xth Yth (sh_T sh) (sh_gamma_sq sh) ;;
  dT <- T_step T_step_size
          (gra_T Xth Yth (sh_T sh) (sh_gamma_sq sh)) (sh_it sh) ;;
  dg <- gamma_sq_step gwidth_step_size
          (gra_gamma_sq Xth Yth (sh_T sh) (sh_gamma_sq sh)) (sh_it sh) ;;
  Return (s, Shared (sh_T sh + dT) (sh_it sh).+1 (sh_gamma_sq sh + dg)).

(** [func] of [optimize_gaussian_width]: [T] is not updated. *)
Definition func_width (gwidth_step_size : R) (nb : nat)
  (Xth Yth : 'M[R]_(nb, d)) (sh : shared) : result (R * shared) :=
  s <- objective Xth Yth (sh_T sh) (sh_gamma_sq sh) ;;
  dg <- gamma_sq_step gwidth_step_size
          (gra_gamma_sq Xth Yth (sh_T sh) (sh_gamma_sq sh)) (sh_it sh) ;;
  Return (s, Shared (sh_T sh) (sh_it sh).+1 (sh_gamma_sq sh + dg)).

End Theano.

(** ** The gradient ascent of the two optimisers *)

Section GradientAscent.

Variable rnd : numpy_random.

Variables (J d : nat).

(** The two samples, [X, Y = tst_data.xy()], of [nx] rows each. *)
Variable nx : nat.
Variables X Y : 'M[R]_(nx, d).

(** The compiled function. *)
Variable func :
  forall nb : nat, 'M[R]_(nb, d) -> 'M[R]_(nb, d) -> shared J d ->
  result (R * shared J d).

Variables (max_iter : nat) (batch_proportion : float64) (tol_fun : R).

(** The variables of the loop: the state of [np.random], the shared
    variables of Theano, the arrays [S], [Ts] and [gams], and [t], which
    is unbound until the loop assigns it. *)
Record ascent : Type := Ascent {
  a_rng : rng_state rnd;
  a_sh : shared J d;
  a_S : seq R;
  a_Ts : seq 'M[R]_(J, d);
  a_gams : seq R;
  a_t : option Z
}.

(** [min(int(batch_proportion*nx), nx)]: the integer [nx] becomes a
    double, the product is a product of doubles, and [int] truncates
    it. *)
Definition batch_size : result Z :=
  n <- float_of_int (Z.of_nat nx) ;;
  k <- py_int (float_mul batch_proportion n) ;;
  Return (Z.min k (Z.of_nat nx)).

(** [np.random.choice(nx, min(int(batch_proportion*nx), nx),
    replace=False)] in the state [g] of [np.random]. *)
Definition draw_batch (g : rng_state rnd) : result (seq nat * rng_state rnd) :=
  size <- batch_size ;;
  rng_choice g nx size.

(** [t >= 2 and abs(S[t]-S[t-1]) <= tol_fun]. *)
Definition converged (S : seq R) (t : nat) : bool :=
  (2 <= t)%N && Rleb (Rabs (nth 0 S t - nth 0 S t.-1)) tol_fun.

(** One pass of the loop body of [optimize_T_gaussian_width]; the
    boolean tells whether it ended in [break].  The bare [except]
    catches whatever [func] raises.  A pass in which [func] meets a
    division by zero has the outcome [NonFinite]: the program goes on
    with [nan] in its arrays, which the model does not follow. *)
Definition body_T (t : nat) (a : ascent) : result (bool * ascent) :=
  draw <- draw_batch (a_rng a) ;;
  let ind := draw.1 in
  match func (take_rows X ind) (take_rows Y ind) (a_sh a) with
  | Raise _ =>
      Return (true, Ascent draw.2 (a_sh a) (a_S a) (a_Ts a) (a_gams a)
                      (Some (Z.of_nat t - 1)%Z))
  | NonFinite => NonFinite
  | Return (s, sh) =>
      let S := set_nth 0 (a_S a) t s in
      let Ts := set_nth 0 (a_Ts a) t (sh_T sh) in
      let gams := set_nth 0 (a_gams a) t (sh_gamma_sq sh ^+ 2) in
      Return (converged S t,
              Ascent draw.2 sh S Ts gams (Some (Z.of_nat t)))
  end.

(** One pass of the loop body of [optimize_gaussian_width]: the call of
    [func] is not guarded. *)
Definition body_width (t : nat) (a : ascent) : result (bool * ascent) :=
  draw <- draw_batch (a_rng a) ;;
  let ind := draw.1 in
  r <- func (take_rows X ind) (take_rows Y ind) (a_sh a) ;;
  let S := set_nth 0 (a_S a) t r.1 in
  let gams := set_nth 0 (a_gams a) t (sh_gamma_sq r.2 ^+ 2) in
  Return (converged S t,
          Ascent draw.2 r.2 S (a_Ts a) gams (Some (Z.of_nat t))).

(** [for t in range(...)] over the values [ts], with [break]. *)
Fixpoint for_range (body : nat -> ascent -> result (bool * ascent))
  (ts : seq nat) (a : ascent) : result ascent :=
  match ts with
  | [::] => Return a
  | t :: ts' =>
      r <- body t a ;;
      if r.1 then Return r.2 else for_range body ts' r.2
  end.

(** The variables before the loop. *)
Definition ascent_init (g : rng_state rnd) (T0 : 'M[R]_(J, d))
  (gamma_sq_init : R) : ascent :=
  Ascent g (Shared T0 1 gamma_sq_init)
         (nseq max_iter 0) (nseq max_iter 0) (nseq max_iter 0) None.

(** The dictionary [info] of [optimize_T_gaussian_width]. *)
Record info_T : Type := InfoT {
  info_Ts : seq 'M[R]_(J, d);
  info_T0 : 'M[R]_(J, d);
  info_gwidths : seq R;
  info_obj_values : seq R
}.

(** The loop of [optimize_T_gaussian_width] and what follows it: the
    three arrays are cut at [t+1] and the last [T] and width are
    returned.  The state of [np.random] that the call leaves is
    returned with them. *)
Definition ascent_T (g : rng_state rnd) (T0 : 'M[R]_(J, d))
  (gamma_sq_init : R) :
  result ('M[R]_(J, d) * R * info_T * rng_state rnd) :=
  a <- for_range body_T (iota 0 max_iter) (ascent_init g T0 gamma_sq_init) ;;
  match a_t a with
  | None => Raise UnboundLocalError
  | Some t =>
      let S := py_slice_to (a_S a) (t + 1) in
      let Ts := py_slice_to (a_Ts a) (t + 1) in
      let gams := py_slice_to (a_gams a) (t + 1) in
      T <- py_last Ts ;;
      gam <- py_last gams ;;
      Return (T, gam, InfoT Ts T0 gams S, a_rng a)
  end.

(** The dictionary [info] of [optimize_gaussian_width]. *)
Record info_width : Type := InfoWidth {
  infow_T : 'M[R]_(J, d);
  infow_gwidths : seq R;
  infow_obj_values : seq R
}.

(** The loop of [optimize_gaussian_width] and what follows it: the
    arrays are cut at [t]. *)
Definition ascent_width (g : rng_state rnd) (T : 'M[R]_(J, d))
  (gamma_sq_init : R) : result (R * info_width * rng_state rnd) :=
  a <- for_range body_width (iota 0 max_iter) (ascent_init g T gamma_sq_init) ;;
  match a_t a with
  | None => Raise UnboundLocalError
  | Some t =>
      let S := py_slice_to (a_S a) t in
      let gams := py_slice_to (a_gams a) t in
      gam <- py_last gams ;;
      Return (gam, InfoWidth T gams S, a_rng a)
  end.

End GradientAscent.

(** ** The optimisers *)

Section Optimisers.

Variable rnd : numpy_random.

(** [tst_data.mean_std()], of the module [freqopttest.data]. *)
Variable mean_std : forall n d : nat, 'M[R]_(n, d) -> 'M[R]_(n, d) -> R.

Variables (J d m : nat).

Variable func_z :
  forall nb : nat, 'M[R]_(nb, d) -> 'M[R]_(nb, d) -> 'M[R]_(J, d) -> R ->
  result 'M[R]_(nb, m).

Variable nx : nat.

Variable gra_T :
  forall nb : nat, 'M[R]_(nb, d) -> 'M[R]_(nb, d) -> 'M[R]_(J, d) -> R ->
  'M[R]_(J, d).
Variable gra_gamma_sq :
  forall nb : nat, 'M[R]_(nb, d) -> 'M[R]_(nb, d) -> 'M[R]_(J, d) -> R -> R.

(** [gamma_sq_init = 1e-4 + tst_data.mean_std()**0.5]. *)
Definition gamma_sq_init (X Y : 'M[R]_(nx, d)) : R :=
  (/ 10000 + sqrt (mean_std X Y))%Re.

Definition optimize_T_gaussian_width (g : rng_state rnd)
  (X Y : 'M[R]_(nx, d)) (T0 : 'M[R]_(J, d))
  (max_iter : nat) (T_step_size gwidth_step_size : R)
  (batch_proportion : float64) (tol_fun : R) :=
  ascent_T X Y
    (func_T func_z nx gra_T gra_gamma_sq T_step_size gwidth_step_size)
    max_iter batch_proportion tol_fun g T0 (gamma_sq_init X Y).

Definition optimize_gaussian_width (g : rng_state rnd)
  (X Y : 'M[R]_(nx, d)) (T : 'M[R]_(J, d))
  (max_iter : nat) (gwidth_step_size : R) (batch_proportion : float64)
  (tol_fun : R) :=
  ascent_width X Y
    (func_width func_z nx gra_gamma_sq gwidth_step_size)
    max_iter batch_proportion tol_fun g T (gamma_sq_init X Y).

End Optimisers.

Section SmoothCFTestOptimisers.

Variable rnd : numpy_random.
Variable mean_std : forall n d : nat, 'M[R]_(n, d) -> 'M[R]_(n, d) -> R.

Variables (n_test_freqs d nx : nat).

Variable gra_T :
  forall nb : nat, 'M[R]_(nb, d) -> 'M[R]_(nb, d) ->
  'M[R]_(n_test_freqs, d) -> R -> 'M[R]_(n_test_freqs, d).
Variable gra_gamma_sq :
  forall nb : nat, 'M[R]_(nb, d) -> 'M[R]_(nb, d) ->
  'M[R]_(n_test_freqs, d) -> R -> R.

(** [SmoothCFTest.optimize_freqs_width]: the state of [np.random] is
    saved, the generator is seeded, [T0] is drawn and the saved state is
    put back; the optimiser runs after that.  [g] is the state of
    [np.random] at the call.  The dictionary [ninfo] that is returned
    holds the entries of [info] under the keys [test_freqs],
    [test_freqs0], [gwidths] and [obj_values]. *)
Definition optimize_freqs_width (g : rng_state rnd) (X Y : 'M[R]_(nx, d))
  (max_iter : nat)
  (freqs_step_size gwidth_step_size : R) (batch_proportion : float64)
  (tol_fun : R) (seed : nat) :=
  let rand_state := g in
  let seeded := rng_seed rnd seed in
  let T0 := (rng_randn seeded n_test_freqs d).1 in
  let restored := rand_state in
  r <- optimize_T_gaussian_width mean_std
         (@SmoothCFTest.construct_z_theano n_test_freqs d)
         gra_T gra_gamma_sq restored X Y T0 max_iter
         freqs_step_size gwidth_step_size batch_proportion tol_fun ;;
  Return r.

End SmoothCFTestOptimisers.

(** * Examples and auxiliary definitions *)

(** The statistic of the tests as a function of the features: what
    [compute_stat] does after [construct_z]. *)
Definition stat_of_features {n m : nat} (nx : nat) (Z : 'M[R]_(n, m)) :
  result R :=
  Sig <- np_cov_T Z ;;
  W <- np_mean0 Z ;;
  x <- linalg_solve Sig W ;;
  Return (nx%:R * dot x W).

(** The objective of the optimisers as a function of the features. *)
Definition objective_of_features {n m : nat} (nx : nat) (Z : 'M[R]_(n, m)) :
  result R :=
  W <- (if nx == 0%N then NonFinite
        else Return (\col_j ((\sum_i Z i j) / nx%:R) : 'cV[R]_m)) ;;
  let Z0 := sub_row Z W in
  let Sig := (nx%:R)^-1 *: (Z0^T *m Z0) in
  Sinv <- matrix_inverse Sig ;;
  Return (dot (Sinv *m W) W * nx%:R).

(** The worked example: one dimension and one frequency [w]; the sample
    [X] is [1, -1, 0], the sample [Y] is [0, 0, 0]. *)
Definition ex_X : 'M[R]_(3, 1) := \matrix_(i, j) nth 0 [:: 1; -1; 0] i.
Definition ex_Y : 'M[R]_(3, 1) := const_mx 0.
Definition ex_T (w : R) : 'M[R]_(1, 1) := const_mx w.

(** The values that the features of the example are made of. *)
Definition ex_e (w : R) : R := exp (- (w^-1 ^+ 2) / 2%:R)%R.
Definition ex_a (w : R) : R := sin 1 * ex_e w.
Definition ex_u (w : R) : R := cos 1 * ex_e w - 1.

(** The features of the example: a column of sines, a column of
    cosines. *)
Definition ex_Z (a u : R) : 'M[R]_(3, 1 + 1) :=
  row_mx (\matrix_(i, j) nth 0 [:: a; - a; 0] i)
         (\matrix_(i, j) nth 0 [:: u; u; 0] i).

(** The covariance of the features [ex_Z a u], their mean and the
    solution of the linear system. *)
Definition ex_Sig (a u : R) : 'M[R]_(1 + 1) :=
  block_mx (a ^+ 2)%:M 0 0 (u ^+ 2 / 3%:R)%:M.

Definition ex_W (u : R) : 'cV[R]_(1 + 1) := col_mx 0 (2%:R * u / 3%:R)%:M.

Definition ex_x (u : R) : 'cV[R]_(1 + 1) := col_mx 0 (2%:R / u)%:M.

(** A generator that counts its draws: the state is the number of draws
    since the seed, [randn] fills the array with [c] and [choice] takes
    the first indices. *)
Definition counting_rng (c : R) : numpy_random :=
  @NumpyRandom nat (fun seed => seed)
    (fun g J d => (const_mx c, g.+1))
    (fun g a size =>
       if (size <? 0)%Z || (Z.of_nat a <? size)%Z then Raise ValueError
       else Return (take (Z.to_nat size) (iota 0 a), g.+1)).

(** [np.std(X, 0)], one column. *)
Definition np_std0 {n d : nat} (X : 'M[R]_(n, d)) (j : 'I_d) : R :=
  let mu := (\sum_i X i j) / n%:R in
  sqrt ((\sum_i (X i j - mu) ^+ 2) / n%:R).

(** The average standard deviation of the two samples,
    [(np.mean(np.std(X, 0)) + np.mean(np.std(Y, 0)))/2.0]. *)
Definition avg_std (n d : nat) (X Y : 'M[R]_(n, d)) : R :=
  ((\sum_j np_std0 X j) / d%:R + (\sum_j np_std0 Y j) / d%:R) / 2%:R.

(** Two constant oracles in the place of the gradients of Theano, for
    the examples about the loop: its passes, its traces and the draws
    it makes, which do not read the values of the gradients. *)
Definition ex_gra_T (nb : nat) (_ _ : 'M[R]_(nb, 1)) (_ : 'M[R]_(1, 1))
  (_ : R) : 'M[R]_(1, 1) := const_mx 1.
Definition ex_gra_gamma_sq (nb : nat) (_ _ : 'M[R]_(nb, 1))
  (_ : 'M[R]_(1, 1)) (_ : R) : R := -1.

(** The compiled function of [optimize_T_gaussian_width] on the
    example. *)
Definition ex_func_T (T_step_size gwidth_step_size : R) :=
  func_T (@SmoothCFTest.construct_z_theano 1 1) 3 ex_gra_T ex_gra_gamma_sq
         T_step_size gwidth_step_size.

(** The survival function of the chi-squared distribution with two
    degrees of freedom, [exp(-s/2)] for a positive [s]. *)
Definition chi2_sf_2 (s : R) (k : nat) : R :=
  if Rleb s 0 then 1%Re else exp (- s / 2).

(** The matrix whose rows are listed. *)
Definition mx_of_rows (n d : nat) (rows : seq (seq R)) : 'M[R]_(n, d) :=
  \matrix_(i, j) nth 0 (nth [::] rows i) j.

(** An example for the mean embedding test: two dimensions, the
    locations [(1, 0)] and [(-1, 0)], four rows in each sample. *)
Definition me_X : 'M[R]_(4, 2) :=
  mx_of_rows 4 2 [:: [:: 1; 0]; [:: -1; 0]; [:: 0; 0]; [:: 0; 1]].
Definition me_Y : 'M[R]_(4, 2) :=
  mx_of_rows 4 2 [:: [:: -1; 0]; [:: 1; 0]; [:: 0; 1]; [:: 0; 0]].
Definition me_T : 'M[R]_(2, 2) := mx_of_rows 2 2 [:: [:: 1; 0]; [:: -1; 0]].

(** The two values that its features take, up to sign. *)
Definition me_v : R := (1 - exp (- 4))%Re.
Definition me_r : R := (exp (- 1) - exp (- 2))%Re.

(** The features of that example. *)
Definition me_Z : 'M[R]_(4, 2) :=
  mx_of_rows 4 2 [:: [:: me_v; - me_v]; [:: - me_v; me_v];
                     [:: me_r; me_r]; [:: - me_r; - me_r]].

(** The covariance of those features, as [np.cov] computes it. *)
Definition me_Sig : 'M[R]_(1 + 1) :=
  block_mx ((2%:R * me_v ^+ 2 + 2%:R * me_r ^+ 2) / 3%:R)%:M
           ((2%:R * me_r ^+ 2 - 2%:R * me_v ^+ 2) / 3%:R)%:M
           ((2%:R * me_r ^+ 2 - 2%:R * me_v ^+ 2) / 3%:R)%:M
           ((2%:R * me_v ^+ 2 + 2%:R * me_r ^+ 2) / 3%:R)%:M.

(** A sample [X] of one row and a sample [Y] of three rows. *)
Definition me_X1 : 'M[R]_(1, 2) := mx_of_rows 1 2 [:: [:: 0; 0]].
Definition me_Y3 : 'M[R]_(3, 2) :=
  mx_of_rows 3 2 [:: [:: 1; 0]; [:: -1; 0]; [:: 0; 1]].

(** The values of the kernel on these samples. *)
Definition me_p : R := exp (- 4).
Definition me_q : R := exp (- 2).
Definition me_k0 : R := exp (- 1).

(** The features that broadcasting the row of [X] gives. *)
Definition me_Z3 : 'M[R]_(3, 2) :=
  mx_of_rows 3 2 [:: [:: me_k0 - 1; me_k0 - me_p];
                     [:: me_k0 - me_p; me_k0 - 1];
                     [:: me_k0 - me_q; me_k0 - me_q]].

(** The mean of the second sample's kernel values. *)
Definition me_m : R := (1 + me_p + me_q) / 3%:R.

(** The entries of the covariance of [me_Z3]. *)
Definition me_c11 : R :=
  ((1 - me_m) ^+ 2 + (me_p - me_m) ^+ 2 + (me_q - me_m) ^+ 2) / 2%:R.
Definition me_c12 : R :=
  (2%:R * (1 - me_m) * (me_p - me_m) + (me_q - me_m) ^+ 2) / 2%:R.

(** The covariance of [me_Z3]. *)
Definition me_Sig3 : 'M[R]_(1 + 1) :=
  block_mx me_c11%:M me_c12%:M me_c12%:M me_c11%:M.

(** What the dictionary holds for a statistic [s], a number of degrees
    of freedom and a level [alpha]. *)
Definition result_of_stat (chi2_sf : R -> nat -> R) (dof : nat)
  (alpha s : R) (r : test_result) : Prop :=
  [/\ res_test_stat r = s, res_alpha r = alpha,
      res_pvalue r = chi2_sf s dof,
      (0 <= res_pvalue r <= 1)%Re &
      res_h0_rejected r = Rltb (res_pvalue r) alpha].

(** Whether a computation raised [ValueError]. *)
Definition is_ValueError {A : Type} (r : result A) : bool :=
  if r is Raise ValueError then true else false.

(** Whether a computation returned a value. *)
Definition is_Return {A : Type} (r : result A) : bool :=
  if r is Return _ then true else false.

(** A gradient of [T] that is zero. *)
Definition zero_gra_T (nb : nat) (_ _ : 'M[R]_(nb, 1)) (_ : 'M[R]_(1, 1))
  (_ : R) : 'M[R]_(1, 1) := 0.

(** The least integer that is not below [r], written with the integer
    part of the reals. *)
Definition ceiling (r : R) : Z := (- Int_part (- r))%Z.

(** The real number that a double is; 0 for an infinity and [nan]. *)
Definition float_val (x : float64) : R :=
  if x is F_finite m e then (IZR m * powerRZ 2 e)%Re else 0.

(** What [np.random.choice(a, size, replace=False)] promises of the
    indices it returns. *)
Definition choice_without_replacement (rnd : numpy_random) : Prop :=
  forall (g g' : rng_state rnd) (a : nat) (k : Z) (ind : seq nat),
    rng_choice g a k = Return (ind, g') ->
    [/\ size ind = Z.to_nat k, uniq ind & all (fun i => (i < a)%N) ind].

(** The start value of the internal variable on the example. *)
Definition ex_g0 : R := gamma_sq_init avg_std ex_X ex_Y.

(** The state of [np.random] after [k] draws of a mini-batch, one after
    the other. *)
Fixpoint after_draws (rnd : numpy_random) (nx : nat)
  (batch_proportion : float64)
  (k : nat) (g : rng_state rnd) : result (rng_state rnd) :=
  if k is k'.+1 then
    draw <- draw_batch nx batch_proportion g ;;
    after_draws nx batch_proportion k' draw.2
  else Return g.

(** A compiled function that returns in its first call and raises in
    its second one. *)
Definition faulty_func (nb : nat) (_ _ : 'M[R]_(nb, 1)) (sh : shared 1 1) :
  result (R * shared 1 1) :=
  if sh_it sh == 1%N then Return (1, Shared (sh_T sh) 2 (sh_gamma_sq sh))
  else Raise LinAlgError.

(** The value of an outcome, 0 when there is none. *)
Definition value_of (r : result R) : R := if r is Return s then s else 0.

(** A feature map for the optimisers on data of dimension 1 with one
    test point, [lambda X, Y, T, w: X + Y.dot(T.T) - w*Y]. *)
Definition shift_z (nb : nat) (Xth Yth : 'M[R]_(nb, 1)) (Tth : 'M[R]_(1, 1))
  (w : R) : result 'M[R]_(nb, 1) :=
  Return (Xth + Yth *m Tth^T - w *: Yth).

(** Two samples of two rows, [X = [[0.5], [-0.5]]] and
    [Y = [[1], [1]]], and the initial [T0 = [[2]]]. *)
Definition sq_X : 'M[R]_(2, 1) := \matrix_(i, j) nth 0 [:: / 2; - / 2]%Re i.
Definition sq_Y : 'M[R]_(2, 1) := const_mx 1.
Definition sq_T0 : 'M[R]_(1, 1) := const_mx 2%:R.

(** The gradients of the objective of [shift_z] on these two samples,
    where the objective is [8 (T - gamma_sq^2)^2]. *)
Definition sq_gra_T (nb : nat) (_ _ : 'M[R]_(nb, 1)) (T : 'M[R]_(1, 1))
  (g : R) : 'M[R]_(1, 1) := const_mx (16%:R * (T 0 0 - g ^+ 2)).
Definition sq_gra_gamma_sq (nb : nat) (_ _ : 'M[R]_(nb, 1))
  (T : 'M[R]_(1, 1)) (g : R) : R := - (32%:R * g * (T 0 0 - g ^+ 2)).

(** * Further classes and methods of the module *)

(** ** HotellingT2Test *)

Module HotellingT2Test.

Section Class.

(** [stats.chi2.sf] of SciPy. *)
Variable chi2_sf : R -> nat -> R.

(** The dimension of the data, [tst_data.dim()]. *)
Variable d : nat.

Record t : Type := Make {
  alpha : R
}.

Definition init (alpha : R) : t := Make alpha.

(** [c/n] for the result [c] of [np.cov] and a row count [n]. *)
Definition cov_div (c : cov_array d) (n : nat) : result (cov_array d) :=
  if n == 0%N then NonFinite
  else Return (match c with
               | Cov0d c => Cov0d ((n%:R)^-1 *: c)
               | Cov2d c => Cov2d ((n%:R)^-1 *: c)
               end).

(** [a + b] on two results of [np.cov]: the sum has dimension 0 only
    when both have. *)
Definition cov_add (a b : cov_array d) : cov_array d :=
  match a, b with
  | Cov0d a, Cov0d b => Cov0d (a + b)
  | Cov0d a, Cov2d b => Cov2d (a + b)
  | Cov2d a, Cov0d b => Cov2d (a + b)
  | Cov2d a, Cov2d b => Cov2d (a + b)
  end.

(** The two samples may have different numbers of rows: the check is
    commented out in the source. *)
Definition compute_stat (self : t) {nx ny : nat}
  (X : 'M[R]_(nx, d)) (Y : 'M[R]_(ny, d)) : result R :=
  mx <- np_mean0 X ;;
  my <- np_mean0 Y ;;
  let mdiff := mx - my in
  sx <- np_cov_T X ;;
  sy <- np_cov_T Y ;;
  sxn <- cov_div sx nx ;;
  syn <- cov_div sy ny ;;
  let s := cov_add sxn syn in
  x <- linalg_solve s mdiff ;;
  Return (dot x mdiff).

Definition perform_test (self : t) {nx ny : nat}
  (X : 'M[R]_(nx, d)) (Y : 'M[R]_(ny, d)) : result test_result :=
  chi2_stat <- compute_stat self X Y ;;
  let pvalue := chi2_sf chi2_stat d in
  Return (TestResult (alpha self) pvalue chi2_stat
            (Rltb pvalue (alpha self))).

End Class.

End HotellingT2Test.

(** ** State and exceptions *)

(** A computation that may raise while [np.random] is in a state [st]:
    the outcome is paired with the state the call leaves behind. *)
Definition bind_st {S A B : Type} (c : result A) (st : S)
  (k : A -> result B * S) : result B * S :=
  match c with
  | Return a => k a
  | Raise e => (Raise e, st)
  | NonFinite => (NonFinite, st)
  end.

(** [np.mean(np.std(X, 0))]: [nan] on an array without rows or without
    columns. *)
Definition np_mean_std0 {n d : nat} (X : 'M[R]_(n, d)) : result R :=
  if (n == 0%N) || (d == 0%N) then NonFinite
  else Return ((\sum_j np_std0 X j) / d%:R).

(** ** The static methods of SmoothCFTest *)

Module SmoothCFTestStatic.

Section Methods.

Variable rnd : numpy_random.

(** [tst_data.mean_std()], of the module [freqopttest.data]. *)
Variable mean_std : forall n d : nat, 'M[R]_(n, d) -> 'M[R]_(n, d) -> R.

Variables (J d nx : nat).

Variable gra_gamma_sq :
  forall nb : nat, 'M[R]_(nb, d) -> 'M[R]_(nb, d) -> 'M[R]_(J, d) -> R -> R.

(** [create_randn]: the state of [np.random] is saved, the generator is
    seeded, the frequencies are drawn and the saved state is put back;
    the constructor runs after that.  [g] is the state at the call. *)
Definition create_randn (g : rng_state rnd) (X Y : 'M[R]_(nx, d))
  (alpha : R) (seed : nat) : result (SmoothCFTest.t J d) * rng_state rnd :=
  let rand_state := g in
  let seeded := rng_seed rnd seed in
  let gamma := mean_std X Y in
  let T := (rng_randn seeded J d).1 in
  let restored := rand_state in
  (SmoothCFTest.init (Some T) gamma alpha, restored).

(** [optimize_gwidth]: the dictionary [ninfo] holds [T] under the key
    [test_freqs]. *)
Definition optimize_gwidth (g : rng_state rnd) (X Y : 'M[R]_(nx, d))
  (T : 'M[R]_(J, d)) (max_iter : nat)
  (gwidth_step_size : R) (batch_proportion : float64) (tol_fun : R) :
  result (R * info_width J d * rng_state rnd) :=
  r <- optimize_gaussian_width mean_std
         (@SmoothCFTest.construct_z_theano J d) gra_gamma_sq
         g X Y T max_iter gwidth_step_size batch_proportion tol_fun ;;
  let: (gamma, info, st) := r in
  Return (gamma, InfoWidth T (infow_gwidths info) (infow_obj_values info), st).

End Methods.

End SmoothCFTestStatic.

(** ** The static methods of MeanEmbeddingTest *)

Module MeanEmbeddingTestStatic.

Section Methods.

Variable rnd : numpy_random.

(** The draw of [np.random.multivariate_normal(mean, cov, n)] for a
    square [cov], with the state it leaves. *)
Variable rng_multivariate_normal :
  rng_state rnd -> forall d : nat, 'cV[R]_d -> 'M[R]_d ->
  forall n : nat, 'M[R]_(n, d) * rng_state rnd.

Variable mean_std : forall n d : nat, 'M[R]_(n, d) -> 'M[R]_(n, d) -> R.

Variables (J d : nat).

Variable gra_T :
  forall nb : nat, 'M[R]_(nb, d) -> 'M[R]_(nb, d) -> 'M[R]_(J, d) -> R ->
  'M[R]_(J, d).
Variable gra_gamma_sq :
  forall nb : nat, 'M[R]_(nb, d) -> 'M[R]_(nb, d) -> 'M[R]_(J, d) -> R -> R.

(** [np.random.multivariate_normal]: a [cov] that is not of dimension 2
    raises [ValueError] before anything is drawn. *)
Definition multivariate_normal (g : rng_state rnd) (mean : 'cV[R]_d)
  (cov : cov_array d) (n : nat) : result ('M[R]_(n, d) * rng_state rnd) :=
  match cov with
  | Cov0d _ => Raise ValueError
  | Cov2d c => Return (rng_multivariate_normal g mean c n)
  end.

(** [create_fit_gauss_heuristic]: the covariance of a one-dimensional
    dataset is wrapped into a 1 x 1 array; the saved state is put back
    in the last statement, after the constructor. *)
Definition create_fit_gauss_heuristic (g : rng_state rnd) {nx ny : nat}
  (X : 'M[R]_(nx, d)) (Y : 'M[R]_(ny, d)) (alpha : R) (seed : nat) :
  result (MeanEmbeddingTest.t J d) * rng_state rnd :=
  let rand_state := g in
  let seeded := rng_seed rnd seed in
  let xy := col_mx X Y in
  bind_st (np_mean0 xy) seeded (fun mean_xy =>
  bind_st (np_cov_T xy) seeded (fun cov_xy =>
  let cov_xy := match cov_xy with Cov0d c => Cov2d c | Cov2d c => Cov2d c end in
  bind_st (multivariate_normal seeded mean_xy cov_xy J) seeded (fun draw =>
  let T := draw.1 in
  bind_st (np_mean_std0 X) draw.2 (fun stdx =>
  bind_st (np_mean_std0 Y) draw.2 (fun stdy =>
  let gamma := (stdx + stdy) / 2%:R in
  bind_st (MeanEmbeddingTest.init (Some T) gamma alpha) draw.2 (fun met =>
  (Return met, rand_state))))))).

(** [init_locs_randn]: the covariance goes to the generator as
    [np.cov] returned it. *)
Definition init_locs_randn (g : rng_state rnd) {nx ny : nat}
  (X : 'M[R]_(nx, d)) (Y : 'M[R]_(ny, d)) (seed : nat) :
  result 'M[R]_(J, d) * rng_state rnd :=
  let rand_state := g in
  let seeded := rng_seed rnd seed in
  let xy := col_mx X Y in
  bind_st (np_mean0 xy) seeded (fun mean_xy =>
  bind_st (np_cov_T xy) seeded (fun cov_xy =>
  bind_st (multivariate_normal seeded mean_xy cov_xy J) seeded (fun draw =>
  (Return draw.1, rand_state)))).

(** [optimize_locs_width]: the optimiser starts in the state that
    [init_locs_randn] left. *)
Definition optimize_locs_width (g : rng_state rnd) {nx : nat}
  (X Y : 'M[R]_(nx, d)) (max_iter : nat)
  (locs_step_size gwidth_step_size : R) (batch_proportion : float64)
  (tol_fun : R) (seed : nat) :
  result ('M[R]_(J, d) * R * info_T J d * rng_state rnd) :=
  let init := init_locs_randn g X Y seed in
  T0 <- init.1 ;;
  r <- optimize_T_gaussian_width mean_std
         (@MeanEmbeddingTest.construct_z_theano J d)
         gra_T gra_gamma_sq init.2 X Y T0 max_iter
         locs_step_size gwidth_step_size batch_proportion tol_fun ;;
  Return r.

Definition optimize_gwidth (g : rng_state rnd) {nx : nat}
  (X Y : 'M[R]_(nx, d)) (T : 'M[R]_(J, d)) (max_iter : nat)
  (gwidth_step_size : R) (batch_proportion : float64) (tol_fun : R) :
  result (R * info_width J d * rng_state rnd) :=
  r <- optimize_gaussian_width mean_std
         (@MeanEmbeddingTest.construct_z_theano J d) gra_gamma_sq
         g X Y T max_iter gwidth_step_size batch_proportion tol_fun ;;
  let: (gamma, info, st) := r in
  Return (gamma, InfoWidth T (infow_gwidths info) (infow_obj_values info), st).

End Methods.

End MeanEmbeddingTestStatic.

(** * Further examples and auxiliary definitions *)

(** The mean of the rows and the sum of the products of the centred
    rows. *)
Definition col_mean {n m : nat} (Z : 'M[R]_(n, m)) : 'cV[R]_m :=
  \col_j ((\sum_i Z i j) / n%:R).

Definition scatter {n m : nat} (Z : 'M[R]_(n, m)) : 'M[R]_m :=
  (sub_row Z (col_mean Z))^T *m sub_row Z (col_mean Z).

(** The matrix [s = sx/nx + sy/ny] of [compute_stat]. *)
Definition pooled_cov {nx ny d : nat} (X : 'M[R]_(nx, d)) (Y : 'M[R]_(ny, d)) :
  'M[R]_d :=
  (nx%:R)^-1 *: ((nx.-1%:R)^-1 *: scatter X) +
  (ny%:R)^-1 *: ((ny.-1%:R)^-1 *: scatter Y).

(** The matrix that [np.cov] holds, whatever its dimension. *)
Definition cov_matrix {d : nat} (c : cov_array d) : 'M[R]_d :=
  match c with Cov0d m => m | Cov2d m => m end.

(** A draw of [multivariate_normal] for the examples: it returns zeros
    and counts as one draw. *)
Definition counting_mvn (g : nat) (d : nat) (_ : 'cV[R]_d) (_ : 'M[R]_d)
  (n : nat) : 'M[R]_(n, d) * nat := (const_mx 0, g.+1).

(** * Properties *)

(** ** Auxiliary facts *)

Ltac real_unfold :=
  rewrite /GRing.one /GRing.zero /GRing.add /GRing.mul /GRing.opp /GRing.inv
          /GRing.natmul /GRing.exp /=; cbn.

Lemma bind_Return A B (a : A) (k : A -> result B) : bind (Return a) k = k a.
Proof. by []. Qed.

Lemma natR_neq0 (n : nat) : (0 < n)%N -> n%:R != 0 :> R.
Proof.
move=> n0; apply/eqP; rewrite RnatE; apply: not_0_INR.
by move=> h; rewrite h in n0.
Qed.

Lemma sub_mxE m n (A B : 'M[R]_(m, n)) i j : (A - B) i j = A i j - B i j.
Proof. by rewrite !mxE. Qed.

Lemma mx_nth_ord n m (A : 'M[R]_(n, m)) (i : 'I_n) j : mx_nth A i j = A i j.
Proof. by rewrite /mx_nth valK. Qed.

Lemma ord2_ind (P : 'I_(1 + 1) -> Prop) :
  P (lshift 1 ord0) -> P (rshift 1 ord0) -> forall j, P j.
Proof.
move=> Pl Pr j; rewrite -[j]splitK.
by case: (split j) => k; rewrite (ord1 k).
Qed.

Lemma ord3_ind (P : 'I_3 -> Prop) :
  P ord0 -> P (lift ord0 ord0) -> P (lift ord0 (lift ord0 ord0)) ->
  forall i, P i.
Proof.
move=> P0 P1 P2 [[|[|[|i]]] hi] //.
- by rewrite (_ : Ordinal hi = ord0) //; apply: val_inj.
- by rewrite (_ : Ordinal hi = lift ord0 ord0) //; apply: val_inj.
- by rewrite (_ : Ordinal hi = lift ord0 (lift ord0 ord0)) //; apply: val_inj.
Qed.

Lemma sum_ord2 (F : 'I_(1 + 1) -> R) :
  \sum_j F j = F (lshift 1 ord0) + F (rshift 1 ord0).
Proof. by rewrite big_split_ord /= !big_ord1. Qed.

Lemma sum_ord3 (F : 'I_3 -> R) :
  \sum_i F i = F ord0 + F (lift ord0 ord0) + F (lift ord0 (lift ord0 ord0)).
Proof. by rewrite !big_ord_recl big_ord0 addr0 addrA. Qed.

Lemma construct_z_same_rows J d n (X Y : 'M[R]_(n, d)) (T : 'M[R]_(J, d)) w :
  SmoothCFTest.construct_z X Y T w = SmoothCFTest.construct_z_theano X Y T w.
Proof.
rewrite /SmoothCFTest.construct_z; case: eqP => // e.
by rewrite (eq_axiomK e) /= castmx_id.
Qed.

Lemma SmoothCFTest_compute_statE J d (T : 'M[R]_(J, d)) w a n
  (X Y : 'M[R]_(n, d)) :
  SmoothCFTest.compute_stat (SmoothCFTest.Make (Some T) w a) X Y =
  (Z <- SmoothCFTest.construct_z_theano X Y T w ;; stat_of_features n Z).
Proof. by rewrite /SmoothCFTest.compute_stat /= construct_z_same_rows. Qed.

Lemma objectiveE J d m
  (func_z : forall nb, 'M[R]_(nb, d) -> 'M[R]_(nb, d) -> 'M[R]_(J, d) -> R ->
            result 'M[R]_(nb, m))
  nx nb (X Y : 'M[R]_(nb, d)) T g :
  objective func_z nx X Y T g =
  (Z <- func_z nb X Y T (g ^+ 2) ;; objective_of_features nx Z).
Proof. by []. Qed.

Lemma dotZl m (c : R) (x y : 'cV[R]_m) : dot (c *: x) y = c * dot x y.
Proof.
rewrite /dot mulr_sumr; apply: eq_bigr => j _.
by rewrite mxE mulrA.
Qed.

Lemma dotNN m (x y : 'cV[R]_m) : dot (- x) (- y) = dot x y.
Proof. by apply: eq_bigr => j _; rewrite !mxE mulrNN. Qed.

Lemma unitmxZ_R m (c : R) (C : 'M[R]_m) :
  c != 0 -> (c *: C \in unitmx) = (C \in unitmx).
Proof. by move=> c0; rewrite !unitmxE detZ unitrM unitrX ?unitfE. Qed.

(** The link between the two: the covariance of [np.cov] is divided by
    [n - 1], the covariance of the objective by [n]. *)
Lemma objective_of_stat n m (Z : 'M[R]_(n, m)) (s : R) :
  stat_of_features n Z = Return s ->
  objective_of_features n Z = Return (s * n%:R / n.-1%:R).
Proof.
rewrite /stat_of_features /objective_of_features /np_cov_T /np_mean0.
case: n Z => [|[|n]] Z //=.
set W := (\col_j _); set C := (_^T *m _).
case: eqP => //= _.
have n1 : n.+1%:R != 0 :> R by apply: natR_neq0.
have n2 : n.+2%:R != 0 :> R by apply: natR_neq0.
rewrite /linalg_solve /matrix_inverse !unitmxZ_R ?invr_eq0 //.
case: ifP => // CU [<-].
rewrite !invmxZ ?unitmxZ_R ?invr_eq0 // !invrK.
congr Return.
rewrite -!scalemxAl !dotZl.
move: n1 => /eqP; move: (dot _ _) (n.+1%:R) (n.+2%:R) => q a b a0.
by real_unfold; field.
Qed.

(** ** A worked example

    One dimension, one frequency: the sample [X] is [1, -1, 0], the
    sample [Y] is [0, 0, 0], and the frequency equals the width [w]. *)

Lemma smooth_features_l J d n (X : 'M[R]_(n, d)) (T : 'M[R]_(J, d)) i j :
  SmoothCFTest.smooth_features X T i (lshift J j) =
  sin ((X *m T^T) i j) * exp (- (\sum_k (X i k) ^+ 2) / 2%:R)%R.
Proof. by rewrite /SmoothCFTest.smooth_features row_mxEl !mxE. Qed.

Lemma smooth_features_r J d n (X : 'M[R]_(n, d)) (T : 'M[R]_(J, d)) i j :
  SmoothCFTest.smooth_features X T i (rshift J j) =
  cos ((X *m T^T) i j) * exp (- (\sum_k (X i k) ^+ 2) / 2%:R)%R.
Proof. by rewrite /SmoothCFTest.smooth_features row_mxEr !mxE. Qed.

Lemma ex_features (w : R) :
  w != 0 ->
  SmoothCFTest.construct_z_theano ex_X ex_Y (ex_T w) w =
  Return (ex_Z (ex_a w) (ex_u w)).
Proof.
move=> w0; rewrite /SmoothCFTest.construct_z_theano /mx_fdiv (negbTE w0) /=.
have e0 : exp (- ((w^-1 * 0) ^+ 2) / 2%:R)%R = 1.
  have -> : (- ((w^-1 * 0) ^+ 2) / 2%:R)%R = 0 :> R by real_unfold; lra.
  exact: exp_0.
have e1 (x : R) : (x * x = 1)%Re ->
    exp (- ((w^-1 * x) ^+ 2) / 2%:R)%R = ex_e w.
  move=> h; rewrite /ex_e; congr exp; real_unfold.
  by rewrite -Rmult_assoc (Rmult_comm (_ * _) (/ w)) -!Rmult_assoc
       Rmult_assoc Rmult_assoc h; lra.
have f1 (x : R) : w^-1 * x * w = x.
  by rewrite mulrAC mulVf // mul1r.
congr Return; apply/matrixP => i j; rewrite sub_mxE.
elim/ord2_ind: j;
  rewrite ?row_mxEl ?row_mxEr ?smooth_features_l ?smooth_features_r
          !mxE !big_ord1 !mxE.
- elim/ord3_ind: i => /=; rewrite !f1 e0 ?e1 /ex_a ?sin_0;
    try (by real_unfold; lra); real_unfold; try lra.
  by rewrite sin_neg; lra.
- elim/ord3_ind: i => /=; rewrite !f1 e0 ?e1 /ex_u ?cos_0;
    try (by real_unfold; lra); real_unfold; try lra.
  by rewrite cos_neg; lra.
Qed.

Lemma ex_e_bounds (w : R) : w != 0 -> (0 < ex_e w < 1)%Re.
Proof.
move=> /eqP w0; split; first exact: exp_pos.
rewrite /ex_e -exp_0; apply: exp_increasing.
have : (0 < / w * / w)%Re.
  by have := Rinv_neq_0_compat _ w0; nra.
by real_unfold; lra.
Qed.

Lemma ex_a_neq0 (w : R) : w != 0 -> ex_a w != 0.
Proof.
move=> /ex_e_bounds [e0 _]; apply/eqP; rewrite /ex_a => /Rmult_integral [].
- by have := sin_gt_0 1 Rlt_0_1; have := PI2_1; have := PI_RGT_0; lra.
- by lra.
Qed.

Lemma ex_u_neq0 (w : R) : w != 0 -> ex_u w != 0.
Proof.
move=> /ex_e_bounds [e0 e1]; apply/eqP; rewrite /ex_u.
by have := COS_bound 1; real_unfold; nra.
Qed.

Section ExampleStatistic.

Variables a u : R.
Hypothesis a0 : a != 0.
Hypothesis u0 : u != 0.

Local Notation ex_Sig := (ex_Sig a u).
Local Notation ex_W := (ex_W u).
Local Notation ex_x := (ex_x u).

Lemma ex_Z_l i : ex_Z a u i (lshift 1 ord0) = nth 0 [:: a; - a; 0] i.
Proof. by rewrite /ex_Z row_mxEl mxE. Qed.

Lemma ex_Z_r i : ex_Z a u i (rshift 1 ord0) = nth 0 [:: u; u; 0] i.
Proof. by rewrite /ex_Z row_mxEr mxE. Qed.

Lemma ex_mean : np_mean0 (ex_Z a u) = Return ex_W.
Proof.
rewrite /np_mean0 /=; congr Return; apply/matrixP => j k.
rewrite (ord1 k) mxE sum_ord3.
elim/ord2_ind: j; rewrite ?ex_Z_l ?ex_Z_r /ex_W ?col_mxEu ?col_mxEd !mxE /=.
- by real_unfold; lra.
- by rewrite mulr1n; real_unfold; lra.
Qed.

Lemma cov_mxE n m (Z : 'M[R]_(n, m)) (mu : 'cV[R]_m) (c : R) i j :
  (c *: ((sub_row Z mu)^T *m sub_row Z mu)) i j =
  c * \sum_k (Z k i - mu i 0) * (Z k j - mu j 0).
Proof.
rewrite !mxE; congr (_ * _); apply: eq_bigr => k _.
by rewrite !mxE.
Qed.

Lemma ex_cov : np_cov_T (ex_Z a u) = Return (Cov2d ex_Sig).
Proof.
rewrite /np_cov_T /=; congr (Return (Cov2d _)).
apply/matrixP => i j; rewrite cov_mxE sum_ord3.
elim/ord2_ind: i; elim/ord2_ind: j;
  rewrite ?ex_Z_l ?ex_Z_r ![(\col__ _) _ _]mxE !sum_ord3 ?ex_Z_l ?ex_Z_r
          /ex_Sig ?block_mxEul ?block_mxEur ?block_mxEdl ?block_mxEdr ?mxE /=
          ?mulr1n; real_unfold; field.
Qed.

Lemma ex_Sig_unit : ex_Sig \in unitmx.
Proof.
have a2 : a ^+ 2 != 0 by rewrite expf_neq0.
have u2 : u ^+ 2 / 3%:R != 0.
  by rewrite mulf_neq0 ?expf_neq0 // invr_eq0 natR_neq0.
pose B : 'M[R]_(1 + 1) :=
  block_mx ((a ^+ 2)^-1)%:M 0 0 ((u ^+ 2 / 3%:R)^-1)%:M.
suff /mulmx1_unit [] : ex_Sig *m B = 1%:M by [].
rewrite /ex_Sig /B mulmx_block !mulmx0 !mul0mx !addr0 !add0r -!scalar_mxM.
by rewrite !divff ?scalar_mx_block.
Qed.

Lemma ex_solve : linalg_solve (Cov2d ex_Sig) ex_W = Return ex_x.
Proof.
rewrite /linalg_solve ex_Sig_unit; congr Return.
have -> : ex_W = ex_Sig *m ex_x.
  rewrite /ex_W /ex_Sig /ex_x mul_block_col !mulmx0 !mul0mx !addr0 add0r.
  rewrite -scalar_mxM; congr (col_mx _ _%:M).
  by move/eqP: u0; real_unfold => h; field.
by rewrite mulKmx ?ex_Sig_unit.
Qed.

Lemma ex_dot : dot ex_x ex_W = 4%:R / 3%:R.
Proof.
rewrite /dot sum_ord2 /ex_x /ex_W !col_mxEu !col_mxEd !mxE /= !mulr1n.
by move/eqP: u0; real_unfold => h; field.
Qed.

Lemma ex_stat_of_features : stat_of_features 3 (ex_Z a u) = Return 4%:R.
Proof.
rewrite /stat_of_features ex_cov bind_Return ex_mean bind_Return.
rewrite ex_solve bind_Return ex_dot; congr Return.
by real_unfold; field.
Qed.

Lemma ex_objective_of_features :
  objective_of_features 3 (ex_Z a u) = Return 6%:R.
Proof.
rewrite (objective_of_stat ex_stat_of_features); congr Return.
by real_unfold; field.
Qed.

End ExampleStatistic.

Lemma ex_compute_stat (w alpha : R) :
  w != 0 ->
  SmoothCFTest.compute_stat (SmoothCFTest.Make (Some (ex_T w)) w alpha)
    ex_X ex_Y = Return 4%:R.
Proof.
move=> w0; rewrite SmoothCFTest_compute_statE ex_features // bind_Return.
by rewrite ex_stat_of_features ?ex_a_neq0 ?ex_u_neq0.
Qed.

Lemma ex_objective (g : R) :
  g != 0 ->
  objective (@SmoothCFTest.construct_z_theano 1 1) 3 ex_X ex_Y
    (ex_T (g ^+ 2)) g = Return 6%:R.
Proof.
move=> g0; have w0 : g ^+ 2 != 0 by rewrite expf_neq0.
rewrite objectiveE ex_features // bind_Return.
by rewrite ex_objective_of_features ?ex_a_neq0 ?ex_u_neq0.
Qed.

(** ** A generator and a width heuristic for the examples *)

Lemma gamma_sq_init_neq0 mean_std n d (X Y : 'M[R]_(n, d)) :
  gamma_sq_init mean_std X Y != 0.
Proof.
apply/eqP; rewrite /gamma_sq_init.
have h := sqrt_pos (mean_std n d X Y).
move=> e; have e' : (/ 10000 + sqrt (mean_std n d X Y) = 0)%Re by exact: e.
by lra.
Qed.

Lemma bit_length_small (m : Z) :
  (Z.abs m < 2 ^ 53)%Z -> (bit_length m <= 53)%Z.
Proof.
rewrite /bit_length; case: Z.eqb_spec => [_|m0] h; first by [].
have := Z.log2_lt_pow2 (Z.abs m) 53.
by lia.
Qed.

(** A number of at most 53 digits, with an exponent in the range of the
    doubles, is a double: rounding leaves it as it is. *)
Lemma round64_exact (m e : Z) :
  (Z.abs m < 2 ^ 53)%Z -> (-1074 <= e <= 0)%Z ->
  round64 m e = if (m =? 0)%Z then F_finite 0 0 else F_finite m e.
Proof.
move=> hm he; have hb := bit_length_small hm.
rewrite /round64; cbv zeta.
have -> : (Z.max (bit_length m - 53) (-1074 - e) <=? 0)%Z = true.
  by apply/Z.leb_le; lia.
rewrite [(m, e).1]/= [(m, e).2]/=.
case: Z.eqb_spec => // m0.
have -> : (1024 <? bit_length m + e)%Z = false by apply/Z.ltb_ge; lia.
by [].
Qed.

Lemma round64_int (n : Z) : (Z.abs n < 2 ^ 53)%Z -> round64 n 0 = F_finite n 0.
Proof.
move=> hn; rewrite round64_exact //.
by case: Z.eqb_spec => // ->.
Qed.

(** When the product of [batch_proportion] and [nx] is a double as it
    stands, the size of the batch is that product truncated, at most
    [nx]. *)
Lemma batch_size_exact (n : nat) (m e : Z) :
  (Z.abs (m * Z.of_nat n) < 2 ^ 53)%Z -> (Z.of_nat n < 2 ^ 53)%Z ->
  (-1074 <= e <= 0)%Z ->
  batch_size n (F_finite m e) =
  Return (Z.min (Z.quot (m * Z.of_nat n) (2 ^ (- e))) (Z.of_nat n)).
Proof.
move=> hmn hn he.
have hn' : (Z.abs (Z.of_nat n) < 2 ^ 53)%Z by lia.
have he' : (-1074 <= e + 0 <= 0)%Z by lia.
rewrite /batch_size /float_of_int (round64_int hn').
rewrite bind_Return /float_mul (round64_exact hmn he').
have p0 : (2 ^ (- e) <> 0)%Z by apply: Z.pow_nonzero; lia.
case: Z.eqb_spec => [->|mn0]; rewrite /py_int bind_Return.
  by rewrite Z.quot_0_l.
rewrite Z.add_0_r; case: Z.leb_spec => // e0.
have -> : e = 0%Z by lia.
by rewrite Z.pow_0_r Z.mul_1_r Z.quot_1_r.
Qed.

Lemma batch_size_full (n : nat) :
  (Z.of_nat n < 2 ^ 53)%Z -> batch_size n float_one = Return (Z.of_nat n).
Proof.
move=> hn.
have hn' : (Z.abs (1 * Z.of_nat n) < 2 ^ 53)%Z by lia.
have he : (-1074 <= 0 <= 0)%Z by [].
rewrite /float_one (batch_size_exact hn' hn he).
by rewrite Z.mul_1_l Z.quot_1_r Z.min_id.
Qed.

Lemma counting_choice_full c (g : rng_state (counting_rng c)) (n : nat) :
  rng_choice g n (Z.of_nat n) = Return (iota 0 n, g.+1).
Proof.
rewrite /= Z.ltb_irrefl orbF.
have -> : (Z.of_nat n <? 0)%Z = false by apply/Z.ltb_ge; lia.
by rewrite Nat2Z.id take_oversize // size_iota.
Qed.

Lemma take_rows_iota3 d (X : 'M[R]_(3, d)) : take_rows X (iota 0 3) = X.
Proof.
apply/matrixP => i j; rewrite mxE.
have -> : nth 0%N (iota 0 3) i = i by elim/ord3_ind: i.
exact: mx_nth_ord.
Qed.

(** ** The steps of the compiled function *)

Lemma sqrt_INR_neq0 (it : nat) : (0 < it)%N -> sqrt (INR it) != 0.
Proof.
move=> it0; apply/eqP => /sqrt_eq_0 h.
have /eqP := natR_neq0 it0; rewrite RnatE; apply.
by apply: h; exact: pos_INR.
Qed.

Lemma sum_sq_ge0 (I : Type) (s : seq I) (F : I -> R) :
  (0 <= \sum_(i <- s) (F i) ^+ 2)%Re.
Proof.
elim: s => [|x s IH]; first by rewrite big_nil; apply: Rle_refl.
rewrite big_cons RaddE; apply: Rplus_le_le_0_compat => //.
by rewrite RexpE; apply: pow2_ge_0.
Qed.

Lemma sum_ge0 (I : Type) (s : seq I) (F : I -> R) :
  (forall i, 0 <= F i)%Re -> (0 <= \sum_(i <- s) F i)%Re.
Proof.
move=> F0; elim: s => [|x s IH]; first by rewrite big_nil; apply: Rle_refl.
by rewrite big_cons RaddE; apply: Rplus_le_le_0_compat.
Qed.

Lemma sum_eq0 (I : eqType) (s : seq I) (F : I -> R) :
  (forall i, 0 <= F i)%Re -> \sum_(i <- s) F i = 0 ->
  forall i, i \in s -> F i = 0.
Proof.
move=> F0; elim: s => [|x s IH] //; rewrite big_cons => e i.
have h1 := F0 x; have h2 := sum_ge0 s F0.
have e' : (F x + \sum_(j <- s) F j = 0)%Re by exact: e.
have [ex es] : (F x = 0 /\ \sum_(j <- s) F j = 0)%Re by lra.
by rewrite in_cons => /orP [/eqP -> //|]; apply: IH.
Qed.

(** The squares of the entries of [g] sum to zero only if [g] is zero. *)
Lemma norm_eq0 J d (g : 'M[R]_(J, d)) :
  (sqrt (\sum_i \sum_j (g i j) ^+ 2) == 0) = (g == 0).
Proof.
apply/eqP/eqP => [h|->]; last first.
  rewrite big1 ?sqrt_0 // => i _; rewrite big1 // => j _.
  by rewrite mxE expr0n.
have pos i : (0 <= \sum_j (g i j) ^+ 2)%Re by apply: sum_sq_ge0.
have /sqrt_eq_0 /(_ h) e : (0 <= \sum_i \sum_j (g i j) ^+ 2)%Re.
  exact: sum_ge0.
apply/matrixP => i j; rewrite mxE.
have ei := sum_eq0 pos e (mem_index_enum i).
have sq k : (0 <= (g i k) ^+ 2)%Re by rewrite RexpE; apply: pow2_ge_0.
have := sum_eq0 sq ei (mem_index_enum j).
by move/eqP; rewrite expf_eq0 /= => /eqP.
Qed.

Lemma T_stepE J d (T_step_size : R) (g : 'M[R]_(J, d)) (it : nat) :
  (0 < it)%N ->
  T_step T_step_size g it =
  if g == 0 then NonFinite
  else Return ((sqrt (\sum_i \sum_j (g i j) ^+ 2))^-1 *:
               ((sqrt (INR it))^-1 *: (T_step_size *: g))).
Proof.
move=> it0; rewrite /T_step /mx_fdiv (negbTE (sqrt_INR_neq0 it0)) /=.
by rewrite norm_eq0; case: ifP.
Qed.

Lemma gamma_sq_stepE (gwidth_step_size g : R) (it : nat) :
  (0 < it)%N ->
  gamma_sq_step gwidth_step_size g it =
  Return (gwidth_step_size * sgn g * Rmin (Rabs g) 1 / sqrt (INR it)).
Proof.
by move=> it0; rewrite /gamma_sq_step /fdiv (negbTE (sqrt_INR_neq0 it0)).
Qed.

(** ** Runs of the optimisers on the example *)

Lemma ex_gra_T_norm nb (A B : 'M[R]_(nb, 1)) T g :
  sqrt (\sum_i \sum_j (ex_gra_T A B T g i j) ^+ 2) = 1.
Proof.
rewrite !big_ord1 mxE expr1n; exact: sqrt_1.
Qed.

Lemma ex_gra_T_neq0 nb (A B : 'M[R]_(nb, 1)) T g : ex_gra_T A B T g != 0.
Proof. by rewrite -norm_eq0 ex_gra_T_norm oner_neq0. Qed.

Lemma sgn_m1 : sgn (-1) = -1.
Proof.
rewrite /sgn; case: RltbP => [h|_]; first by move: h; real_unfold; lra.
by case: RltbP => // -[]; real_unfold; lra.
Qed.

Lemma Rmin_abs_m1 : Rmin (Rabs (-1)) 1 = 1.
Proof.
have -> : Rabs (-1) = 1 by rewrite Rabs_Ropp Rabs_R1.
by rewrite Rmin_left //; apply: Rle_refl.
Qed.

Lemma ex_func_TE (ts gs g : R) (it : nat) :
  g != 0 -> (0 < it)%N ->
  ex_func_T ts gs ex_X ex_Y (Shared (ex_T (g ^+ 2)) it g) =
  Return (6%:R,
          Shared (ex_T (g ^+ 2) + const_mx (ts / sqrt (INR it))) it.+1
                 (g - gs / sqrt (INR it))).
Proof.
move=> g0 it0; rewrite /ex_func_T /func_T /= ex_objective // bind_Return.
rewrite T_stepE // (negbTE (ex_gra_T_neq0 _ _ _ _)) bind_Return.
rewrite gamma_sq_stepE // bind_Return ex_gra_T_norm invr1 scale1r.
congr (Return (_, Shared _ _ _)).
- congr (_ + _); apply/matrixP => i j; rewrite !mxE.
  by rewrite mulr1 mulrC.
- by rewrite /ex_gra_gamma_sq sgn_m1 Rmin_abs_m1 mulr1 mulrN1 mulNr.
Qed.

Section LoopSteps.

Variable rnd : numpy_random.
Variables (J d nx : nat) (X Y : 'M[R]_(nx, d)).
Variable func :
  forall nb : nat, 'M[R]_(nb, d) -> 'M[R]_(nb, d) -> shared J d ->
  result (R * shared J d).
Variables (batch_proportion : float64) (tol_fun : R).

Notation ascent := (ascent rnd J d).

Lemma for_range_cons (body : nat -> ascent -> result (bool * ascent))
  t ts a :
  for_range body (t :: ts) a =
  (r <- body t a ;; if r.1 then Return r.2 else for_range body ts r.2).
Proof. by []. Qed.

Lemma body_T_Return t (a : ascent) ind g' s sh :
  draw_batch nx batch_proportion (a_rng a) = Return (ind, g') ->
  func (take_rows X ind) (take_rows Y ind) (a_sh a) = Return (s, sh) ->
  body_T X Y func batch_proportion tol_fun t a =
  Return (converged tol_fun (set_nth 0 (a_S a) t s) t,
          Ascent g' sh (set_nth 0 (a_S a) t s)
                 (set_nth 0 (a_Ts a) t (sh_T sh))
                 (set_nth 0 (a_gams a) t (sh_gamma_sq sh ^+ 2))
                 (Some (Z.of_nat t))).
Proof. by move=> hc hf; rewrite /body_T hc bind_Return /= hf. Qed.

Lemma body_T_Raise t (a : ascent) ind g' e :
  draw_batch nx batch_proportion (a_rng a) = Return (ind, g') ->
  func (take_rows X ind) (take_rows Y ind) (a_sh a) = Raise e ->
  body_T X Y func batch_proportion tol_fun t a =
  Return (true, Ascent g' (a_sh a) (a_S a) (a_Ts a) (a_gams a)
                  (Some (Z.of_nat t - 1)%Z)).
Proof. by move=> hc hf; rewrite /body_T hc bind_Return /= hf. Qed.

Lemma body_width_Return t (a : ascent) ind g' s sh :
  draw_batch nx batch_proportion (a_rng a) = Return (ind, g') ->
  func (take_rows X ind) (take_rows Y ind) (a_sh a) = Return (s, sh) ->
  body_width X Y func batch_proportion tol_fun t a =
  Return (converged tol_fun (set_nth 0 (a_S a) t s) t,
          Ascent g' sh (set_nth 0 (a_S a) t s) (a_Ts a)
                 (set_nth 0 (a_gams a) t (sh_gamma_sq sh ^+ 2))
                 (Some (Z.of_nat t))).
Proof. by move=> hc hf; rewrite /body_width hc bind_Return /= hf. Qed.

Lemma body_width_Raise t (a : ascent) ind g' e :
  draw_batch nx batch_proportion (a_rng a) = Return (ind, g') ->
  func (take_rows X ind) (take_rows Y ind) (a_sh a) = Raise e ->
  body_width X Y func batch_proportion tol_fun t a = Raise e.
Proof. by move=> hc hf; rewrite /body_width hc bind_Return /= hf. Qed.

End LoopSteps.

Section ExampleRuns.

Variable c : R.
Variable mean_std : forall n d : nat, 'M[R]_(n, d) -> 'M[R]_(n, d) -> R.

Let g0 : R := gamma_sq_init mean_std ex_X ex_Y.
Let T0 : 'M[R]_(1, 1) := ex_T (g0 ^+ 2).

Lemma ex_choice (a : ascent (counting_rng c) 1 1) :
  draw_batch 3 float_one (a_rng a) = Return (iota 0 3, (a_rng a).+1).
Proof.
by rewrite /draw_batch batch_size_full // bind_Return counting_choice_full.
Qed.

(** One pass of the joint optimiser. *)
Lemma ex_run_T_once (g : nat) (ts gs tol : R) :
  let T1 := T0 + const_mx (ts / sqrt (INR 1)) in
  let gam1 := (g0 - gs / sqrt (INR 1)) ^+ 2 in
  optimize_T_gaussian_width (rnd := counting_rng c) mean_std
    (@SmoothCFTest.construct_z_theano 1 1) ex_gra_T ex_gra_gamma_sq
    g ex_X ex_Y T0 1 ts gs float_one tol =
  Return (T1, gam1, InfoT [:: T1] T0 [:: gam1] [:: 6%:R], g.+1).
Proof.
move=> T1 gam1.
rewrite /optimize_T_gaussian_width /ascent_T for_range_cons -/g0.
set a0 := ascent_init _ _ _ _.
set func := func_T _ _ _ _ _ _.
have hc := ex_choice a0.
have hf : func _ (take_rows ex_X (iota 0 3)) (take_rows ex_Y (iota 0 3))
            (a_sh a0) =
          Return (6%:R, Shared T1 2 (g0 - gs / sqrt (INR 1))).
  rewrite !take_rows_iota3.
  by apply: ex_func_TE; rewrite ?gamma_sq_init_neq0.
by rewrite (body_T_Return _ _ hc hf).
Qed.

Lemma ex_func_T_still (g : R) (it : nat) :
  g != 0 -> (0 < it)%N ->
  ex_func_T 0 0 ex_X ex_Y (Shared (ex_T (g ^+ 2)) it g) =
  Return (6%:R, Shared (ex_T (g ^+ 2)) it.+1 g).
Proof.
move=> gn0 it0; rewrite ex_func_TE //; congr (Return (_, Shared _ _ _)).
- apply/matrixP => i j; rewrite !mxE.
  by real_unfold; lra.
- by real_unfold; lra.
Qed.

Lemma ex_func_width_still
  (gra : forall nb : nat, 'M[R]_(nb, 1) -> 'M[R]_(nb, 1) -> 'M[R]_(1, 1) ->
         R -> R)
  (g : R) (it : nat) :
  g != 0 -> (0 < it)%N ->
  func_width (@SmoothCFTest.construct_z_theano 1 1) 3 gra 0 ex_X ex_Y
    (Shared (ex_T (g ^+ 2)) it g) =
  Return (6%:R, Shared (ex_T (g ^+ 2)) it.+1 g).
Proof.
move=> gn0 it0; rewrite /func_width /= ex_objective // bind_Return.
rewrite gamma_sq_stepE // bind_Return; congr (Return (_, Shared _ _ _)).
by real_unfold; lra.
Qed.

Lemma converged_same (tol s : R) (S : seq R) (t : nat) :
  (0 <= tol)%Re -> nth 0 S t.+2 = s -> nth 0 S t.+1 = s ->
  converged tol S t.+2 = true.
Proof.
move=> tol0 e2 e1; rewrite /converged /= e2 e1.
by apply/RlebP; rewrite Rminus_diag Rabs_R0.
Qed.

Lemma converged_early (tol : R) (S : seq R) (t : nat) :
  (t < 2)%N -> converged tol S t = false.
Proof. by rewrite /converged ltnNge => /negbTE ->. Qed.

(** One pass of either optimiser when the step sizes are zero. *)
Lemma ex_body_T_still (tol : R) (t it : nat)
  (a : ascent (counting_rng c) 1 1) :
  a_sh a = Shared T0 it g0 -> (0 < it)%N ->
  body_T ex_X ex_Y (ex_func_T 0 0) float_one tol t a =
  Return (converged tol (set_nth 0 (a_S a) t 6%:R) t,
          @Ascent (counting_rng c) 1 1 (a_rng a).+1 (Shared T0 it.+1 g0)
                 (set_nth 0 (a_S a) t 6%:R)
                 (set_nth 0 (a_Ts a) t T0)
                 (set_nth 0 (a_gams a) t (g0 ^+ 2))
                 (Some (Z.of_nat t))).
Proof.
move=> ha it0.
have hc := ex_choice a.
have hf : ex_func_T 0 0 (take_rows ex_X (iota 0 3))
            (take_rows ex_Y (iota 0 3)) (a_sh a) =
          Return (6%:R, Shared T0 it.+1 g0).
  by rewrite !take_rows_iota3 ha; apply: ex_func_T_still;
     rewrite ?gamma_sq_init_neq0.
by rewrite (body_T_Return _ _ hc hf).
Qed.

Lemma ex_body_width_still gra (tol : R) (t it : nat)
  (a : ascent (counting_rng c) 1 1) :
  a_sh a = Shared T0 it g0 -> (0 < it)%N ->
  body_width ex_X ex_Y
    (func_width (@SmoothCFTest.construct_z_theano 1 1) 3 gra 0) float_one tol t a =
  Return (converged tol (set_nth 0 (a_S a) t 6%:R) t,
          @Ascent (counting_rng c) 1 1 (a_rng a).+1 (Shared T0 it.+1 g0)
                 (set_nth 0 (a_S a) t 6%:R) (a_Ts a)
                 (set_nth 0 (a_gams a) t (g0 ^+ 2))
                 (Some (Z.of_nat t))).
Proof.
move=> ha it0.
have hc := ex_choice a.
have hf : func_width (@SmoothCFTest.construct_z_theano 1 1) 3 gra 0
            (take_rows ex_X (iota 0 3)) (take_rows ex_Y (iota 0 3)) (a_sh a) =
          Return (6%:R, Shared T0 it.+1 g0).
  by rewrite !take_rows_iota3 ha; apply: ex_func_width_still;
     rewrite ?gamma_sq_init_neq0.
by rewrite (body_width_Return _ _ hc hf).
Qed.

(** With zero step sizes the objective is the same in every pass: the
    loop stops in its third pass, [t = 2]. *)
Lemma ex_run_T_still (g k : nat) (tol : R) :
  (0 <= tol)%Re ->
  optimize_T_gaussian_width (rnd := counting_rng c) mean_std
    (@SmoothCFTest.construct_z_theano 1 1) ex_gra_T ex_gra_gamma_sq
    g ex_X ex_Y T0 k.+3 0 0 float_one tol =
  Return (T0, g0 ^+ 2,
          InfoT [:: T0; T0; T0] T0 [:: g0 ^+ 2; g0 ^+ 2; g0 ^+ 2]
                [:: 6%:R; 6%:R; 6%:R],
          g.+3).
Proof.
move=> tol0.
rewrite /optimize_T_gaussian_width /ascent_T -/g0 -/(ex_func_T 0 0).
have cv S : nth 0 S 2 = 6%:R -> nth 0 S 1 = 6%:R -> converged tol S 2 = true.
  by move=> e2 e1; apply: (converged_same (s := 6%:R)).
rewrite for_range_cons (ex_body_T_still _ _ (it := 1)) // bind_Return.
rewrite [_.1]/= [_.2]/= converged_early //.
rewrite for_range_cons (ex_body_T_still _ _ (it := 2)) // bind_Return.
rewrite [_.1]/= [_.2]/= converged_early //.
rewrite for_range_cons (ex_body_T_still _ _ (it := 3)) // bind_Return.
by rewrite [_.1]/= cv // bind_Return /py_slice_to /= !take0.
Qed.

Lemma ex_run_width_still gra (g k : nat) (tol : R) :
  (0 <= tol)%Re ->
  optimize_gaussian_width (rnd := counting_rng c) mean_std
    (@SmoothCFTest.construct_z_theano 1 1) gra
    g ex_X ex_Y T0 k.+3 0 float_one tol =
  Return (g0 ^+ 2,
          InfoWidth T0 [:: g0 ^+ 2; g0 ^+ 2] [:: 6%:R; 6%:R],
          g.+3).
Proof.
move=> tol0.
rewrite /optimize_gaussian_width /ascent_width -/g0.
have cv S : nth 0 S 2 = 6%:R -> nth 0 S 1 = 6%:R -> converged tol S 2 = true.
  by move=> e2 e1; apply: (converged_same (s := 6%:R)).
rewrite for_range_cons (ex_body_width_still _ _ _ (it := 1)) // bind_Return.
rewrite [_.1]/= [_.2]/= converged_early //.
rewrite for_range_cons (ex_body_width_still _ _ _ (it := 2)) // bind_Return.
rewrite [_.1]/= [_.2]/= converged_early //.
rewrite for_range_cons (ex_body_width_still _ _ _ (it := 3)) // bind_Return.
by rewrite [_.1]/= cv // bind_Return /py_slice_to /= !take0.
Qed.

End ExampleRuns.

(** ** Identical samples *)

Lemma zero_not_unit m : (0 : 'M[R]_m.+1) \in unitmx = false.
Proof. by rewrite unitmxE det0 unitr0. Qed.

Lemma sub_row0 n m : sub_row (0 : 'M[R]_(n, m)) 0 = 0.
Proof. by apply/matrixP => i j; rewrite !mxE subrr. Qed.

Lemma col_mean0 n m (c : R) :
  (\col_j ((\sum_i (0 : 'M[R]_(n, m)) i j) / c) : 'cV[R]_m) = 0.
Proof.
apply/matrixP => j k; rewrite !mxE big1 ?mul0r // => i _.
by rewrite mxE.
Qed.

Lemma stat_of_features0 nx n m :
  stat_of_features nx (0 : 'M[R]_(n.+2, m.+1)) = Raise LinAlgError.
Proof.
rewrite /stat_of_features /np_cov_T /np_mean0 /= col_mean0 sub_row0.
rewrite mulmx0 scaler0.
by case: ifP => //= _; rewrite zero_not_unit.
Qed.

Lemma objective_of_features0 nx n m :
  objective_of_features nx.+1 (0 : 'M[R]_(n, m.+1)) = Raise LinAlgError.
Proof.
rewrite /objective_of_features /= col_mean0 sub_row0 mulmx0 scaler0.
by rewrite /matrix_inverse zero_not_unit.
Qed.

Lemma smooth_features_same J d n (X : 'M[R]_(n, d)) (T : 'M[R]_(J, d)) w :
  w != 0 -> SmoothCFTest.construct_z_theano X X T w = Return 0.
Proof.
move=> w0; rewrite /SmoothCFTest.construct_z_theano /mx_fdiv (negbTE w0) /=.
by rewrite subrr.
Qed.

(** With two identical samples the features are zero and the covariance
    is singular. *)
Lemma compute_stat_same J d n (X : 'M[R]_(n.+2, d)) (T : 'M[R]_(J.+1, d))
  (w a : R) :
  w != 0 ->
  SmoothCFTest.compute_stat (SmoothCFTest.Make (Some T) w a) X X =
  Raise LinAlgError.
Proof.
move=> w0; rewrite SmoothCFTest_compute_statE smooth_features_same //.
by rewrite bind_Return stat_of_features0.
Qed.

Lemma objective_same J d nx n (X : 'M[R]_(n, d)) (T : 'M[R]_(J.+1, d))
  (g : R) :
  g != 0 ->
  objective (@SmoothCFTest.construct_z_theano J.+1 d) nx.+1 X X T g =
  Raise LinAlgError.
Proof.
move=> g0; rewrite objectiveE smooth_features_same ?expf_neq0 //.
by rewrite bind_Return objective_of_features0.
Qed.

(** ** C1: the result of [perform_test] *)

Lemma chi2_sf_2_range (s : R) (k : nat) : (0 <= chi2_sf_2 s k <= 1)%Re.
Proof.
rewrite /chi2_sf_2; case: RlebP => [_|/Rnot_le_lt s0]; first by lra.
split; first exact/Rlt_le/exp_pos.
by rewrite -exp_0; apply/Rlt_le/exp_increasing; lra.
Qed.

(** C1, as the claim states it, fails: with two identical samples of
    three rows, a valid [T] and a positive width, the features are zero,
    their covariance is singular and [perform_test] raises
    [LinAlgError]: no result is returned. *)
Lemma C1_counterexample :
  SmoothCFTest.init (Some (ex_T 1)) 1 (/ 100) =
    Return (SmoothCFTest.Make (Some (ex_T 1)) 1 (/ 100)) /\
  SmoothCFTest.perform_test chi2_sf_2
    (SmoothCFTest.Make (Some (ex_T 1)) 1 (/ 100)) ex_X ex_X =
  Raise LinAlgError.
Proof.
split.
  by rewrite /SmoothCFTest.init; case: RltbP => // -[]; lra.
by rewrite /SmoothCFTest.perform_test compute_stat_same ?oner_neq0.
Qed.

Lemma block22_unit (a b c e : R) :
  a * e - b * c != 0 ->
  (block_mx a%:M b%:M c%:M e%:M : 'M[R]_(1 + 1)) \in unitmx.
Proof.
move=> /eqP D0; set D := a * e - b * c in D0.
pose B : 'M[R]_(1 + 1) :=
  block_mx (e / D)%:M (- b / D)%:M (- c / D)%:M (a / D)%:M.
suff /mulmx1_unit [] : block_mx a%:M b%:M c%:M e%:M *m B = 1%:M by [].
rewrite /B mulmx_block -!scalar_mxM.
have D0' : (a * e - b * c <> 0)%Re by exact: D0.
apply/matrixP => i j.
elim/ord2_ind: i; elim/ord2_ind: j;
  rewrite ?block_mxEul ?block_mxEur ?block_mxEdl ?block_mxEdr !mxE
          ?(ord1 ord0) /= ?mulr1n ?mulr0n /D; real_unfold; field; exact: D0'.
Qed.

(** ** A worked example for the mean embedding test

    Two dimensions, two locations [(1, 0)] and [(-1, 0)], width 1, four
    rows in each sample. *)

Lemma ord2_ind' (P : 'I_2 -> Prop) :
  P ord0 -> P (lift ord0 ord0) -> forall j, P j.
Proof.
move=> P0 P1 [[|[|j]] hj] //.
- by rewrite (_ : Ordinal hj = ord0) //; apply: val_inj.
- by rewrite (_ : Ordinal hj = lift ord0 ord0) //; apply: val_inj.
Qed.

Lemma ord4_ind (P : 'I_4 -> Prop) :
  P ord0 -> P (lift ord0 ord0) -> P (lift ord0 (lift ord0 ord0)) ->
  P (lift ord0 (lift ord0 (lift ord0 ord0))) -> forall i, P i.
Proof.
move=> P0 P1 P2 P3 [[|[|[|[|i]]]] hi] //.
- by rewrite (_ : Ordinal hi = ord0) //; apply: val_inj.
- by rewrite (_ : Ordinal hi = lift ord0 ord0) //; apply: val_inj.
- by rewrite (_ : Ordinal hi = lift ord0 (lift ord0 ord0)) //; apply: val_inj.
- by rewrite (_ : Ordinal hi = lift ord0 (lift ord0 (lift ord0 ord0))) //;
    apply: val_inj.
Qed.

Lemma sum_ord2' (F : 'I_2 -> R) : \sum_j F j = F ord0 + F (lift ord0 ord0).
Proof. by rewrite !big_ord_recl big_ord0 addr0. Qed.

Lemma sum_ord4 (F : 'I_4 -> R) :
  \sum_i F i = F ord0 + F (lift ord0 ord0) + F (lift ord0 (lift ord0 ord0))
               + F (lift ord0 (lift ord0 (lift ord0 ord0))).
Proof. by rewrite !big_ord_recl big_ord0 addr0 !addrA. Qed.

Lemma me_kernel_X :
  MeanEmbeddingTest.gauss_kernel me_X me_T =
  mx_of_rows 4 2 [:: [:: exp 0; exp (- 4)]; [:: exp (- 4); exp 0];
                     [:: exp (- 1); exp (- 1)]; [:: exp (- 2); exp (- 2)]].
Proof.
apply/matrixP => i j; rewrite mxE [RHS]mxE [(_ *m _) _ _]mxE !sum_ord2'.
by elim/ord4_ind: i; elim/ord2_ind': j; rewrite !mxE /=; congr exp;
   real_unfold; lra.
Qed.

Lemma me_kernel_Y :
  MeanEmbeddingTest.gauss_kernel me_Y me_T =
  mx_of_rows 4 2 [:: [:: exp (- 4); exp 0]; [:: exp 0; exp (- 4)];
                     [:: exp (- 2); exp (- 2)]; [:: exp (- 1); exp (- 1)]].
Proof.
apply/matrixP => i j.
rewrite mxE [RHS]mxE [(_ *m _) _ _]mxE !sum_ord2'.
by elim/ord4_ind: i; elim/ord2_ind': j; rewrite !mxE /=; congr exp;
   real_unfold; lra.
Qed.

Lemma np_sub_bcast_same n m (g h : 'M[R]_(n, m)) :
  np_sub_bcast g h = Return (existT _ n (g - h)).
Proof.
rewrite /np_sub_bcast eqxx; congr (Return (existT _ _ _)).
by apply/matrixP => i j; rewrite !mxE mx_nth_ord.
Qed.

Lemma me_features :
  (g <- MeanEmbeddingTest.asym_gauss_kernel me_X me_T 1 ;;
   h <- MeanEmbeddingTest.asym_gauss_kernel me_Y me_T 1 ;;
   np_sub_bcast g h) = Return (existT _ 4%N me_Z).
Proof.
rewrite /MeanEmbeddingTest.asym_gauss_kernel /mx_fdiv oner_eq0 /= invr1.
rewrite !scale1r me_kernel_X me_kernel_Y np_sub_bcast_same.
congr (Return (existT _ _ _)); apply/matrixP => i j; rewrite !mxE.
by elim/ord4_ind: i; elim/ord2_ind': j; rewrite /= /me_v /me_r ?exp_0;
   real_unfold; lra.
Qed.

Lemma bind_assoc A B C (c : result A) (k : A -> result B)
  (h : B -> result C) :
  (y <- (x <- c ;; k x) ;; h y) = (x <- c ;; y <- k x ;; h y).
Proof. by case: c. Qed.

Lemma MeanEmbeddingTest_compute_statE J d (T : 'M[R]_(J, d)) w a nx ny
  (X : 'M[R]_(nx, d)) (Y : 'M[R]_(ny, d)) :
  MeanEmbeddingTest.compute_stat (MeanEmbeddingTest.Make (Some T) w a) X Y =
  (Zs <- (g <- MeanEmbeddingTest.asym_gauss_kernel X T w ;;
          h <- MeanEmbeddingTest.asym_gauss_kernel Y T w ;;
          np_sub_bcast g h) ;;
   stat_of_features nx (projT2 Zs)).
Proof.
rewrite /MeanEmbeddingTest.compute_stat /= bind_assoc.
by case: (MeanEmbeddingTest.asym_gauss_kernel X T w) => //= g;
   rewrite bind_assoc.
Qed.

Lemma me_v_neq0 : me_v != 0.
Proof.
apply/eqP; rewrite /me_v.
have : (exp (- 4) < 1)%Re by rewrite -exp_0; apply: exp_increasing; lra.
move=> h e; have e' : (1 - exp (- 4) = 0)%Re by exact: e.
by lra.
Qed.

Lemma me_r_neq0 : me_r != 0.
Proof.
apply/eqP; rewrite /me_r.
have : (exp (- 2) < exp (- 1))%Re by apply: exp_increasing; lra.
move=> h e; have e' : (exp (- 1) - exp (- 2) = 0)%Re by exact: e.
by lra.
Qed.

Lemma me_Sig_unit : me_Sig \in unitmx.
Proof.
apply: block22_unit; apply/eqP.
have /eqP v0 := me_v_neq0; have /eqP r0 := me_r_neq0.
have v0' : (me_v <> 0)%Re by exact: v0.
have r0' : (me_r <> 0)%Re by exact: r0.
set D := (X in X <> _).
have -> : D = ((4 * me_v * me_v / 3) * (4 * me_r * me_r / 3))%Re.
  by rewrite /D; real_unfold; field.
have pv := Rsqr_pos_lt _ v0'; have pr := Rsqr_pos_lt _ r0'.
move=> e; have e' :
  ((4 * me_v * me_v / 3) * (4 * me_r * me_r / 3) = 0)%Re by exact: e.
have : (0 < (4 * me_v * me_v / 3) * (4 * me_r * me_r / 3))%Re.
  by apply: Rmult_lt_0_compat; move: pv pr; rewrite /Rsqr; lra.
by lra.
Qed.

Lemma me_mean : np_mean0 me_Z = Return 0.
Proof.
rewrite /np_mean0 /=; congr Return; apply/matrixP => j k.
rewrite (ord1 k) mxE sum_ord4 !mxE.
by elim/ord2_ind': j => /=; real_unfold; lra.
Qed.

Lemma me_cov : np_cov_T me_Z = Return (Cov2d me_Sig).
Proof.
rewrite /np_cov_T /=; congr (Return (Cov2d _)).
apply/(@matrixP R (1 + 1) (1 + 1)) => i j; rewrite cov_mxE sum_ord4.
elim/ord2_ind: i; elim/ord2_ind: j;
  rewrite /me_Sig ?block_mxEul ?block_mxEur ?block_mxEdl ?block_mxEdr
          [RHS]mxE ![(\col__ _) _ _]mxE !sum_ord4 ![me_Z _ _]mxE /=
          ?mulr1n; real_unfold; field.
Qed.

Lemma dot0r m (x : 'cV[R]_m) : dot x 0 = 0.
Proof. by apply: big1 => j _; rewrite mxE mulr0. Qed.

Lemma me_stat_of_features : stat_of_features 4 me_Z = Return 0.
Proof.
rewrite /stat_of_features me_cov bind_Return me_mean bind_Return.
by rewrite /linalg_solve me_Sig_unit bind_Return dot0r mulr0.
Qed.

Lemma me_compute_stat (alpha : R) :
  MeanEmbeddingTest.compute_stat
    (MeanEmbeddingTest.Make (Some me_T) 1 alpha) me_X me_Y = Return 0.
Proof.
by rewrite MeanEmbeddingTest_compute_statE me_features bind_Return
     me_stat_of_features.
Qed.

(** The same locations with a sample [X] of one row and a sample [Y] of
    three rows. *)

Lemma me_kernel_X1 :
  MeanEmbeddingTest.gauss_kernel me_X1 me_T =
  mx_of_rows 1 2 [:: [:: exp (- 1); exp (- 1)]].
Proof.
apply/matrixP => i j.
rewrite mxE [RHS]mxE [(_ *m _) _ _]mxE !sum_ord2' (ord1 i).
by elim/ord2_ind': j; rewrite !mxE /=; congr exp; real_unfold; lra.
Qed.

Lemma me_kernel_Y3 :
  MeanEmbeddingTest.gauss_kernel me_Y3 me_T =
  mx_of_rows 3 2 [:: [:: exp 0; exp (- 4)]; [:: exp (- 4); exp 0];
                     [:: exp (- 2); exp (- 2)]].
Proof.
apply/matrixP => i j.
rewrite mxE [RHS]mxE [(_ *m _) _ _]mxE !sum_ord2'.
by elim/ord3_ind: i; elim/ord2_ind': j; rewrite !mxE /=; congr exp;
   real_unfold; lra.
Qed.

Lemma np_sub_bcast_row n m (g : 'M[R]_(1, m)) (h : 'M[R]_(n.+2, m)) :
  np_sub_bcast g h =
  Return (existT _ n.+2 (\matrix_(i, j) (g ord0 j - h i j))).
Proof.
rewrite /np_sub_bcast /=; congr (Return (existT _ _ _)).
apply/matrixP => i j; rewrite !mxE; congr (_ - _).
by rewrite -[0%N]/(nat_of_ord (ord0 : 'I_1)) mx_nth_ord.
Qed.

Lemma me_features3 :
  (g <- MeanEmbeddingTest.asym_gauss_kernel me_X1 me_T 1 ;;
   h <- MeanEmbeddingTest.asym_gauss_kernel me_Y3 me_T 1 ;;
   np_sub_bcast g h) = Return (existT _ 3%N me_Z3).
Proof.
rewrite /MeanEmbeddingTest.asym_gauss_kernel /mx_fdiv oner_eq0 /= invr1.
rewrite !scale1r me_kernel_X1 me_kernel_Y3 np_sub_bcast_row.
congr (Return (existT _ _ _)); apply/matrixP => i j; rewrite !mxE.
by elim/ord3_ind: i; elim/ord2_ind': j;
   rewrite /= /me_k0 /me_p /me_q ?exp_0; real_unfold; lra.
Qed.

Lemma me_cov3 : np_cov_T me_Z3 = Return (Cov2d me_Sig3).
Proof.
rewrite /np_cov_T /=; congr (Return (Cov2d _)).
apply/(@matrixP R (1 + 1) (1 + 1)) => i j; rewrite cov_mxE sum_ord3.
elim/ord2_ind: i; elim/ord2_ind: j;
  rewrite /me_Sig3 ?block_mxEul ?block_mxEur ?block_mxEdl ?block_mxEdr
          [RHS]mxE ![(\col__ _) _ _]mxE !sum_ord3 ![me_Z3 _ _]mxE /=
          ?mulr1n /me_c11 /me_c12 /me_m; real_unfold; field.
Qed.

Lemma me_Sig3_unit : me_Sig3 \in unitmx.
Proof.
apply: block22_unit; apply/eqP.
set D := (X in X <> _).
have -> : D = (((1 - me_p) * (1 - me_p)) *
               ((1 + me_p - 2 * me_q) * (1 + me_p - 2 * me_q)) / 12)%Re.
  by rewrite /D /me_c11 /me_c12 /me_m; real_unfold; field.
have p1 : (me_p < 1)%Re.
  by rewrite /me_p -exp_0; apply: exp_increasing; lra.
have p0 : (0 < me_p)%Re by exact: exp_pos.
have q2 : (2 * me_q < 1)%Re.
  have e2 := exp_ineq1 2 ltac:(lra).
  have := exp_pos 2; have : (exp 2 * me_q = 1)%Re.
    by rewrite /me_q -exp_plus Rplus_opp_r exp_0.
  by nra.
have s1 : (0 < (1 - me_p) * (1 - me_p))%Re by nra.
have s2 : (0 < (1 + me_p - 2 * me_q) * (1 + me_p - 2 * me_q))%Re by nra.
have : (0 < ((1 - me_p) * (1 - me_p)) *
             ((1 + me_p - 2 * me_q) * (1 + me_p - 2 * me_q)) / 12)%Re.
  by apply: Rdiv_lt_0_compat; [apply: Rmult_lt_0_compat | lra].
move=> h e.
have e' : (((1 - me_p) * (1 - me_p)) *
           ((1 + me_p - 2 * me_q) * (1 + me_p - 2 * me_q)) / 12 = 0)%Re.
  exact: e.
by lra.
Qed.

(** The mean embedding test computes a statistic from one row of [X]
    and three rows of [Y]. *)
Lemma me_compute_stat_one_row (alpha : R) :
  exists s : R,
    MeanEmbeddingTest.compute_stat
      (MeanEmbeddingTest.Make (Some me_T) 1 alpha) me_X1 me_Y3 = Return s.
Proof.
rewrite MeanEmbeddingTest_compute_statE me_features3 bind_Return.
rewrite /stat_of_features me_cov3 bind_Return /np_mean0 /= me_Sig3_unit /=.
by eexists.
Qed.

(** ** C6: the two samples swapped *)

Lemma sub_rowN n m (Z : 'M[R]_(n, m)) (W : 'cV[R]_m) :
  sub_row (- Z) (- W) = - sub_row Z W.
Proof. by apply/matrixP => i j; rewrite !mxE opprB opprK addrC. Qed.

Lemma col_meanN n m (Z : 'M[R]_(n, m)) (c : R) :
  (\col_j ((\sum_i (- Z) i j) / c) : 'cV[R]_m) =
  - (\col_j ((\sum_i Z i j) / c)).
Proof.
apply/matrixP => j k; rewrite !mxE -mulNr -sumrN; congr (_ / _).
by apply: eq_bigr => i _; rewrite mxE.
Qed.

Lemma gramN n m (A : 'M[R]_(n, m)) : (- A)^T *m (- A) = A^T *m A.
Proof.
apply/matrixP => i j; rewrite !mxE; apply: eq_bigr => k _.
by rewrite !mxE mulrNN.
Qed.

Lemma stat_of_featuresN nx n m (Z : 'M[R]_(n, m)) :
  stat_of_features nx (- Z) = stat_of_features nx Z.
Proof.
rewrite /stat_of_features /np_cov_T /np_mean0.
case: ifP => // _; rewrite col_meanN sub_rowN gramN !bind_Return.
case: ifP => // _; rewrite !bind_Return.
case: (if m == 1%N then _ else _) => c //=.
by case: ifP => // _; rewrite !bind_Return mulmxN dotNN.
Qed.

Lemma objective_of_featuresN nx n m (Z : 'M[R]_(n, m)) :
  objective_of_features nx (- Z) = objective_of_features nx Z.
Proof.
rewrite /objective_of_features; case: ifP => // _.
rewrite !bind_Return col_meanN sub_rowN gramN /matrix_inverse.
by case: ifP => // _; rewrite !bind_Return mulmxN dotNN.
Qed.

Lemma SmoothCFTest_construct_z_swap J d n (X Y : 'M[R]_(n, d))
  (T : 'M[R]_(J, d)) (w : R) :
  SmoothCFTest.construct_z_theano Y X T w =
  (Z <- SmoothCFTest.construct_z_theano X Y T w ;; Return (- Z)).
Proof.
rewrite /SmoothCFTest.construct_z_theano /mx_fdiv.
by case: ifP => //= _; rewrite opprB.
Qed.

Lemma MeanEmbeddingTest_construct_z_swap J d n (X Y : 'M[R]_(n, d))
  (T : 'M[R]_(J, d)) (w : R) :
  MeanEmbeddingTest.construct_z_theano Y X T w =
  (Z <- MeanEmbeddingTest.construct_z_theano X Y T w ;; Return (- Z)).
Proof.
rewrite /MeanEmbeddingTest.construct_z_theano
        /MeanEmbeddingTest.asym_gauss_kernel_theano /mx_fdiv.
by case: ifP => //= _; rewrite opprB.
Qed.

Lemma MeanEmbeddingTest_compute_stat_same_rows J d (T : 'M[R]_(J, d)) w a n
  (X Y : 'M[R]_(n, d)) :
  MeanEmbeddingTest.compute_stat (MeanEmbeddingTest.Make (Some T) w a) X Y =
  (Z <- MeanEmbeddingTest.construct_z_theano X Y T w ;; stat_of_features n Z).
Proof.
rewrite MeanEmbeddingTest_compute_statE
        /MeanEmbeddingTest.construct_z_theano
        /MeanEmbeddingTest.asym_gauss_kernel_theano
        /MeanEmbeddingTest.asym_gauss_kernel /mx_fdiv.
by case: ifP => //= _; rewrite np_sub_bcast_same.
Qed.

(** C6.  Swapping the two samples negates the features of both maps, and
    the statistic of both tests, like the objective of the optimisers, is
    the same for [(X, Y)] and for [(Y, X)]. *)
Theorem C6_swap_samples (J d n : nat) (X Y : 'M[R]_(n, d))
  (T : 'M[R]_(J, d)) (w : R)
  (scf : SmoothCFTest.t J d) (met : MeanEmbeddingTest.t J d) (nx : nat) :
  [/\ SmoothCFTest.construct_z Y X T w =
        (Z <- SmoothCFTest.construct_z X Y T w ;; Return (- Z)),
      MeanEmbeddingTest.construct_z_theano Y X T w =
        (Z <- MeanEmbeddingTest.construct_z_theano X Y T w ;; Return (- Z)),
      SmoothCFTest.compute_stat scf Y X = SmoothCFTest.compute_stat scf X Y &
      MeanEmbeddingTest.compute_stat met Y X =
        MeanEmbeddingTest.compute_stat met X Y] /\
  (objective (@SmoothCFTest.construct_z_theano J d) nx Y X T w =
     objective (@SmoothCFTest.construct_z_theano J d) nx X Y T w /\
   objective (@MeanEmbeddingTest.construct_z_theano J d) nx Y X T w =
     objective (@MeanEmbeddingTest.construct_z_theano J d) nx X Y T w).
Proof.
split; [split | split].
- by rewrite !construct_z_same_rows SmoothCFTest_construct_z_swap.
- exact: MeanEmbeddingTest_construct_z_swap.
- case: scf => [[T'|] w' a] //.
  rewrite !SmoothCFTest_compute_statE SmoothCFTest_construct_z_swap.
  case: (SmoothCFTest.construct_z_theano X Y T' w') => //= Z.
  exact: stat_of_featuresN.
- case: met => [[T'|] w' a] //.
  rewrite !MeanEmbeddingTest_compute_stat_same_rows
          MeanEmbeddingTest_construct_z_swap.
  case: (MeanEmbeddingTest.construct_z_theano X Y T' w') => //= Z.
  exact: stat_of_featuresN.
- rewrite !objectiveE SmoothCFTest_construct_z_swap.
  case: (SmoothCFTest.construct_z_theano X Y T _) => //= Z.
  exact: objective_of_featuresN.
- rewrite !objectiveE MeanEmbeddingTest_construct_z_swap.
  case: (MeanEmbeddingTest.construct_z_theano X Y T _) => //= Z.
  exact: objective_of_featuresN.
Qed.

(** ** C4: the statistic of the tests and the objective of the optimisers *)

(** C4, as the claim states it, fails: on the worked example, with the
    same data, the same [T] and the same width, the statistic of the
    test is 4 and the objective of the optimisers is 6. *)
Lemma C4_counterexample :
  [/\ SmoothCFTest.compute_stat
        (SmoothCFTest.Make (Some (ex_T 1)) 1 (/ 100)) ex_X ex_Y =
        Return 4%:R,
      objective (@SmoothCFTest.construct_z_theano 1 1) 3 ex_X ex_Y
        (ex_T 1) 1 = Return 6%:R &
      4%:R <> 6%:R :> R].
Proof.
split.
- exact: (ex_compute_stat _ (oner_neq0 _)).
- have -> : ex_T 1 = ex_T ((1 : R) ^+ 2) by rewrite expr1n.
  exact: (ex_objective (oner_neq0 _)).
- by real_unfold; lra.
Qed.

(** C4, as amended.  On the same data, the same [T] and the same width
    (the square of [gamma_sq]), whenever the test returns a statistic [s]
    the objective of the optimisers returns [s * n / (n - 1)]: the
    covariance of the test is divided by [n - 1], the covariance of the
    objective by [n]. *)
Theorem C4_statistic_and_objective (J d n : nat) (X Y : 'M[R]_(n, d))
  (T : 'M[R]_(J, d)) (gamma_sq a : R) :
  (forall s,
     SmoothCFTest.compute_stat
       (SmoothCFTest.Make (Some T) (gamma_sq ^+ 2) a) X Y = Return s ->
     objective (@SmoothCFTest.construct_z_theano J d) n X Y T gamma_sq =
     Return (s * n%:R / n.-1%:R)) /\
  (forall s,
     MeanEmbeddingTest.compute_stat
       (MeanEmbeddingTest.Make (Some T) (gamma_sq ^+ 2) a) X Y = Return s ->
     objective (@MeanEmbeddingTest.construct_z_theano J d) n X Y T gamma_sq =
     Return (s * n%:R / n.-1%:R)).
Proof.
split=> s.
- rewrite SmoothCFTest_compute_statE objectiveE.
  case: (SmoothCFTest.construct_z_theano X Y T _) => //= Z.
  exact: objective_of_stat.
- rewrite MeanEmbeddingTest_compute_stat_same_rows objectiveE.
  case: (MeanEmbeddingTest.construct_z_theano X Y T _) => //= Z.
  exact: objective_of_stat.
Qed.

Lemma C4_statistic_and_objective_witness :
  objective (@SmoothCFTest.construct_z_theano 1 1) 3 ex_X ex_Y (ex_T 1) 1 =
  Return (4%:R * 3%:R / 2%:R).
Proof.
have e : SmoothCFTest.compute_stat
           (SmoothCFTest.Make (Some (ex_T 1)) (1 ^+ 2) (/ 100)) ex_X ex_Y =
         Return 4%:R.
  by rewrite expr1n ex_compute_stat ?oner_neq0.
exact: (proj1 (C4_statistic_and_objective ex_X ex_Y (ex_T 1) 1 (/ 100)) _ e).
Defined.

(** ** C7: samples of different sizes *)

(** The check of [SmoothCFTest.construct_z]. *)
Lemma SmoothCFTest_construct_z_rows J d nx ny (X : 'M[R]_(nx, d))
  (Y : 'M[R]_(ny, d)) (T : 'M[R]_(J, d)) (w : R) :
  nx != ny -> SmoothCFTest.construct_z X Y T w = Raise ValueError.
Proof. by rewrite /SmoothCFTest.construct_z; case: eqP. Qed.

Lemma stat_of_features_no_ValueError nx n m (Z : 'M[R]_(n, m)) :
  is_ValueError (stat_of_features nx Z) = false.
Proof.
rewrite /stat_of_features /np_cov_T /np_mean0.
case: ifP => // _; rewrite bind_Return; case: ifP => // _.
rewrite bind_Return; case: (if m == 1%N then _ else _) => c //=.
by case: ifP.
Qed.

(** The subtraction of [MeanEmbeddingTest.compute_stat] broadcasts a
    sample of one row: no error is raised for the shapes. *)
Lemma MeanEmbeddingTest_one_row J d ny (X : 'M[R]_(1, d))
  (Y : 'M[R]_(ny, d)) (T : 'M[R]_(J, d)) (w a : R) :
  is_ValueError
    (MeanEmbeddingTest.compute_stat
       (MeanEmbeddingTest.Make (Some T) w a) X Y) = false.
Proof.
rewrite MeanEmbeddingTest_compute_statE
        /MeanEmbeddingTest.asym_gauss_kernel /mx_fdiv.
case: ifP => // _; rewrite !bind_Return /np_sub_bcast.
by case: ifP => _; rewrite ?eqxx bind_Return;
   exact: stat_of_features_no_ValueError.
Qed.

(** C7 on the code.  With one row in [X] and three rows in [Y], the
    smooth characteristic function test raises [ValueError]; the mean
    embedding test raises nothing and returns a statistic. *)
Theorem C7_row_counts :
  SmoothCFTest.compute_stat
    (SmoothCFTest.Make (Some me_T) 1 (/ 100)) me_X1 me_Y3 =
  Raise ValueError /\
  is_Return
    (MeanEmbeddingTest.compute_stat
       (MeanEmbeddingTest.Make (Some me_T) 1 (/ 100)) me_X1 me_Y3) = true.
Proof.
split.
  by rewrite /SmoothCFTest.compute_stat /= SmoothCFTest_construct_z_rows.
by have [s ->] := me_compute_stat_one_row (/ 100).
Qed.

(** ** C10: the step of [T] and a zero gradient *)

(** C10.  The step of [T] divides by the norm of the gradient without a
    test: for a nonzero gradient it is the gradient scaled by
    [T_step_size / it**0.5 / norm], for the zero gradient the division
    is by zero and the compiled function leaves no finite [T], rather
    than the [T] it had. *)
Theorem C10_zero_gradient (J d m : nat)
  (func_z : forall nb : nat, 'M[R]_(nb, d) -> 'M[R]_(nb, d) ->
            'M[R]_(J, d) -> R -> result 'M[R]_(nb, m))
  (nx : nat)
  (gra_T : forall nb : nat, 'M[R]_(nb, d) -> 'M[R]_(nb, d) ->
           'M[R]_(J, d) -> R -> 'M[R]_(J, d))
  (gra_gamma_sq : forall nb : nat, 'M[R]_(nb, d) -> 'M[R]_(nb, d) ->
                  'M[R]_(J, d) -> R -> R)
  (T_step_size gwidth_step_size : R) (nb : nat) (Xth Yth : 'M[R]_(nb, d))
  (sh : shared J d) (g : 'M[R]_(J, d)) :
  (0 < sh_it sh)%N ->
  T_step T_step_size g (sh_it sh) =
    (if g == 0 then NonFinite
     else Return ((sqrt (\sum_i \sum_j (g i j) ^+ 2))^-1 *:
                  ((sqrt (INR (sh_it sh)))^-1 *: (T_step_size *: g)))) /\
  (forall s,
     objective func_z nx Xth Yth (sh_T sh) (sh_gamma_sq sh) = Return s ->
     gra_T nb Xth Yth (sh_T sh) (sh_gamma_sq sh) = 0 ->
     func_T func_z nx gra_T gra_gamma_sq T_step_size gwidth_step_size
       Xth Yth sh = NonFinite).
Proof.
move=> it0; split; first exact: T_stepE.
by move=> s hs hg; rewrite /func_T hs bind_Return hg T_stepE // eqxx.
Qed.

Lemma C10_zero_gradient_witness :
  T_step 1 (const_mx 1 : 'M[R]_(1, 1)) 1 =
    Return ((sqrt (\sum_i \sum_j ((const_mx 1 : 'M[R]_(1, 1)) i j) ^+ 2))^-1 *:
            ((sqrt (INR 1))^-1 *: (1 *: const_mx 1))) /\
  func_T (@SmoothCFTest.construct_z_theano 1 1) 3 zero_gra_T ex_gra_gamma_sq
    1 1 ex_X ex_Y (Shared (ex_T (1 ^+ 2)) 1 1) = NonFinite.
Proof.
have [h1 h2] :=
  @C10_zero_gradient 1 1 (1 + 1) (@SmoothCFTest.construct_z_theano 1 1) 3
    zero_gra_T ex_gra_gamma_sq 1 1 3 ex_X ex_Y
    (Shared (ex_T (1 ^+ 2)) 1 1) (const_mx 1) (ltn0Sn 0).
split.
- by rewrite h1 -norm_eq0 (ex_gra_T_norm ex_X ex_Y 0 0) oner_eq0.
- exact: (h2 6%:R (ex_objective (oner_neq0 _)) (erefl _)).
Defined.

(** ** C5: the mini-batch of a pass *)

Lemma float_val_half : float_val float_half = (/ 2)%Re.
Proof. by rewrite /float_val /float_half /=; lra. Qed.

Lemma ceiling_half5 : ceiling (float_val float_half * INR 5) = 3%Z.
Proof.
rewrite float_val_half /ceiling.
have <- : (-3)%Z = Int_part (- (/ 2 * INR 5)) => //.
apply: Int_part_spec.
have -> : INR 5 = 5%Re by rewrite /INR /=; lra.
by lra.
Qed.

Lemma batch_size_half5 : batch_size 5 float_half = Return 2%Z.
Proof. by vm_compute. Qed.

(** The rounding of the product decides the size.  The double [0.7] is
    [3152519739159347 * 2^-52]; ten times that lies just below 7 and is
    rounded to the double 7, so [int(0.7*10)] is 7, where the exact
    product, truncated, is 6.  The double [0.29] is
    [5224175567749775 * 2^-54] and [int(0.29*100)] is 28. *)
Lemma batch_size_rounded :
  [/\ batch_size 10 (F_finite 3152519739159347 (-52)) = Return 7%Z,
      Z.quot (3152519739159347 * 10) (2 ^ 52) = 6%Z &
      batch_size 100 (F_finite 5224175567749775 (-54)) = Return 28%Z].
Proof. by split; vm_compute. Qed.

(** What [int] refuses: the product of a huge [batch_proportion]
    overflows to an infinity, and [nan] stays [nan]. *)
Lemma batch_size_raises :
  batch_size 100 (F_finite 1 1023) = Raise OverflowError /\
  batch_size 100 F_nan = Raise ValueError.
Proof. by split; vm_compute. Qed.

(** C5, as the claim states it, fails: for five rows and
    [batch_proportion = 0.5] the size passed to [np.random.choice] is
    [int(2.5) = 2], and the batch drawn has two indices, while the
    ceiling of [2.5] is three. *)
Lemma C5_counterexample :
  [/\ batch_size 5 float_half = Return 2%Z,
      ceiling (float_val float_half * INR 5) = 3%Z &
      forall g : rng_state (counting_rng 0),
        draw_batch 5 float_half g = Return ([:: 0; 1]%N, g.+1)].
Proof.
split; [exact: batch_size_half5 | exact: ceiling_half5 |].
by move=> g; rewrite /draw_batch batch_size_half5.
Qed.

Lemma counting_choice_spec c : choice_without_replacement (counting_rng c).
Proof.
move=> g g' a k ind /=.
case: ifP => // /negbT; rewrite negb_or => /andP [/negbTE k0 /negbTE ka].
case=> <- _.
have k0' : (0 <= k)%Z by apply/Z.ltb_ge.
have ka' : (k <= Z.of_nat a)%Z by apply/Z.ltb_ge.
have le : (Z.to_nat k <= a)%N by apply/leP; lia.
split.
- by rewrite size_take_min size_iota; apply/minn_idPl.
- by apply: take_uniq; exact: iota_uniq.
- by apply/allP => i /mem_take; rewrite mem_iota add0n.
Qed.

Section MiniBatch.

Variable rnd : numpy_random.
Variables (J d nx : nat) (X Y : 'M[R]_(nx, d)).
Variable func :
  forall nb : nat, 'M[R]_(nb, d) -> 'M[R]_(nb, d) -> shared J d ->
  result (R * shared J d).
Variables (batch_proportion : float64) (tol_fun : R).

Notation ascent := (ascent rnd J d).

(** A pass that completes has drawn its batch from the state it started
    with and leaves the state after that draw. *)
Lemma body_T_draw t (a : ascent) b a' :
  body_T X Y func batch_proportion tol_fun t a = Return (b, a') ->
  exists ind,
    draw_batch nx batch_proportion (a_rng a) = Return (ind, a_rng a').
Proof.
rewrite /body_T.
case: (draw_batch _ _ _) => [[ind g']|e|] //=.
by case: (func _ _ _) => [[s sh]|e|] //= [_ <-]; exists ind.
Qed.

Lemma body_width_draw t (a : ascent) b a' :
  body_width X Y func batch_proportion tol_fun t a = Return (b, a') ->
  exists ind,
    draw_batch nx batch_proportion (a_rng a) = Return (ind, a_rng a').
Proof.
rewrite /body_width.
case: (draw_batch _ _ _) => [[ind g']|e|] //=.
by case: (func _ _ _) => [[s sh]|e|] //= [_ <-]; exists ind.
Qed.

(** A draw that succeeds was made with the size that [batch_size]
    returned. *)
Lemma draw_batch_Return (g g' : rng_state rnd) ind :
  draw_batch nx batch_proportion g = Return (ind, g') ->
  exists2 k, batch_size nx batch_proportion = Return k &
             rng_choice g nx k = Return (ind, g').
Proof.
rewrite /draw_batch; case: (batch_size _ _) => [k|e|] //= h.
by exists k.
Qed.

End MiniBatch.

(** C5, amended.  The size of the mini-batch is
    [min(int(batch_proportion*nx), nx)]: the product of the two doubles
    is truncated, not rounded up.  When that product needs no rounding
    the size is the exact product truncated, and for
    [batch_proportion = 1.0] it is [nx].  In every pass of either loop
    the size is handed to [np.random.choice(nx, size, replace=False)],
    so the batch has that many indices, all different and all below
    [nx]. *)
Theorem C5_mini_batch (rnd : numpy_random) (J d nx : nat)
  (X Y : 'M[R]_(nx, d))
  (func : forall nb : nat, 'M[R]_(nb, d) -> 'M[R]_(nb, d) -> shared J d ->
          result (R * shared J d))
  (batch_proportion : float64) (tol_fun : R) :
  choice_without_replacement rnd ->
  (Z.of_nat nx < 2 ^ 53)%Z ->
  [/\ forall m e : Z,
        (Z.abs (m * Z.of_nat nx) < 2 ^ 53)%Z -> (-1074 <= e <= 0)%Z ->
        batch_size nx (F_finite m e) =
        Return (Z.min (Z.quot (m * Z.of_nat nx) (2 ^ (- e))) (Z.of_nat nx)),
      batch_size nx float_one = Return (Z.of_nat nx) &
      forall (t : nat) (a : ascent rnd J d) b a',
        body_T X Y func batch_proportion tol_fun t a = Return (b, a') \/
        body_width X Y func batch_proportion tol_fun t a = Return (b, a') ->
        exists k ind,
          [/\ batch_size nx batch_proportion = Return k,
              rng_choice (a_rng a) nx k = Return (ind, a_rng a'),
              size ind = Z.to_nat k,
              uniq ind & all (fun i => (i < nx)%N) ind]].
Proof.
move=> choice hn; split.
- by move=> m e hm he; exact: batch_size_exact.
- exact: batch_size_full.
- move=> t a b a' [/body_T_draw|/body_width_draw] [ind] /draw_batch_Return;
    case=> k hk h; exists k, ind;
    by have [h1 h2 h3] := choice _ _ _ _ _ h; split.
Qed.

Lemma C5_mini_batch_witness :
  [/\ choice_without_replacement (counting_rng 0),
      (Z.of_nat 5 < 2 ^ 53)%Z,
      batch_size 5 float_half = Return (Z.min (Z.quot (1 * 5) (2 ^ 1)) 5) &
      batch_size 5 float_one = Return 5%Z].
Proof.
have hn : (Z.of_nat 5 < 2 ^ 53)%Z by [].
have [h1 h2 _] :=
  @C5_mini_batch (counting_rng 0) 1 1 5 (const_mx 0) (const_mx 0)
    (ex_func_T 0 0) float_half (/ 1000) (@counting_choice_spec 0) hn.
have hm : (Z.abs (1 * Z.of_nat 5) < 2 ^ 53)%Z by [].
have he : (-1074 <= -1 <= 0)%Z by [].
split; [exact: counting_choice_spec | exact: hn | | exact: h2].
exact: (h1 1%Z (-1)%Z hm he).
Defined.

(** ** C2: a fault in the objective *)

(** C2.  With two identical samples the covariance of the features is
    singular and the compiled function raises [LinAlgError] in the
    first pass.  [optimize_gaussian_width] calls it outside any [try]:
    the exception reaches the caller.  [optimize_T_gaussian_width]
    catches it, sets [t = -1], and then reads [Ts[-1]] of an empty
    trace, which raises [IndexError]. *)
Theorem C2_fault_in_objective (rnd : numpy_random)
  (mean_std : forall n d : nat, 'M[R]_(n, d) -> 'M[R]_(n, d) -> R)
  (J d nx : nat) (X : 'M[R]_(nx.+1, d)) (T : 'M[R]_(J.+1, d))
  (gra_T : forall nb : nat, 'M[R]_(nb, d) -> 'M[R]_(nb, d) ->
           'M[R]_(J.+1, d) -> R -> 'M[R]_(J.+1, d))
  (gra_gamma_sq : forall nb : nat, 'M[R]_(nb, d) -> 'M[R]_(nb, d) ->
                  'M[R]_(J.+1, d) -> R -> R)
  (max_iter : nat) (T_step_size gwidth_step_size : R)
  (batch_proportion : float64) (tol_fun : R)
  (g g' : rng_state rnd) (ind : seq nat) :
  draw_batch nx.+1 batch_proportion g = Return (ind, g') ->
  optimize_gaussian_width mean_std
    (@SmoothCFTest.construct_z_theano J.+1 d) gra_gamma_sq
    g X X T max_iter.+1 gwidth_step_size batch_proportion tol_fun =
  Raise LinAlgError /\
  optimize_T_gaussian_width mean_std
    (@SmoothCFTest.construct_z_theano J.+1 d) gra_T gra_gamma_sq
    g X X T max_iter.+1 T_step_size gwidth_step_size batch_proportion
    tol_fun =
  Raise IndexError.
Proof.
move=> hc; split.
- rewrite /optimize_gaussian_width /ascent_width for_range_cons.
  set a0 := ascent_init _ _ _ _.
  set func := func_width _ _ _ _.
  have hf : func _ (take_rows X ind) (take_rows X ind) (a_sh a0) =
            Raise LinAlgError.
    by rewrite /func /func_width /= objective_same // gamma_sq_init_neq0.
  have hc' : draw_batch nx.+1 batch_proportion (a_rng a0) =
             Return (ind, g') by [].
  by rewrite (body_width_Raise _ _ hc' hf).
- rewrite /optimize_T_gaussian_width /ascent_T for_range_cons.
  set a0 := ascent_init _ _ _ _.
  set func := func_T _ _ _ _ _ _.
  have hf : func _ (take_rows X ind) (take_rows X ind) (a_sh a0) =
            Raise LinAlgError.
    by rewrite /func /func_T /= objective_same // gamma_sq_init_neq0.
  have hc' : draw_batch nx.+1 batch_proportion (a_rng a0) =
             Return (ind, g') by [].
  by rewrite (body_T_Raise _ _ hc' hf).
Qed.

Lemma C2_fault_in_objective_witness :
  optimize_gaussian_width (rnd := counting_rng 0) avg_std
    (@SmoothCFTest.construct_z_theano 1 1) ex_gra_gamma_sq
    0%N ex_X ex_X (ex_T 1) 400 (/ 10) float_one (/ 1000) =
  Raise LinAlgError /\
  optimize_T_gaussian_width (rnd := counting_rng 0) avg_std
    (@SmoothCFTest.construct_z_theano 1 1) ex_gra_T ex_gra_gamma_sq
    0%N ex_X ex_X (ex_T 1) 400 1 (/ 10) float_one (/ 1000) =
  Raise IndexError.
Proof.
apply: (@C2_fault_in_objective (counting_rng 0) avg_std 0 1 2 ex_X (ex_T 1)
          ex_gra_T ex_gra_gamma_sq 399 1 (/ 10) float_one (/ 1000) 0%N 1%N
          (iota 0 3)).
by rewrite /draw_batch batch_size_full // bind_Return counting_choice_full.
Defined.

(** ** C3: the length of the trace *)

(** C3.  On the example, with both step sizes zero, the objective is 6
    in every pass and the loop stops in its third pass, [t = 2], for
    [tol_fun = 1e-3] and any [max_iter] of at least 3.
    [optimize_T_gaussian_width] cuts its arrays at [t+1] and returns
    traces of length 3; [optimize_gaussian_width] cuts them at [t] and
    returns traces of length 2. *)
Theorem C3_trace_length (c : R)
  (mean_std : forall n d : nat, 'M[R]_(n, d) -> 'M[R]_(n, d) -> R)
  (gra : forall nb : nat, 'M[R]_(nb, 1) -> 'M[R]_(nb, 1) -> 'M[R]_(1, 1) ->
         R -> R)
  (g k : nat) :
  let g0 := gamma_sq_init mean_std ex_X ex_Y in
  let T0 := ex_T (g0 ^+ 2) in
  optimize_T_gaussian_width (rnd := counting_rng c) mean_std
    (@SmoothCFTest.construct_z_theano 1 1) ex_gra_T ex_gra_gamma_sq
    g ex_X ex_Y T0 k.+3 0 0 float_one (/ 1000) =
  Return (T0, g0 ^+ 2,
          InfoT [:: T0; T0; T0] T0 [:: g0 ^+ 2; g0 ^+ 2; g0 ^+ 2]
                [:: 6%:R; 6%:R; 6%:R],
          g.+3) /\
  optimize_gaussian_width (rnd := counting_rng c) mean_std
    (@SmoothCFTest.construct_z_theano 1 1) gra
    g ex_X ex_Y T0 k.+3 0 float_one (/ 1000) =
  Return (g0 ^+ 2,
          InfoWidth T0 [:: g0 ^+ 2; g0 ^+ 2] [:: 6%:R; 6%:R],
          g.+3).
Proof.
move=> g0 T0.
have tol0 : (0 <= / 1000)%Re by lra.
by split; [exact: ex_run_T_still | exact: ex_run_width_still].
Qed.

(** ** C9: the state of the random generator *)

Section RandomState.

Variable rnd : numpy_random.
Variables (J d nx : nat) (X Y : 'M[R]_(nx, d)).
Variable func :
  forall nb : nat, 'M[R]_(nb, d) -> 'M[R]_(nb, d) -> shared J d ->
  result (R * shared J d).
Variables (batch_proportion : float64) (tol_fun : R).

Notation ascent := (ascent rnd J d).
Local Notation after_draws := (after_draws nx batch_proportion).

Lemma for_range_draws
  (body : nat -> ascent -> result (bool * ascent)) :
  (forall t a b a', body t a = Return (b, a') ->
     exists ind, draw_batch nx batch_proportion (a_rng a) =
                 Return (ind, a_rng a')) ->
  forall ts a a', for_range body ts a = Return a' ->
  exists k, [/\ (k <= size ts)%N, (0 < size ts -> 0 < k)%N &
                after_draws k (a_rng a) = Return (a_rng a')].
Proof.
move=> hb; elim=> [|t ts IH] a a' /=; first by case=> <-; exists 0%N.
case e: (body t a) => [[b a1]|e'|] //=.
have [ind hd] := hb _ _ _ _ e.
case: b {e} => [[<-]|/IH [k [h1 _ h3]]].
  by exists 1%N; split=> //=; rewrite hd.
by exists k.+1; split=> //=; rewrite hd.
Qed.

End RandomState.

(** C9, as the claim states it, fails: the mini-batch of each pass is
    drawn after the saved state has been put back, from the global
    generator, and the call leaves the state after those draws.  Here
    the state is a counter of the draws made: it is 0 at the call and 1
    when the call returns. *)
Lemma C9_counterexample :
  exists r,
    optimize_freqs_width (rnd := counting_rng (ex_g0 ^+ 2)) avg_std
      ex_gra_T ex_gra_gamma_sq 0%N ex_X ex_Y 1 1 1 float_one (/ 1000) 0 =
    Return (r, 1%N) /\ 1%N <> 0%N.
Proof.
eexists; split=> //.
rewrite /optimize_freqs_width.
by rewrite (ex_run_T_once (ex_g0 ^+ 2) avg_std 0 1 1 (/ 1000)).
Qed.

(** C9, amended.  The initial [T0] of [optimize_freqs_width] is the
    draw made right after seeding: it depends on the seed alone, not on
    the state of [np.random] at the call.  The saved state is put back
    after that draw, before the loop: when the call returns, the state
    of [np.random] is the state at the call advanced by the mini-batch
    draws of the passes made, at least one and at most [max_iter]. *)
Theorem C9_random_state (rnd : numpy_random)
  (mean_std : forall n d : nat, 'M[R]_(n, d) -> 'M[R]_(n, d) -> R)
  (J d nx : nat)
  (gra_T : forall nb : nat, 'M[R]_(nb, d) -> 'M[R]_(nb, d) ->
           'M[R]_(J, d) -> R -> 'M[R]_(J, d))
  (gra_gamma_sq : forall nb : nat, 'M[R]_(nb, d) -> 'M[R]_(nb, d) ->
                  'M[R]_(J, d) -> R -> R)
  (g : rng_state rnd) (X Y : 'M[R]_(nx, d)) (max_iter : nat)
  (freqs_step_size gwidth_step_size : R) (batch_proportion : float64)
  (tol_fun : R)
  (seed : nat) T gam info st :
  optimize_freqs_width mean_std gra_T gra_gamma_sq g X Y max_iter
    freqs_step_size gwidth_step_size batch_proportion tol_fun seed =
  Return (T, gam, info, st) ->
  info_T0 info = (rng_randn (rng_seed rnd seed) J d).1 /\
  exists k, [/\ (0 < k)%N, (k <= max_iter)%N &
                after_draws nx batch_proportion k g = Return st].
Proof.
move=> run.
have mi : (0 < max_iter)%N by case: max_iter run.
move: run.
rewrite /optimize_freqs_width /optimize_T_gaussian_width /ascent_T.
case e: (for_range _ _ _) => [a|e'|] //=.
have [k [h1 h2 h3]] := for_range_draws (@body_T_draw _ _ _ _ _ _ _ _ _) e.
rewrite size_iota in h1 h2.
case: (a_t a) => [t|] //.
case: (py_last _) => [T'|e'|] //=.
case: (py_last _) => [gam'|e'|] //= [_ _ <- <-] /=.
by split=> //; exists k; split=> //; exact: h2.
Qed.

Lemma C9_random_state_witness :
  exists T gam info,
    optimize_freqs_width (rnd := counting_rng (ex_g0 ^+ 2)) avg_std
      ex_gra_T ex_gra_gamma_sq 0%N ex_X ex_Y 1 1 1 float_one (/ 1000) 0 =
    Return (T, gam, info, 1%N) /\
    info_T0 info = const_mx (ex_g0 ^+ 2) /\
    exists k, [/\ (0 < k)%N, (k <= 1)%N &
                  after_draws (rnd := counting_rng (ex_g0 ^+ 2)) 3 float_one k 0%N =
                  Return 1%N].
Proof.
have [r run] : exists r,
    optimize_freqs_width (rnd := counting_rng (ex_g0 ^+ 2)) avg_std
      ex_gra_T ex_gra_gamma_sq 0%N ex_X ex_Y 1 1 1 float_one (/ 1000) 0 =
    Return (r, 1%N).
  eexists; rewrite /optimize_freqs_width.
  by rewrite (ex_run_T_once (ex_g0 ^+ 2) avg_std 0 1 1 (/ 1000)).
case: r run => [[T gam] info] run.
exists T, gam, info; split=> //.
exact: (C9_random_state run).
Defined.

(** ** Samples and parameters on which no statistic exists *)

Lemma me_features_same J d n (X : 'M[R]_(n, d)) (T : 'M[R]_(J, d)) w :
  w != 0 -> MeanEmbeddingTest.construct_z_theano X X T w = Return 0.
Proof.
move=> w0; rewrite /MeanEmbeddingTest.construct_z_theano
  /MeanEmbeddingTest.asym_gauss_kernel_theano /mx_fdiv (negbTE w0) /=.
by rewrite subrr.
Qed.

(** Two identical samples give no statistic: the features are all zero,
    their covariance is singular, and [compute_stat] of both tests, like
    the objective of the optimisers, raises [LinAlgError]. *)
Theorem identical_samples (J d n nx : nat) (X : 'M[R]_(n.+2, d))
  (T : 'M[R]_(J.+1, d)) (g a : R) :
  g != 0 ->
  [/\ SmoothCFTest.compute_stat (SmoothCFTest.Make (Some T) (g ^+ 2) a) X X =
        Raise LinAlgError,
      MeanEmbeddingTest.compute_stat
        (MeanEmbeddingTest.Make (Some T) (g ^+ 2) a) X X = Raise LinAlgError,
      objective (@SmoothCFTest.construct_z_theano J.+1 d) nx.+1 X X T g =
        Raise LinAlgError
    & objective (@MeanEmbeddingTest.construct_z_theano J.+1 d) nx.+1 X X T g =
        Raise LinAlgError].
Proof.
move=> g0; have w0 : g ^+ 2 != 0 by rewrite expf_neq0.
split.
- exact: compute_stat_same.
- rewrite MeanEmbeddingTest_compute_stat_same_rows me_features_same //.
  by rewrite bind_Return stat_of_features0.
- exact: objective_same.
- rewrite objectiveE me_features_same // bind_Return.
  exact: objective_of_features0.
Qed.

Lemma identical_samples_witness :
  SmoothCFTest.compute_stat (SmoothCFTest.Make (Some (ex_T 1)) (1 ^+ 2) (/ 100))
    ex_X ex_X = Raise LinAlgError /\
  MeanEmbeddingTest.compute_stat
    (MeanEmbeddingTest.Make (Some (ex_T 1)) (1 ^+ 2) (/ 100)) ex_X ex_X =
  Raise LinAlgError.
Proof.
have [h1 h2 _ _] :=
  @identical_samples 0 1 1 0 ex_X (ex_T 1) 1 (/ 100) (oner_neq0 _).
by split.
Defined.

Lemma stat_of_features_one_column nx n (Z : 'M[R]_(n, 1)) :
  is_Return (stat_of_features nx Z) = false /\
  ((1 < n)%N -> stat_of_features nx Z = Raise LinAlgError).
Proof.
rewrite /stat_of_features /np_cov_T /np_mean0.
by case: n Z => [|[|n]] Z.
Qed.

(** With a single test location the mean embedding test never returns a
    statistic: [np.cov] squeezes the covariance of the one feature to an
    array of dimension 0, which [np.linalg.solve] refuses.  On two
    samples of at least two rows each and of the same size the call
    raises [LinAlgError]. *)
Theorem single_test_location (d nx ny : nat)
  (met : MeanEmbeddingTest.t 1 d) (X : 'M[R]_(nx, d)) (Y : 'M[R]_(ny, d)) :
  is_Return (MeanEmbeddingTest.compute_stat met X Y) = false /\
  (forall (n : nat) (X' Y' : 'M[R]_(n.+2, d)) (T : 'M[R]_(1, d)) (w a : R),
     w != 0 ->
     MeanEmbeddingTest.compute_stat (MeanEmbeddingTest.Make (Some T) w a)
       X' Y' = Raise LinAlgError).
Proof.
split.
  rewrite /MeanEmbeddingTest.compute_stat.
  case: (MeanEmbeddingTest.test_locs met) => [T|] //.
  case: (MeanEmbeddingTest.asym_gauss_kernel X _ _) => [g|e'|] //=.
  case: (MeanEmbeddingTest.asym_gauss_kernel Y _ _) => [h|e'|] //=.
  case: (np_sub_bcast g h) => [[n Z]|e'|] //=.
  by have [] := stat_of_features_one_column nx Z.
move=> n X' Y' T w a w0.
rewrite MeanEmbeddingTest_compute_stat_same_rows
        /MeanEmbeddingTest.construct_z_theano
        /MeanEmbeddingTest.asym_gauss_kernel_theano /mx_fdiv (negbTE w0) /=.
by have [_ ->] := stat_of_features_one_column n.+2
                    (MeanEmbeddingTest.gauss_kernel (w^-1 *: X') T -
                     MeanEmbeddingTest.gauss_kernel (w^-1 *: Y') T).
Qed.

Lemma single_test_location_witness :
  MeanEmbeddingTest.compute_stat
    (MeanEmbeddingTest.Make (Some (ex_T 1)) 1 (/ 100)) ex_X ex_Y =
  Raise LinAlgError.
Proof.
have [_ h] :=
  @single_test_location 1 3 3 (MeanEmbeddingTest.Make (Some (ex_T 1)) 1 (/ 100))
    ex_X ex_Y.
exact: (h 1%N ex_X ex_Y (ex_T 1) 1 (/ 100)%Re (oner_neq0 _)).
Defined.











(** ** The width and the data *)

Lemma mx_fdiv_neq0 m n (A : 'M[R]_(m, n)) (w : R) :
  w != 0 -> mx_fdiv A w = Return (w^-1 *: A).
Proof. by move=> w0; rewrite /mx_fdiv (negbTE w0). Qed.

Lemma mx_fdiv1 m n (A : 'M[R]_(m, n)) : mx_fdiv A 1 = Return A.
Proof. by rewrite mx_fdiv_neq0 ?oner_neq0 // invr1 scale1r. Qed.

Lemma construct_z_rescaled J d nx ny (X : 'M[R]_(nx, d)) (Y : 'M[R]_(ny, d))
  (T : 'M[R]_(J, d)) (w : R) :
  w != 0 ->
  SmoothCFTest.construct_z X Y T w =
  SmoothCFTest.construct_z (w^-1 *: X) (w^-1 *: Y) T 1.
Proof.
move=> w0; rewrite /SmoothCFTest.construct_z; case: eqP => // e.
case: ny / e Y => Y; rewrite !castmx_id.
by rewrite !mx_fdiv1 !mx_fdiv_neq0.
Qed.

Lemma asym_gauss_kernel_rescaled J d n (X : 'M[R]_(n, d)) (T : 'M[R]_(J, d))
  (w : R) :
  w != 0 ->
  MeanEmbeddingTest.asym_gauss_kernel X T w =
  MeanEmbeddingTest.asym_gauss_kernel (w^-1 *: X) T 1.
Proof.
move=> w0; rewrite /MeanEmbeddingTest.asym_gauss_kernel.
by rewrite mx_fdiv1 mx_fdiv_neq0.
Qed.

Lemma SmoothCFTest_compute_stat_rescaled J d nx ny (X : 'M[R]_(nx, d))
  (Y : 'M[R]_(ny, d)) (T : option 'M[R]_(J, d)) (w a : R) :
  w != 0 ->
  SmoothCFTest.compute_stat (SmoothCFTest.Make T w a) X Y =
  SmoothCFTest.compute_stat (SmoothCFTest.Make T 1 a) (w^-1 *: X) (w^-1 *: Y).
Proof.
move=> w0; rewrite /SmoothCFTest.compute_stat /=; case: T => [T|] //.
by rewrite construct_z_rescaled.
Qed.

Lemma MeanEmbeddingTest_compute_stat_rescaled J d nx ny (X : 'M[R]_(nx, d))
  (Y : 'M[R]_(ny, d)) (T : option 'M[R]_(J, d)) (w a : R) :
  w != 0 ->
  MeanEmbeddingTest.compute_stat (MeanEmbeddingTest.Make T w a) X Y =
  MeanEmbeddingTest.compute_stat (MeanEmbeddingTest.Make T 1 a)
    (w^-1 *: X) (w^-1 *: Y).
Proof.
move=> w0; rewrite /MeanEmbeddingTest.compute_stat /=; case: T => [T|] //.
by rewrite !(asym_gauss_kernel_rescaled _ _ w0).
Qed.

(** The width only divides the data: a test with width [w] on the
    samples [X] and [Y] does what the test with width 1 and the same
    frequencies or locations does on [X/w] and [Y/w].  The statistic
    and the whole result of [perform_test] are the same, errors
    included. *)
Theorem width_rescaling (chi2_sf : R -> nat -> R) (J d nx ny : nat)
  (X : 'M[R]_(nx, d)) (Y : 'M[R]_(ny, d)) (T : option 'M[R]_(J, d))
  (w a : R) :
  w != 0 ->
  [/\ SmoothCFTest.compute_stat (SmoothCFTest.Make T w a) X Y =
      SmoothCFTest.compute_stat (SmoothCFTest.Make T 1 a)
        (w^-1 *: X) (w^-1 *: Y),
      MeanEmbeddingTest.compute_stat (MeanEmbeddingTest.Make T w a) X Y =
      MeanEmbeddingTest.compute_stat (MeanEmbeddingTest.Make T 1 a)
        (w^-1 *: X) (w^-1 *: Y),
      SmoothCFTest.perform_test chi2_sf (SmoothCFTest.Make T w a) X Y =
      SmoothCFTest.perform_test chi2_sf (SmoothCFTest.Make T 1 a)
        (w^-1 *: X) (w^-1 *: Y)
    & MeanEmbeddingTest.perform_test chi2_sf
        (MeanEmbeddingTest.Make T w a) X Y =
      MeanEmbeddingTest.perform_test chi2_sf
        (MeanEmbeddingTest.Make T 1 a) (w^-1 *: X) (w^-1 *: Y)].
Proof.
move=> w0; split.
- exact: SmoothCFTest_compute_stat_rescaled.
- exact: MeanEmbeddingTest_compute_stat_rescaled.
- by rewrite /SmoothCFTest.perform_test SmoothCFTest_compute_stat_rescaled.
- by rewrite /MeanEmbeddingTest.perform_test
             MeanEmbeddingTest_compute_stat_rescaled.
Qed.

Lemma width_rescaling_witness :
  SmoothCFTest.compute_stat (SmoothCFTest.Make (Some (ex_T 2%:R)) 2%:R (/ 100))
    ex_X ex_Y = Return 4%:R /\
  SmoothCFTest.compute_stat (SmoothCFTest.Make (Some (ex_T 2%:R)) 1 (/ 100))
    ((2%:R : R)^-1 *: ex_X) ((2%:R : R)^-1 *: ex_Y) = Return 4%:R.
Proof.
have w0 : (2%:R : R) != 0 by apply: natR_neq0.
have [h _ _ _] :=
  @width_rescaling (fun _ _ => 0) 1 1 3 3 ex_X ex_Y (Some (ex_T 2%:R)) 2%:R
    (/ 100) w0.
by rewrite -h; split; exact: ex_compute_stat.
Defined.

(** ** The values of the features *)

Lemma exp_neg_range (S : R) : (0 <= S)%Re -> (0 < exp (- S) <= 1)%Re.
Proof.
move=> S0; split; first exact: exp_pos.
rewrite -exp_0; case: (Req_dec S 0) => [->|ne].
  by rewrite Ropp_0; exact: Rle_refl.
by apply/Rlt_le/exp_increasing; lra.
Qed.

Lemma smooth_weight_range d (x : 'I_d -> R) :
  (0 < exp (- (\sum_k (x k) ^+ 2) / 2%:R)%R <= 1)%Re.
Proof.
have h := sum_sq_ge0 (index_enum 'I_d) x.
have e (S : R) : (- S / 2%:R)%R = (- (S / 2))%Re by real_unfold; lra.
rewrite e; apply: exp_neg_range.
by move: (\sum_k _) h => S h; lra.
Qed.

Lemma Rabs_diff_prod (s1 s2 e1 e2 : R) :
  (-1 <= s1 <= 1)%Re -> (-1 <= s2 <= 1)%Re ->
  (0 < e1 <= 1)%Re -> (0 < e2 <= 1)%Re ->
  (Rabs (s1 * e1 - s2 * e2) <= 2)%Re.
Proof.
move=> [a1 b1] [a2 b2] [c1 d1] [c2 d2].
have h1 : (-1 <= s1 * e1 <= 1)%Re by split; nra.
have h2 : (-1 <= s2 * e2 <= 1)%Re by split; nra.
by apply: Rabs_le; lra.
Qed.

(** The features of the smooth characteristic function test are
    bounded.  Each one is a difference of two sines, or of two cosines,
    each damped by a factor [exp(-|x|^2/2)] of at most 1: its absolute
    value is at most 2, in [construct_z] as in its Theano version. *)
Theorem features_bounded (J d n : nat) (X Y : 'M[R]_(n, d))
  (T : 'M[R]_(J, d)) (w : R) :
  (forall Z, SmoothCFTest.construct_z X Y T w = Return Z ->
     forall i j, (Rabs (Z i j) <= 2)%Re) /\
  (forall Z, SmoothCFTest.construct_z_theano X Y T w = Return Z ->
     forall i j, (Rabs (Z i j) <= 2)%Re).
Proof.
have h Z : SmoothCFTest.construct_z_theano X Y T w = Return Z ->
           forall i j, (Rabs (Z i j) <= 2)%Re.
  rewrite /SmoothCFTest.construct_z_theano /mx_fdiv.
  case: ifP => //= _ [<-] i j; rewrite sub_mxE.
  rewrite -[j]splitK; case: (split j) => k /=.
    rewrite !smooth_features_l; apply: Rabs_diff_prod;
      by [exact: SIN_bound | exact: smooth_weight_range].
  rewrite !smooth_features_r; apply: Rabs_diff_prod;
    by [exact: COS_bound | exact: smooth_weight_range].
by split=> Z; rewrite ?construct_z_same_rows; exact: h.
Qed.

Lemma features_bounded_witness :
  SmoothCFTest.construct_z ex_X ex_Y (ex_T 1) 1 =
    Return (ex_Z (ex_a 1) (ex_u 1)) /\
  forall i j, (Rabs (ex_Z (ex_a 1) (ex_u 1) i j) <= 2)%Re.
Proof.
have e : SmoothCFTest.construct_z ex_X ex_Y (ex_T 1) 1 =
         Return (ex_Z (ex_a 1) (ex_u 1)).
  by rewrite construct_z_same_rows; exact: (ex_features (oner_neq0 _)).
split=> //.
by have [h _] := @features_bounded 1 1 3 ex_X ex_Y (ex_T 1) 1; exact: (h _ e).
Defined.

(** ** The outcomes of a constructed test *)

Lemma SmoothCFTest_init_width J d (T : option 'M[R]_(J, d)) (w a : R) scf :
  SmoothCFTest.init T w a = Return scf ->
  scf = SmoothCFTest.Make T w a /\ w != 0.
Proof.
rewrite /SmoothCFTest.init; case: RltbP => // w0 [<-]; split=> //.
by apply/eqP => e; rewrite e in w0; exact: (Rlt_irrefl _ w0).
Qed.

Lemma MeanEmbeddingTest_init_width J d (T : option 'M[R]_(J, d)) (w a : R)
  met :
  MeanEmbeddingTest.init T w a = Return met ->
  met = MeanEmbeddingTest.Make T w a /\ w != 0.
Proof.
rewrite /MeanEmbeddingTest.init; case: RltbP => // w0 [<-]; split=> //.
by apply/eqP => e; rewrite e in w0; exact: (Rlt_irrefl _ w0).
Qed.

Lemma stat_of_features_outcomes nx n m (Z : 'M[R]_(n.+2, m)) :
  (exists s, stat_of_features nx Z = Return s) \/
  stat_of_features nx Z = Raise LinAlgError.
Proof.
rewrite /stat_of_features /np_cov_T /np_mean0 /=.
case: ifP => _ /=; first by right.
by case: ifP => _; [left; eexists | right].
Qed.

(** A test that its constructor accepted, with frequencies or
    locations, on two samples of the same size with at least two rows:
    [compute_stat] either returns a statistic or raises [LinAlgError],
    for a singular covariance.  It raises no [ValueError] and divides by
    no zero, since the setter of [gaussian_width] admits a positive
    width only. *)
Theorem constructed_test_outcomes (J d n : nat) (T : 'M[R]_(J, d))
  (w a : R) (X Y : 'M[R]_(n.+2, d)) :
  (forall scf, SmoothCFTest.init (Some T) w a = Return scf ->
     (exists s, SmoothCFTest.compute_stat scf X Y = Return s) \/
     SmoothCFTest.compute_stat scf X Y = Raise LinAlgError) /\
  (forall met, MeanEmbeddingTest.init (Some T) w a = Return met ->
     (exists s, MeanEmbeddingTest.compute_stat met X Y = Return s) \/
     MeanEmbeddingTest.compute_stat met X Y = Raise LinAlgError).
Proof.
split.
- move=> scf /SmoothCFTest_init_width [-> w0].
  rewrite SmoothCFTest_compute_statE /SmoothCFTest.construct_z_theano.
  rewrite !mx_fdiv_neq0 //= ; exact: stat_of_features_outcomes.
- move=> met /MeanEmbeddingTest_init_width [-> w0].
  rewrite MeanEmbeddingTest_compute_stat_same_rows
          /MeanEmbeddingTest.construct_z_theano
          /MeanEmbeddingTest.asym_gauss_kernel_theano.
  rewrite !mx_fdiv_neq0 //=; exact: stat_of_features_outcomes.
Qed.

Lemma constructed_test_outcomes_witness :
  SmoothCFTest.init (Some (ex_T 1)) 1 (/ 100) =
    Return (SmoothCFTest.Make (Some (ex_T 1)) 1 (/ 100)) /\
  ((exists s, SmoothCFTest.compute_stat
                (SmoothCFTest.Make (Some (ex_T 1)) 1 (/ 100)) ex_X ex_Y =
              Return s) \/
   SmoothCFTest.compute_stat
     (SmoothCFTest.Make (Some (ex_T 1)) 1 (/ 100)) ex_X ex_Y =
   Raise LinAlgError).
Proof.
have e : SmoothCFTest.init (Some (ex_T 1)) 1 (/ 100) =
         Return (SmoothCFTest.Make (Some (ex_T 1)) 1 (/ 100)).
  by rewrite /SmoothCFTest.init; case: RltbP => // -[]; lra.
split=> //.
have [h _] := @constructed_test_outcomes 1 1 1 (ex_T 1) 1 (/ 100) ex_X ex_Y.
exact: (h _ e).
Defined.

(** ** The updates of the compiled function *)

Lemma sgn_min_clip (g : R) :
  sgn g * Rmin (Rabs g) 1 = Rmax (-1) (Rmin g 1).
Proof.
rewrite /sgn /Rmin /Rmax /Rabs.
by do ![case: RltbP | case: Rle_dec | case: Rcase_abs] => *;
   real_unfold; lra.
Qed.

Lemma clip_bound (g : R) : (Rabs (Rmax (-1) (Rmin g 1)) <= 1)%Re.
Proof.
rewrite /Rmin /Rmax /Rabs.
by do ![case: Rle_dec | case: Rcase_abs]; real_unfold; move=> *; lra.
Qed.

Lemma sqrt_INR_gt0 (it : nat) : sqrt (INR it) != 0 -> (0 < sqrt (INR it))%Re.
Proof.
move=> /eqP ne; have h := sqrt_pos (INR it).
by case: h => // e; case: ne.
Qed.

Lemma gamma_sq_step_Return (gs g : R) (it : nat) (dg : R) :
  gamma_sq_step gs g it = Return dg ->
  [/\ sqrt (INR it) != 0,
      dg = gs * Rmax (-1) (Rmin g 1) / sqrt (INR it) &
      (Rabs dg <= Rabs gs / sqrt (INR it))%Re].
Proof.
rewrite /gamma_sq_step /fdiv; case: ifP => // /negbT s0 [<-].
have sp := sqrt_INR_gt0 s0.
have e : (gs * sgn g * Rmin (Rabs g) 1)%Re = gs * Rmax (-1) (Rmin g 1).
  rewrite -sgn_min_clip mulrA; reflexivity.
rewrite e; split=> //.
have cb := clip_bound g.
move: (Rmax _ _) cb (sqrt _) sp => c cb q qp.
have qi : (0 < / q)%Re by apply: Rinv_0_lt_compat.
have -> : gs * c / q = (gs * c * / q)%Re by [].
rewrite !Rabs_mult (Rabs_pos_eq (/ q) (Rlt_le _ _ qi)).
rewrite /Rdiv; apply: Rmult_le_compat_r; first exact: Rlt_le.
have h0 := Rabs_pos gs; have h1 := Rabs_pos c.
by move: (Rabs gs) (Rabs c) h0 h1 cb => u v u0 v0 v1; nra.
Qed.

Lemma sum_sq_scale J d (c : R) (g : 'M[R]_(J, d)) :
  \sum_i \sum_j ((c *: g) i j) ^+ 2 = c ^+ 2 * \sum_i \sum_j (g i j) ^+ 2.
Proof.
rewrite mulr_sumr; apply: eq_bigr => i _.
rewrite mulr_sumr; apply: eq_bigr => j _.
by rewrite mxE exprMn.
Qed.

Lemma T_step_Return J d (ts : R) (g : 'M[R]_(J, d)) (it : nat)
  (dT : 'M[R]_(J, d)) :
  T_step ts g it = Return dT ->
  [/\ sqrt (INR it) != 0, g != 0 &
      sqrt (\sum_i \sum_j (dT i j) ^+ 2) = (Rabs ts / sqrt (INR it))%Re].
Proof.
rewrite /T_step /mx_fdiv; case: ifP => // /negbT s0 /=.
case: ifP => // /negbT N0 [<-].
have g0 : g != 0 by rewrite -norm_eq0.
split=> //.
have sp := sqrt_INR_gt0 s0.
have G0 : (0 <= \sum_i \sum_j (g i j) ^+ 2)%Re.
  by apply: sum_ge0 => i; exact: sum_sq_ge0.
rewrite !scalerA sum_sq_scale.
move: (\sum_i _) G0 N0 (sqrt (INR it)) sp => G G0 N0 q qp.
have Np : (0 < sqrt G)%Re.
  by have h := sqrt_pos G; case: h => // e; move/eqP: N0; case.
have NN : (sqrt G * sqrt G = G)%Re by apply: sqrt_sqrt.
have -> : ((sqrt G)^-1 / q * ts) ^+ 2 * G = Rsqr (ts / q).
  move: (sqrt G) Np NN => N Np <-.
  by rewrite /Rsqr; real_unfold; field; lra.
have qi : (0 < / q)%Re by apply: Rinv_0_lt_compat.
by rewrite sqrt_Rsqr_abs /Rdiv Rabs_mult (Rabs_pos_eq (/ q) (Rlt_le _ _ qi)).
Qed.

Lemma addrK_mx J d (A B : 'M[R]_(J, d)) : A + B - A = B.
Proof. by rewrite addrC addKr. Qed.

(** One call of the compiled function.  When it returns, the iteration
    counter has gone up by one, the value returned is the objective at
    the values the shared variables had, and the two updates are
    bounded: [T] has moved by exactly [|T_step_size| / it**0.5] in
    Euclidean norm, the internal width by [gwidth_step_size] times the
    gradient clipped to [[-1, 1]], over [it**0.5], so by at most
    [|gwidth_step_size| / it**0.5].  The function of
    [optimize_gaussian_width] moves the width in the same way and leaves
    [T] as it is. *)
Theorem compiled_function_updates (J d m nx nb : nat)
  (func_z : forall nb : nat, 'M[R]_(nb, d) -> 'M[R]_(nb, d) ->
            'M[R]_(J, d) -> R -> result 'M[R]_(nb, m))
  (gra_T : forall nb : nat, 'M[R]_(nb, d) -> 'M[R]_(nb, d) ->
           'M[R]_(J, d) -> R -> 'M[R]_(J, d))
  (gra_gamma_sq : forall nb : nat, 'M[R]_(nb, d) -> 'M[R]_(nb, d) ->
                  'M[R]_(J, d) -> R -> R)
  (T_step_size gwidth_step_size : R) (Xth Yth : 'M[R]_(nb, d))
  (sh : shared J d) :
  let g := gra_gamma_sq nb Xth Yth (sh_T sh) (sh_gamma_sq sh) in
  let q := sqrt (INR (sh_it sh)) in
  (forall s sh',
     func_T func_z nx gra_T gra_gamma_sq T_step_size gwidth_step_size
       Xth Yth sh = Return (s, sh') ->
     [/\ objective func_z nx Xth Yth (sh_T sh) (sh_gamma_sq sh) = Return s,
         sh_it sh' = (sh_it sh).+1,
         sqrt (\sum_i \sum_j ((sh_T sh' - sh_T sh) i j) ^+ 2) =
           (Rabs T_step_size / q)%Re,
         sh_gamma_sq sh' - sh_gamma_sq sh =
           gwidth_step_size * Rmax (-1) (Rmin g 1) / q &
         (Rabs (sh_gamma_sq sh' - sh_gamma_sq sh) <=
          Rabs gwidth_step_size / q)%Re]) /\
  (forall s sh',
     func_width func_z nx gra_gamma_sq gwidth_step_size Xth Yth sh =
     Return (s, sh') ->
     [/\ objective func_z nx Xth Yth (sh_T sh) (sh_gamma_sq sh) = Return s,
         sh_it sh' = (sh_it sh).+1,
         sh_T sh' = sh_T sh,
         sh_gamma_sq sh' - sh_gamma_sq sh =
           gwidth_step_size * Rmax (-1) (Rmin g 1) / q &
         (Rabs (sh_gamma_sq sh' - sh_gamma_sq sh) <=
          Rabs gwidth_step_size / q)%Re]).
Proof.
move=> g q; split=> s sh'.
- rewrite /func_T.
  case: (objective _ _ _ _ _ _) => [s1|e|] //=.
  case eT: (T_step _ _ _) => [dT|e|] //=.
  case eg: (gamma_sq_step _ _ _) => [dg|e|] //= [<- <-] /=.
  have [_ _ hT] := T_step_Return eT.
  have [_ hg1 hg2] := gamma_sq_step_Return eg.
  have ed : sh_gamma_sq sh + dg - sh_gamma_sq sh = dg by rewrite addrC addKr.
  have ed' : (sh_gamma_sq sh + dg - sh_gamma_sq sh)%Re = dg by exact: ed.
  by rewrite !addrK_mx ed ed'.
- rewrite /func_width.
  case: (objective _ _ _ _ _ _) => [s1|e|] //=.
  case eg: (gamma_sq_step _ _ _) => [dg|e|] //= [<- <-] /=.
  have [_ hg1 hg2] := gamma_sq_step_Return eg.
  have ed : sh_gamma_sq sh + dg - sh_gamma_sq sh = dg by rewrite addrC addKr.
  have ed' : (sh_gamma_sq sh + dg - sh_gamma_sq sh)%Re = dg by exact: ed.
  by rewrite ed ed'.
Qed.

Lemma compiled_function_updates_witness :
  exists s sh',
    func_T (@SmoothCFTest.construct_z_theano 1 1) 3 ex_gra_T ex_gra_gamma_sq
      1 1 ex_X ex_Y (Shared (ex_T (1 ^+ 2)) 1 1) = Return (s, sh') /\
    sh_it sh' = 2%N /\
    sqrt (\sum_i \sum_j ((sh_T sh' - ex_T (1 ^+ 2)) i j) ^+ 2) =
      (Rabs 1 / sqrt (INR 1))%Re.
Proof.
have e := @ex_func_TE 1 1 1 1%N (oner_neq0 _) (ltn0Sn 0).
rewrite /ex_func_T in e.
have [h _] :=
  @compiled_function_updates 1 1 (1 + 1) 3 3
    (@SmoothCFTest.construct_z_theano 1 1) ex_gra_T ex_gra_gamma_sq 1 1
    ex_X ex_Y (Shared (ex_T (1 ^+ 2)) 1 1).
have [_ h2 h3 _ _] := h _ _ e.
by do 2!eexists; split; [exact: e | split].
Defined.

(** ** The traces of the optimisers *)

Lemma size_py_slice_to (A : Type) (s : seq A) (k : nat) :
  (k <= size s)%N -> size (py_slice_to s (Z.of_nat k)) = k.
Proof.
move=> le; rewrite /py_slice_to.
have -> : (0 <=? Z.of_nat k)%Z = true by apply/Z.leb_le; lia.
by rewrite Nat2Z.id size_take_min; apply/minn_idPl.
Qed.

Lemma py_last_nth (s : seq R) (x : R) :
  py_last s = Return x -> (0 < size s)%N /\ x = nth 0 s (size s).-1.
Proof. by case: s => // y s [<-]; rewrite nth_last. Qed.

Lemma py_last_nth_mx J d (s : seq 'M[R]_(J, d)) (x : 'M[R]_(J, d)) :
  py_last s = Return x -> (0 < size s)%N /\ x = nth 0 s (size s).-1.
Proof. by case: s => // y s [<-]; rewrite nth_last. Qed.

Section Traces.

Variable rnd : numpy_random.
Variables (J d nx : nat) (X Y : 'M[R]_(nx, d)).
Variable func :
  forall nb : nat, 'M[R]_(nb, d) -> 'M[R]_(nb, d) -> shared J d ->
  result (R * shared J d).
Variables (max_iter : nat) (batch_proportion : float64) (tol_fun : R).
Variable g : rng_state rnd.

Notation ascent := (ascent rnd J d).
Local Notation after_draws := (after_draws nx batch_proportion).

Lemma after_draws_eq k (g0 : rng_state rnd) :
  after_draws k.+1 g0 =
  (draw <- draw_batch nx batch_proportion g0 ;;
   after_draws k draw.2).
Proof. by []. Qed.

Lemma after_drawsS k (g0 g1 g2 : rng_state rnd) ind :
  after_draws k g0 = Return g1 ->
  draw_batch nx batch_proportion g1 = Return (ind, g2) ->
  after_draws k.+1 g0 = Return g2.
Proof.
elim: k g0 => [|k IH] g0; first by case=> -> /= ->.
rewrite (after_draws_eq k) (after_draws_eq k.+1).
case e: (draw_batch _ _ g0) => [[i g']|e'|] //=.
exact: IH.
Qed.

(** A property [P t] of the loop variables after [t] passes. *)
Lemma for_range_iota (P : nat -> ascent -> Prop)
  (body : nat -> ascent -> result (bool * ascent)) :
  forall k m a a',
  (forall t a r, (m <= t < m + k)%N -> P t a -> body t a = Return r ->
                 P t.+1 r.2) ->
  P m a -> for_range body (iota m k) a = Return a' ->
  exists2 t, (m <= t <= m + k)%N & P t a' /\ ((0 < k)%N -> (m < t)%N).
Proof.
elim=> [|k IH] m a a' hb Pa /=.
  by case=> <-; exists m; rewrite ?addn0 ?leqnn.
case e: (body m a) => [r|e'|] //=.
have Pr : P m.+1 r.2.
  by apply: (hb m a r) => //; rewrite leqnn addnS ltnS leq_addr.
case: ifP => _.
  case=> <-; exists m.+1; last by split.
  by rewrite leqnSn addnS ltnS leq_addr.
move=> h; have [|t /andP [t1 t2] [Pt _]] := IH m.+1 r.2 a' _ Pr h.
  move=> t b r' /andP [t1 t2]; apply: hb.
  by rewrite (ltnW t1) /= addnS -addSn.
exists t; last by split.
by rewrite (ltnW t1) addnS -addSn.
Qed.

(** After [t] passes of the loop of [optimize_T_gaussian_width]. *)
Definition passes_T (t : nat) (a : ascent) : Prop :=
  [/\ size (a_S a) = max_iter, size (a_Ts a) = max_iter,
      size (a_gams a) = max_iter,
      after_draws t g = Return (a_rng a) &
      match t, a_t a with
      | 0%N, None => True
      | t'.+1, Some z => z = Z.of_nat t' \/ z = (Z.of_nat t' - 1)%Z
      | _, _ => False
      end].

(** After [t] passes of the loop of [optimize_gaussian_width]. *)
Definition passes_width (t : nat) (a : ascent) : Prop :=
  [/\ size (a_S a) = max_iter, size (a_gams a) = max_iter,
      after_draws t g = Return (a_rng a) &
      a_t a = if t is t'.+1 then Some (Z.of_nat t') else None].

Lemma size_set_nth_lt (A : Type) (x0 : A) (s : seq A) (t : nat) (x : A) :
  (t < size s)%N -> size (set_nth x0 s t x) = size s.
Proof. by move=> lt; rewrite size_set_nth; apply/maxn_idPr. Qed.

Lemma body_T_passes t (a : ascent) r :
  (t < max_iter)%N -> passes_T t a ->
  body_T X Y func batch_proportion tol_fun t a = Return r ->
  passes_T t.+1 r.2.
Proof.
move=> lt [h1 h2 h3 h4 _]; rewrite /body_T.
case e: (draw_batch _ _ _) => [[ind g']|e'|] //=.
have hd := after_drawsS h4 e.
case: (func _ _ _) => [[s sh]|e'|] //= [<-] /=.
  by split; rewrite /= ?size_set_nth_lt ?h1 ?h2 ?h3 //; left.
by split=> //=; right.
Qed.

Lemma body_width_passes t (a : ascent) r :
  (t < max_iter)%N -> passes_width t a ->
  body_width X Y func batch_proportion tol_fun t a = Return r ->
  passes_width t.+1 r.2.
Proof.
move=> lt [h1 h3 h4 _]; rewrite /body_width.
case e: (draw_batch _ _ _) => [[ind g']|e'|] //=.
have hd := after_drawsS h4 e.
case: (func _ _ _) => [[s sh]|e'|] //= [<-] /=.
by split; rewrite /= ?size_set_nth_lt ?h1 ?h3.
Qed.

Lemma ascent_init_passes_T (T0 : 'M[R]_(J, d)) (gam0 : R) :
  passes_T 0 (ascent_init max_iter g T0 gam0).
Proof. by split; rewrite /= ?size_nseq. Qed.

Lemma ascent_init_passes_width (T0 : 'M[R]_(J, d)) (gam0 : R) :
  passes_width 0 (ascent_init max_iter g T0 gam0).
Proof. by split; rewrite /= ?size_nseq. Qed.

Lemma ascent_T_traces (T0 : 'M[R]_(J, d)) (gam0 : R) T gam info st :
  ascent_T X Y func max_iter batch_proportion tol_fun g T0 gam0 =
  Return (T, gam, info, st) ->
  exists k,
    [/\ (0 < k <= max_iter)%N,
        [/\ size (info_obj_values info) = k, size (info_Ts info) = k &
            size (info_gwidths info) = k],
        T = nth 0 (info_Ts info) k.-1 /\ gam = nth 0 (info_gwidths info) k.-1,
        info_T0 info = T0 &
        after_draws k g = Return st \/ after_draws k.+1 g = Return st].
Proof.
rewrite /ascent_T.
case e: (for_range _ _ _) => [a|e'|] //=.
have [||t /andP [_ tmax] [[h1 h2 h3 h4 h5] _]] :=
  for_range_iota (P := passes_T) _ _ e.
- by move=> t a1 r /andP [_ lt]; exact: body_T_passes.
- exact: ascent_init_passes_T.
rewrite add0n in tmax.
case: t tmax h4 h5 => [|t] tmax h4; case: (a_t a) => [z|] // hz.
have [k [zk kt dk]] : exists k, [/\ (z + 1)%Z = Z.of_nat k, (k <= t.+1)%N &
    after_draws k g = Return (a_rng a) \/
    after_draws k.+1 g = Return (a_rng a)].
  case: hz => ->.
    by exists t.+1; split=> //; [lia | left].
  by exists t; split=> //; [lia | right].
have kmax : (k <= max_iter)%N by exact: leq_trans kt tmax.
rewrite zk.
case eT: (py_last _) => [T'|e'|] //=.
case eg: (py_last _) => [gam'|e'|] //= [<- <- <- <-] /=.
have [sT ->] := py_last_nth_mx eT; have [sg ->] := py_last_nth eg.
rewrite !size_py_slice_to ?h1 ?h2 ?h3 // in sT sg *.
by exists k; split=> //; rewrite sT.
Qed.

Lemma ascent_width_traces (T0 : 'M[R]_(J, d)) (gam0 : R) gam info st :
  ascent_width X Y func max_iter batch_proportion tol_fun g T0 gam0 =
  Return (gam, info, st) ->
  exists k,
    [/\ (0 < k < max_iter)%N,
        size (infow_obj_values info) = k /\ size (infow_gwidths info) = k,
        gam = nth 0 (infow_gwidths info) k.-1,
        infow_T info = T0 &
        after_draws k.+1 g = Return st].
Proof.
rewrite /ascent_width.
case e: (for_range _ _ _) => [a|e'|] //=.
have [||t /andP [_ tmax] [[h1 h3 h4 h5] _]] :=
  for_range_iota (P := passes_width) _ _ e.
- by move=> t a1 r /andP [_ lt]; exact: body_width_passes.
- exact: ascent_init_passes_width.
rewrite add0n in tmax.
case: t tmax h4 h5 => [|t] tmax h4 -> //.
have kmax : (t <= max_iter)%N by exact: ltnW.
case eg: (py_last _) => [gam'|e'|] //= [<- <- <-] /=.
have [sg ->] := py_last_nth eg.
rewrite !size_py_slice_to ?h1 ?h3 // in sg *.
by exists t; split=> //; rewrite sg.
Qed.

End Traces.

(** The traces of [optimize_T_gaussian_width].  With [max_iter = 0] the
    loop never binds [t] and the slices after it raise
    [UnboundLocalError].  Whenever the call returns, the three traces
    [Ts], [gwidths] and [obj_values] have one common length [k] with
    [1 <= k <= max_iter], the [T] and the width returned are their last
    entries, [T0] is the initial value, and the generator has made [k]
    mini-batch draws, or [k + 1] when the last pass raised. *)
Theorem joint_optimiser_traces (rnd : numpy_random)
  (mean_std : forall n d : nat, 'M[R]_(n, d) -> 'M[R]_(n, d) -> R)
  (J d m nx : nat)
  (func_z : forall nb : nat, 'M[R]_(nb, d) -> 'M[R]_(nb, d) ->
            'M[R]_(J, d) -> R -> result 'M[R]_(nb, m))
  (gra_T : forall nb : nat, 'M[R]_(nb, d) -> 'M[R]_(nb, d) ->
           'M[R]_(J, d) -> R -> 'M[R]_(J, d))
  (gra_gamma_sq : forall nb : nat, 'M[R]_(nb, d) -> 'M[R]_(nb, d) ->
                  'M[R]_(J, d) -> R -> R)
  (g : rng_state rnd) (X Y : 'M[R]_(nx, d)) (T0 : 'M[R]_(J, d))
  (max_iter : nat)
  (T_step_size gwidth_step_size : R) (batch_proportion : float64)
  (tol_fun : R) :
  optimize_T_gaussian_width mean_std func_z gra_T gra_gamma_sq g X Y T0 0
    T_step_size gwidth_step_size batch_proportion tol_fun =
  Raise UnboundLocalError /\
  (forall T gam info st,
     optimize_T_gaussian_width mean_std func_z gra_T gra_gamma_sq g X Y T0
       max_iter T_step_size gwidth_step_size batch_proportion tol_fun =
     Return (T, gam, info, st) ->
     exists k,
       [/\ (0 < k <= max_iter)%N,
           [/\ size (info_obj_values info) = k, size (info_Ts info) = k &
               size (info_gwidths info) = k],
           T = nth 0 (info_Ts info) k.-1 /\
           gam = nth 0 (info_gwidths info) k.-1,
           info_T0 info = T0 &
           after_draws nx batch_proportion k g = Return st \/
           after_draws nx batch_proportion k.+1 g = Return st]).
Proof.
split=> // T gam info st.
exact: ascent_T_traces.
Qed.

Lemma joint_optimiser_traces_witness :
  exists T gam info st,
    optimize_T_gaussian_width (rnd := counting_rng 0) avg_std
      (@SmoothCFTest.construct_z_theano 1 1) ex_gra_T ex_gra_gamma_sq
      0%N ex_X ex_Y (ex_T (ex_g0 ^+ 2)) 5 0 0 float_one (/ 1000) =
    Return (T, gam, info, st) /\
    exists k,
      [/\ (0 < k <= 5)%N, size (info_obj_values info) = k,
          size (info_Ts info) = k & size (info_gwidths info) = k].
Proof.
have tol0 : (0 <= / 1000)%Re by lra.
have run := @ex_run_T_still 0 avg_std 0%N 2 (/ 1000) tol0.
do 4!eexists; split; first exact: run.
have [_ h] :=
  @joint_optimiser_traces (counting_rng 0) avg_std 1 1 (1 + 1) 3
    (@SmoothCFTest.construct_z_theano 1 1) ex_gra_T ex_gra_gamma_sq
    0%N ex_X ex_Y (ex_T (ex_g0 ^+ 2)) 5 0 0 float_one (/ 1000).
have [k [h1 [h2 h3 h4] _ _ _]] := h _ _ _ _ run.
by exists k; split.
Defined.

(** The traces of [optimize_gaussian_width].  With [max_iter = 0] the
    call raises [UnboundLocalError].  Whenever it returns, the traces
    [gwidths] and [obj_values] have one common length [k] with
    [1 <= k < max_iter], the width returned is the last entry of
    [gwidths], [info['T']] is the [T] given, and the generator has made
    [k + 1] mini-batch draws: the values of the last pass are not in
    the traces.  So the call returns nothing for [max_iter <= 1]. *)
Theorem width_optimiser_traces (rnd : numpy_random)
  (mean_std : forall n d : nat, 'M[R]_(n, d) -> 'M[R]_(n, d) -> R)
  (J d m nx : nat)
  (func_z : forall nb : nat, 'M[R]_(nb, d) -> 'M[R]_(nb, d) ->
            'M[R]_(J, d) -> R -> result 'M[R]_(nb, m))
  (gra_gamma_sq : forall nb : nat, 'M[R]_(nb, d) -> 'M[R]_(nb, d) ->
                  'M[R]_(J, d) -> R -> R)
  (g : rng_state rnd) (X Y : 'M[R]_(nx, d)) (T : 'M[R]_(J, d))
  (max_iter : nat) (gwidth_step_size : R) (batch_proportion : float64)
  (tol_fun : R) :
  [/\ optimize_gaussian_width mean_std func_z gra_gamma_sq g X Y T 0
        gwidth_step_size batch_proportion tol_fun = Raise UnboundLocalError,
      forall gam info st,
        optimize_gaussian_width mean_std func_z gra_gamma_sq g X Y T
          max_iter gwidth_step_size batch_proportion tol_fun =
        Return (gam, info, st) ->
        exists k,
          [/\ (0 < k < max_iter)%N,
              size (infow_obj_values info) = k /\
              size (infow_gwidths info) = k,
              gam = nth 0 (infow_gwidths info) k.-1,
              infow_T info = T &
              after_draws nx batch_proportion k.+1 g = Return st]
    & (max_iter <= 1)%N ->
      forall r,
        optimize_gaussian_width mean_std func_z gra_gamma_sq g X Y T
          max_iter gwidth_step_size batch_proportion tol_fun <> Return r].
Proof.
split=> //.
- by move=> gam info st; exact: ascent_width_traces.
- move=> le [[gam info] st] /ascent_width_traces [k [/andP [k0 k1] _ _ _ _]].
  by have := leq_trans k1 le; case: k k0 {k1}.
Qed.

Lemma width_optimiser_traces_witness :
  exists gam info st,
    optimize_gaussian_width (rnd := counting_rng 0) avg_std
      (@SmoothCFTest.construct_z_theano 1 1) ex_gra_gamma_sq
      0%N ex_X ex_Y (ex_T (ex_g0 ^+ 2)) 5 0 float_one (/ 1000) =
    Return (gam, info, st) /\
    exists k,
      [/\ (0 < k < 5)%N, size (infow_obj_values info) = k &
          size (infow_gwidths info) = k].
Proof.
have tol0 : (0 <= / 1000)%Re by lra.
have run := @ex_run_width_still 0 avg_std ex_gra_gamma_sq 0%N 2 (/ 1000) tol0.
do 3!eexists; split; first exact: run.
have [_ h _] :=
  @width_optimiser_traces (counting_rng 0) avg_std 1 1 (1 + 1) 3
    (@SmoothCFTest.construct_z_theano 1 1) ex_gra_gamma_sq
    0%N ex_X ex_Y (ex_T (ex_g0 ^+ 2)) 5 0 float_one (/ 1000).
have [k [h1 [h2 h3] _ _ _]] := h _ _ _ run.
by exists k; split.
Defined.

(** ** A fault after the first pass *)

(** A fault in the second pass.  When the first pass completes and the
    compiled function raises in the second one, the loop of
    [optimize_T_gaussian_width] stops and the call returns the [T] and
    the width of the first pass, with traces of length 1; the loop of
    [optimize_gaussian_width], on the same events, lets the exception
    through. *)
Theorem fault_in_second_pass (rnd : numpy_random) (J d nx : nat)
  (X Y : 'M[R]_(nx, d))
  (func : forall nb : nat, 'M[R]_(nb, d) -> 'M[R]_(nb, d) -> shared J d ->
          result (R * shared J d))
  (max_iter : nat) (batch_proportion : float64) (tol_fun : R)
  (g g1 g2 : rng_state rnd) (ind0 ind1 : seq nat)
  (T0 : 'M[R]_(J, d)) (gam0 s0 : R) (sh1 : shared J d) (e : exn) :
  draw_batch nx batch_proportion g = Return (ind0, g1) ->
  func _ (take_rows X ind0) (take_rows Y ind0) (Shared T0 1 gam0) =
    Return (s0, sh1) ->
  draw_batch nx batch_proportion g1 = Return (ind1, g2) ->
  func _ (take_rows X ind1) (take_rows Y ind1) sh1 = Raise e ->
  ascent_T X Y func max_iter.+2 batch_proportion tol_fun g T0 gam0 =
    Return (sh_T sh1, sh_gamma_sq sh1 ^+ 2,
            InfoT [:: sh_T sh1] T0 [:: sh_gamma_sq sh1 ^+ 2] [:: s0], g2) /\
  ascent_width X Y func max_iter.+2 batch_proportion tol_fun g T0 gam0 =
    Raise e.
Proof.
move=> c0 f0 c1 f1; split.
- rewrite /ascent_T for_range_cons.
  set a0 := ascent_init _ _ _ _.
  have c0' : draw_batch nx batch_proportion (a_rng a0) =
             Return (ind0, g1) by [].
  have f0' : func _ (take_rows X ind0) (take_rows Y ind0) (a_sh a0) =
             Return (s0, sh1) by [].
  rewrite (body_T_Return _ _ c0' f0') bind_Return [_.1]/= [_.2]/=.
  rewrite converged_early // for_range_cons.
  set a1 := Ascent _ _ _ _ _ _.
  have c1' : draw_batch nx batch_proportion (a_rng a1) =
             Return (ind1, g2) by [].
  have f1' : func _ (take_rows X ind1) (take_rows Y ind1) (a_sh a1) =
             Raise e by [].
  rewrite (body_T_Raise _ _ c1' f1') bind_Return /=.
  by rewrite /py_slice_to /=.
- rewrite /ascent_width for_range_cons.
  set a0 := ascent_init _ _ _ _.
  have c0' : draw_batch nx batch_proportion (a_rng a0) =
             Return (ind0, g1) by [].
  have f0' : func _ (take_rows X ind0) (take_rows Y ind0) (a_sh a0) =
             Return (s0, sh1) by [].
  rewrite (body_width_Return _ _ c0' f0') bind_Return [_.1]/= [_.2]/=.
  rewrite converged_early // for_range_cons.
  set a1 := Ascent _ _ _ _ _ _.
  have c1' : draw_batch nx batch_proportion (a_rng a1) =
             Return (ind1, g2) by [].
  have f1' : func _ (take_rows X ind1) (take_rows Y ind1) (a_sh a1) =
             Raise e by [].
  by rewrite (body_width_Raise _ _ c1' f1').
Qed.

Lemma fault_in_second_pass_witness :
  ascent_T (rnd := counting_rng 0) ex_X ex_Y faulty_func 400 float_one (/ 1000)
    0%N (ex_T 1) 1 =
  Return (ex_T 1, 1 ^+ 2, InfoT [:: ex_T 1] (ex_T 1) [:: 1 ^+ 2] [:: 1], 2%N) /\
  ascent_width (rnd := counting_rng 0) ex_X ex_Y faulty_func 400 float_one (/ 1000)
    0%N (ex_T 1) 1 = Raise LinAlgError.
Proof.
apply: (@fault_in_second_pass (counting_rng 0) 1 1 3 ex_X ex_Y faulty_func
          398 float_one (/ 1000) 0%N 1%N 2%N (iota 0 3) (iota 0 3) (ex_T 1) 1 1
          (Shared (ex_T 1) 2 1) LinAlgError).
- by rewrite /draw_batch batch_size_full // bind_Return counting_choice_full.
- by [].
- by rewrite /draw_batch batch_size_full // bind_Return counting_choice_full.
- by [].
Defined.

(** ** C8: the recorded bandwidth *)

Lemma sqrt_INR1 : sqrt (INR 1) = 1.
Proof. by rewrite /INR; exact: sqrt_1. Qed.

(** A gradient of [-1] or less is clipped to [-1]: in the first call
    the internal variable moves by [- gwidth_step_size]. *)
Lemma gamma_sq_step_clipped (gs g : R) :
  (g <= -1)%Re -> gamma_sq_step gs g 1 = Return (- gs).
Proof.
move=> g1; rewrite gamma_sq_stepE // sqrt_INR1 divr1; congr Return.
have -> : sgn g = -1.
  rewrite /sgn; case: RltbP => [h|_]; first by lra.
  by case: RltbP => // -[]; lra.
have -> : Rmin (Rabs g) 1 = 1.
  have -> : Rabs g = (- g)%Re by apply: Rabs_left; lra.
  by apply: Rmin_right; lra.
by rewrite mulr1 mulrN1.
Qed.

Section Squares.

Variable rnd : numpy_random.
Variables (J d nx : nat) (X Y : 'M[R]_(nx, d)).
Variable func :
  forall nb : nat, 'M[R]_(nb, d) -> 'M[R]_(nb, d) -> shared J d ->
  result (R * shared J d).
Variables (max_iter : nat) (batch_proportion : float64) (tol_fun : R).
Variable g : rng_state rnd.

Notation ascent := (ascent rnd J d).

(** When [t] is the number of a pass, [gams[t]] is the square of the
    internal variable. *)
Definition last_recorded (a : ascent) : Prop :=
  forall z, a_t a = Some z -> (0 <= z)%Z ->
  nth 0 (a_gams a) (Z.to_nat z) = sh_gamma_sq (a_sh a) ^+ 2.

(** The loop variables at the start of pass [t]. *)
Definition before_pass (t : nat) (a : ascent) : Prop :=
  a_t a = (if t is t'.+1 then Some (Z.of_nat t') else None) /\
  last_recorded a.

Lemma body_T_recorded t (a : ascent) b a' :
  body_T X Y func batch_proportion tol_fun t a = Return (b, a') ->
  a_t a' = Some (Z.of_nat t) ->
  nth 0 (a_gams a') t = sh_gamma_sq (a_sh a') ^+ 2.
Proof.
rewrite /body_T.
case: (draw_batch _ _ _) => [[ind g']|e|] //=.
case: (func _ _ _) => [[s sh]|e|] //= [_ <-] /=.
  by rewrite nth_set_nth /= eqxx.
by case=> h; lia.
Qed.

Lemma body_width_recorded t (a : ascent) b a' :
  body_width X Y func batch_proportion tol_fun t a = Return (b, a') ->
  nth 0 (a_gams a') t = sh_gamma_sq (a_sh a') ^+ 2.
Proof.
rewrite /body_width.
case: (draw_batch _ _ _) => [[ind g']|e|] //=.
case: (func _ _ _) => [[s sh]|e|] //= [_ <-] /=.
by rewrite nth_set_nth /= eqxx.
Qed.

Lemma for_range_final (I : nat -> ascent -> Prop) (F : ascent -> Prop)
  (body : nat -> ascent -> result (bool * ascent)) :
  (forall t a r, I t a -> body t a = Return r ->
                 F r.2 /\ (r.1 = false -> I t.+1 r.2)) ->
  forall k m a a', I m a -> F a ->
  for_range body (iota m k) a = Return a' -> F a'.
Proof.
move=> hb; elim=> [|k IH] m a a' Ia Fa /=; first by case=> <-.
case e: (body m a) => [r|e'|] //=.
have [Fr Ir] := hb _ _ _ Ia e.
case: ifP => [_ [<-] //|r1].
by apply: IH; [exact: Ir | exact: Fr].
Qed.

Lemma body_T_square t (a : ascent) r :
  before_pass t a ->
  body_T X Y func batch_proportion tol_fun t a = Return r ->
  last_recorded r.2 /\ (r.1 = false -> before_pass t.+1 r.2).
Proof.
move=> [ht hl]; rewrite /body_T.
case: (draw_batch _ _ _) => [[ind g']|e|] //=.
case: (func _ _ _) => [[s sh]|e|] //= [<-] /=.
  have rec : last_recorded
      (Ascent g' sh (set_nth 0 (a_S a) t s) (set_nth 0 (a_Ts a) t (sh_T sh))
         (set_nth 0 (a_gams a) t (sh_gamma_sq sh ^+ 2)) (Some (Z.of_nat t))).
    by move=> z /= [<-] _; rewrite Nat2Z.id nth_set_nth /= eqxx.
  by split.
split=> // z /= [<-] z0.
case: t ht z0 => [|t] ht z0; first by lia.
have -> : (Z.of_nat t.+1 - 1)%Z = Z.of_nat t by lia.
by apply: hl => //; lia.
Qed.

Lemma ascent_init_before (T0 : 'M[R]_(J, d)) (gam0 : R) :
  before_pass 0 (ascent_init max_iter g T0 gam0).
Proof. by split. Qed.

(** The width that [optimize_T_gaussian_width] returns is the square of
    the internal variable as the loop left it. *)
Lemma ascent_T_square (T0 : 'M[R]_(J, d)) (gam0 : R) T gam info st :
  ascent_T X Y func max_iter batch_proportion tol_fun g T0 gam0 =
  Return (T, gam, info, st) ->
  exists2 a,
    for_range (body_T X Y func batch_proportion tol_fun) (iota 0 max_iter)
      (ascent_init max_iter g T0 gam0) = Return a &
    gam = sh_gamma_sq (a_sh a) ^+ 2.
Proof.
rewrite /ascent_T.
case e: (for_range _ _ _) => [a|e'|] //= run; exists a => //.
have rec : last_recorded a.
  apply: (for_range_final (I := before_pass) _ _ _ e).
  - by move=> t a1 r; exact: body_T_square.
  - exact: ascent_init_before.
  - by case: (ascent_init_before T0 gam0).
have [||t /andP [_ tmax] [[h1 h2 h3 h4 h5] _]] :=
  for_range_iota (P := passes_T nx max_iter batch_proportion g) _ _ e.
- by move=> t a1 r /andP [_ lt]; exact: body_T_passes.
- exact: ascent_init_passes_T.
rewrite add0n in tmax.
move: run rec; rewrite /last_recorded.
case: t tmax h4 h5 => [|t] tmax h4; case: (a_t a) => [z|] // hz.
have [k [zk kt]] : exists k, (z + 1)%Z = Z.of_nat k /\ (k <= t.+1)%N.
  case: hz => ->; first by exists t.+1; split=> //; lia.
  by exists t; split=> //; lia.
have kmax : (k <= max_iter)%N by exact: leq_trans kt tmax.
rewrite zk.
case eT: (py_last _) => [T'|e'|] //=.
case eg: (py_last _) => [gam'|e'|] //= [_ <- _ _] rec.
have [sg ->] := py_last_nth eg.
rewrite !size_py_slice_to ?h3 // in sg *.
have z0 : (0 <= z)%Z by move/ltP: sg; lia.
rewrite -(rec z (erefl _) z0).
have -> : Z.to_nat z = k.-1 by lia.
rewrite /py_slice_to.
have -> : (0 <=? Z.of_nat k)%Z = true by apply/Z.leb_le; lia.
by rewrite Nat2Z.id nth_take // prednK.
Qed.

End Squares.

(** One pass of [optimize_T_gaussian_width] in which the gradient in
    the internal variable is [-1] or less and [gwidth_step_size] is the
    start value of that variable: the variable is zero after the pass,
    and so is the width recorded and returned. *)
Lemma one_pass_to_zero (rnd : numpy_random)
  (mean_std : forall n d : nat, 'M[R]_(n, d) -> 'M[R]_(n, d) -> R)
  (J d m nx : nat)
  (func_z : forall nb : nat, 'M[R]_(nb, d) -> 'M[R]_(nb, d) ->
            'M[R]_(J, d) -> R -> result 'M[R]_(nb, m))
  (gra_T : forall nb : nat, 'M[R]_(nb, d) -> 'M[R]_(nb, d) ->
           'M[R]_(J, d) -> R -> 'M[R]_(J, d))
  (gra_gamma_sq : forall nb : nat, 'M[R]_(nb, d) -> 'M[R]_(nb, d) ->
                  'M[R]_(J, d) -> R -> R)
  (g g' : rng_state rnd) (X Y : 'M[R]_(nx, d)) (T0 : 'M[R]_(J, d))
  (T_step_size : R) (batch_proportion : float64) (tol_fun : R)
  (ind : seq nat) (s : R) (dT : 'M[R]_(J, d)) :
  let g0 := gamma_sq_init mean_std X Y in
  let Xb := take_rows X ind in
  let Yb := take_rows Y ind in
  draw_batch nx batch_proportion g = Return (ind, g') ->
  objective func_z nx Xb Yb T0 g0 = Return s ->
  T_step T_step_size (gra_T _ Xb Yb T0 g0) 1 = Return dT ->
  (gra_gamma_sq _ Xb Yb T0 g0 <= -1)%Re ->
  optimize_T_gaussian_width mean_std func_z gra_T gra_gamma_sq
    g X Y T0 1 T_step_size g0 batch_proportion tol_fun =
  Return (T0 + dT, 0, InfoT [:: T0 + dT] T0 [:: 0] [:: s], g').
Proof.
move=> g0 Xb Yb hc ho hT hg.
rewrite /optimize_T_gaussian_width /ascent_T for_range_cons -/g0.
set a0 := ascent_init _ _ _ _.
set func := func_T _ _ _ _ _ _.
have hc' : draw_batch nx batch_proportion (a_rng a0) = Return (ind, g').
  by [].
have hf : func _ (take_rows X ind) (take_rows Y ind) (a_sh a0) =
          Return (s, Shared (T0 + dT) 2 (g0 - g0)).
  rewrite /func /func_T /= -/Xb -/Yb ho bind_Return hT bind_Return.
  by rewrite (gamma_sq_step_clipped _ hg) bind_Return.
rewrite (body_T_Return _ _ hc' hf) bind_Return /=.
rewrite /py_slice_to /=.
have -> : (g0 - g0)%Re ^+ 2 = 0 by rewrite Rminus_diag expr0n.
by [].
Qed.

(** *** The example *)

Lemma ord2_cases (P : 'I_2 -> Prop) :
  P ord0 -> P (lift ord0 ord0) -> forall i, P i.
Proof.
move=> P0 P1 [[|[|i]] hi] //.
- by rewrite (_ : Ordinal hi = ord0) //; apply: val_inj.
- by rewrite (_ : Ordinal hi = lift ord0 ord0) //; apply: val_inj.
Qed.

Lemma take_rows_iota2 d (X : 'M[R]_(2, d)) : take_rows X (iota 0 2) = X.
Proof.
apply/matrixP => i j; rewrite mxE.
have -> : nth 0%N (iota 0 2) i = i by elim/ord2_cases: i.
exact: mx_nth_ord.
Qed.

(** On the two samples the objective of [shift_z] is
    [8 (T - gamma_sq^2)^2]. *)
Lemma sq_objective (T : 'M[R]_(1, 1)) (g : R) :
  objective shift_z 2 sq_X sq_Y T g = Return (8%:R * (T 0 0 - g ^+ 2) ^+ 2).
Proof.
rewrite objectiveE /shift_z bind_Return /objective_of_features /=.
set c := T 0 0 - g ^+ 2.
set Z := sq_X + _ - _.
have eZ i j : Z i j = sq_X i j + c.
  by rewrite /Z !mxE big_ord1 !mxE mul1r mulr1 /c (ord1 j) addrA.
clearbody Z.
have eW : (\col_j ((\sum_i Z i j) / 2%:R) : 'cV[R]_1) = const_mx c.
  apply/matrixP => j k; rewrite !mxE sum_ord2' !eZ !mxE /=.
  by real_unfold; lra.
rewrite eW.
have eS : (2%:R)^-1 *: ((sub_row Z (const_mx c))^T *m sub_row Z (const_mx c)) =
          ((4%:R)^-1 : R)%:M.
  apply/matrixP => i j; rewrite !mxE sum_ord2' !mxE !eZ !mxE /=.
  rewrite (ord1 i) (ord1 j) /= mulr1n.
  by real_unfold; field.
rewrite eS /matrix_inverse.
have u : ((4%:R)^-1 : R)%:M \in (unitmx : pred 'M[R]_1).
  by rewrite unitmxE det_scalar1 unitfE invr_eq0 (natR_neq0 (n := 4)).
rewrite u bind_Return invmx_scalar invrK /dot big_ord1 !mxE big_ord1 !mxE.
rewrite mulr1n; congr Return.
by real_unfold; ring.
Qed.

(** The two oracles of the example are the derivatives of that
    objective, in the internal variable and in [T]. *)
Lemma sq_gra_gamma_sqE nb (A B : 'M[R]_(nb, 1)) (T : 'M[R]_(1, 1)) (g : R) :
  derivable_pt_lim
    (fun u => value_of (objective shift_z 2 sq_X sq_Y T u)) g
    (sq_gra_gamma_sq A B T g).
Proof.
set c := T 0 0.
pose f (u : R) : R := (8 * (c - u ^ 2) ^ 2)%Re.
have ef u : f u = value_of (objective shift_z 2 sq_X sq_Y T u).
  by rewrite sq_objective /value_of /f -/c; real_unfold; ring.
apply: (derivable_pt_lim_ext f) => //.
pose h1 := (fct_cte c - (fun y : R => (y ^ 2)%Re))%F.
have d1 : derivable_pt_lim h1 g (0 - INR 2 * g ^ 1)%Re.
  apply: derivable_pt_lim_minus; first exact: derivable_pt_lim_const.
  exact: (derivable_pt_lim_pow g 2).
have d2 : derivable_pt_lim (comp (fun y : R => (y ^ 2)%Re) h1) g
            (INR 2 * h1 g ^ 1 * (0 - INR 2 * g ^ 1))%Re.
  apply: derivable_pt_lim_comp => //.
  exact: (derivable_pt_lim_pow (h1 g) 2).
have d3 := derivable_pt_lim_scal _ 8%Re _ _ d2.
have -> : sq_gra_gamma_sq A B T g =
          (8 * (INR 2 * h1 g ^ 1 * (0 - INR 2 * g ^ 1)))%Re.
  rewrite /sq_gra_gamma_sq -/c /h1 /fct_cte /minus_fct /=.
  by real_unfold; ring.
exact: d3.
Qed.

Lemma sq_gra_TE nb (A B : 'M[R]_(nb, 1)) (T : 'M[R]_(1, 1)) (g : R) :
  derivable_pt_lim
    (fun u => value_of (objective shift_z 2 sq_X sq_Y (const_mx u) g))
    (T 0 0) (sq_gra_T A B T g 0 0).
Proof.
set c := T 0 0; set w := (g ^ 2)%Re.
pose f (u : R) : R := (8 * (u - w) ^ 2)%Re.
have ef u : f u = value_of (objective shift_z 2 sq_X sq_Y (const_mx u) g).
  by rewrite sq_objective /value_of /f mxE /w; real_unfold; ring.
apply: (derivable_pt_lim_ext f) => //.
pose h1 := (id - fct_cte w)%F.
have d1 : derivable_pt_lim h1 c (1 - 0)%Re.
  apply: derivable_pt_lim_minus; first exact: derivable_pt_lim_id.
  exact: derivable_pt_lim_const.
have d2 : derivable_pt_lim (comp (fun y : R => (y ^ 2)%Re) h1) c
            (INR 2 * h1 c ^ 1 * (1 - 0))%Re.
  apply: derivable_pt_lim_comp => //.
  exact: (derivable_pt_lim_pow (h1 c) 2).
have d3 := derivable_pt_lim_scal _ 8%Re _ _ d2.
have -> : sq_gra_T A B T g 0 0 = (8 * (INR 2 * h1 c ^ 1 * (1 - 0)))%Re.
  rewrite /sq_gra_T mxE /h1 /fct_cte /minus_fct /id /w /c /=.
  by real_unfold; ring.
exact: d3.
Qed.

(** The standard deviations of the two samples are [0.5] and [0]: the
    internal variable starts at [1e-4 + 0.25**0.5 = 0.5001]. *)
Lemma sq_gamma_sq_init :
  gamma_sq_init avg_std sq_X sq_Y = (5001 / 10000)%Re.
Proof.
have eX : np_std0 sq_X ord0 = (/ 2)%Re.
  rewrite /np_std0 !sum_ord2' !mxE /=.
  apply: sqrt_lem_1; [| lra |]; real_unfold; first by lra.
  by field.
have eY : np_std0 sq_Y ord0 = 0.
  rewrite /np_std0 !sum_ord2' !mxE /= -[RHS]sqrt_0; congr sqrt.
  by real_unfold; field.
rewrite /gamma_sq_init /avg_std !big_ord1 eX eY.
set A := (X in sqrt X).
have -> : A = (/ 4)%Re by rewrite /A; real_unfold; field.
have -> : sqrt (/ 4) = (/ 2)%Re by apply: sqrt_lem_1; lra.
by lra.
Qed.

(** C8.  In every pass the value written to [gams] is the square of
    the internal variable, as that pass left it, and the width that
    [optimize_T_gaussian_width] returns is the square of the internal
    variable as the loop left it.  A square is not always positive:
    when the gradient in the internal variable is [-1] or less in the
    first pass and [gwidth_step_size] is the start value of that
    variable, the update brings the variable to zero, and with
    [max_iter = 1] the call returns the width 0, with 0 in the trace. *)
Theorem C8_bandwidth_square (rnd : numpy_random)
  (mean_std : forall n d : nat, 'M[R]_(n, d) -> 'M[R]_(n, d) -> R)
  (J d m nx : nat)
  (func_z : forall nb : nat, 'M[R]_(nb, d) -> 'M[R]_(nb, d) ->
            'M[R]_(J, d) -> R -> result 'M[R]_(nb, m))
  (gra_T : forall nb : nat, 'M[R]_(nb, d) -> 'M[R]_(nb, d) ->
           'M[R]_(J, d) -> R -> 'M[R]_(J, d))
  (gra_gamma_sq : forall nb : nat, 'M[R]_(nb, d) -> 'M[R]_(nb, d) ->
                  'M[R]_(J, d) -> R -> R)
  (g : rng_state rnd) (X Y : 'M[R]_(nx, d)) (T0 : 'M[R]_(J, d))
  (T_step_size : R) (batch_proportion : float64) (tol_fun : R) :
  let g0 := gamma_sq_init mean_std X Y in
  [/\ forall func t (a : ascent rnd J d) b a',
        body_T X Y func batch_proportion tol_fun t a = Return (b, a') ->
        a_t a' = Some (Z.of_nat t) ->
        nth 0 (a_gams a') t = sh_gamma_sq (a_sh a') ^+ 2,
      forall func t (a : ascent rnd J d) b a',
        body_width X Y func batch_proportion tol_fun t a = Return (b, a') ->
        nth 0 (a_gams a') t = sh_gamma_sq (a_sh a') ^+ 2,
      forall max_iter gwidth_step_size T gam info st,
        optimize_T_gaussian_width mean_std func_z gra_T gra_gamma_sq
          g X Y T0 max_iter T_step_size gwidth_step_size batch_proportion
          tol_fun = Return (T, gam, info, st) ->
        exists2 a,
          for_range
            (body_T X Y
               (func_T func_z nx gra_T gra_gamma_sq T_step_size
                  gwidth_step_size)
               batch_proportion tol_fun)
            (iota 0 max_iter) (ascent_init max_iter g T0 g0) = Return a &
          gam = sh_gamma_sq (a_sh a) ^+ 2
    & forall ind g' s dT,
        let Xb := take_rows X ind in
        let Yb := take_rows Y ind in
        draw_batch nx batch_proportion g = Return (ind, g') ->
        objective func_z nx Xb Yb T0 g0 = Return s ->
        T_step T_step_size (gra_T _ Xb Yb T0 g0) 1 = Return dT ->
        derivable_pt_lim
          (fun u => value_of (objective func_z nx Xb Yb T0 u)) g0
          (gra_gamma_sq _ Xb Yb T0 g0) ->
        (gra_gamma_sq _ Xb Yb T0 g0 <= -1)%Re ->
        optimize_T_gaussian_width mean_std func_z gra_T gra_gamma_sq
          g X Y T0 1 T_step_size g0 batch_proportion tol_fun =
        Return (T0 + dT, 0, InfoT [:: T0 + dT] T0 [:: 0] [:: s], g')].
Proof.
move=> g0; split.
- by move=> func t a b a'; exact: body_T_recorded.
- by move=> func t a b a'; exact: body_width_recorded.
- by move=> max_iter gs T gam info st; exact: ascent_T_square.
- move=> ind g' s dT Xb Yb hc ho hT _ hg.
  exact: (one_pass_to_zero tol_fun hc ho hT hg).
Qed.

Lemma C8_bandwidth_square_witness :
  exists (T1 : 'M[R]_(1, 1)) (s : R),
    optimize_T_gaussian_width (rnd := counting_rng 0) avg_std shift_z
      sq_gra_T sq_gra_gamma_sq 0%N sq_X sq_Y sq_T0 1 1
      (gamma_sq_init avg_std sq_X sq_Y) float_one (/ 1000) =
    Return (T1, 0, InfoT [:: T1] sq_T0 [:: 0] [:: s], 1%N).
Proof.
set g0 := gamma_sq_init avg_std sq_X sq_Y.
have eg0 : g0 = (5001 / 10000)%Re by exact: sq_gamma_sq_init.
pose ind := iota 0 2.
have hc : draw_batch 2 float_one (0%N : rng_state (counting_rng 0)) =
          Return (ind, 1%N).
  by rewrite /draw_batch batch_size_full // bind_Return counting_choice_full.
have eX : take_rows sq_X ind = sq_X by exact: take_rows_iota2.
have eY : take_rows sq_Y ind = sq_Y by exact: take_rows_iota2.
have ho : objective shift_z 2 (take_rows sq_X ind) (take_rows sq_Y ind)
            sq_T0 g0 = Return (8%:R * (sq_T0 0 0 - g0 ^+ 2) ^+ 2).
  by rewrite eX eY sq_objective.
have hg : (sq_gra_gamma_sq (take_rows sq_X ind) (take_rows sq_Y ind)
             sq_T0 g0 <= -1)%Re.
  rewrite /sq_gra_gamma_sq mxE eg0.
  by real_unfold; lra.
have gne : sq_gra_T (take_rows sq_X ind) (take_rows sq_Y ind) sq_T0 g0 != 0.
  apply/eqP => /matrixP /(_ ord0 ord0); rewrite /sq_gra_T !mxE eg0 => h.
  have h' : (16 * (2 - (5001 / 10000) * (5001 / 10000)) = 0)%Re.
    by rewrite -[RHS]h; real_unfold; ring.
  by lra.
have hT := T_stepE 1 (sq_gra_T (take_rows sq_X ind) (take_rows sq_Y ind)
                        sq_T0 g0) (ltn0Sn 0).
rewrite (negbTE gne) in hT.
have hd : derivable_pt_lim
    (fun u => value_of (objective shift_z 2 (take_rows sq_X ind)
                          (take_rows sq_Y ind) sq_T0 u)) g0
    (sq_gra_gamma_sq (take_rows sq_X ind) (take_rows sq_Y ind) sq_T0 g0).
  by rewrite eX eY; exact: sq_gra_gamma_sqE.
have [_ _ _ h] :=
  @C8_bandwidth_square (counting_rng 0) avg_std 1 1 1 2 shift_z
    sq_gra_T sq_gra_gamma_sq 0%N sq_X sq_Y sq_T0 1 float_one (/ 1000).
by eexists; eexists; exact: (h ind 1%N _ _ hc ho hT hd hg).
Defined.

(** ** C1: the result of [perform_test], and when there is none *)

Section PerformTest.

Variable chi2_sf : R -> nat -> R.
Hypothesis chi2_sf_range : forall s k, (0 <= chi2_sf s k <= 1)%Re.

Local Notation result_of_stat := (result_of_stat chi2_sf).

(** C1, as amended.  Whenever [compute_stat] returns a statistic [s],
    [perform_test] returns the dictionary whose p-value is the survival
    function of the chi-squared distribution at [s], with [2J] degrees of
    freedom for the frequencies and [J] for the locations; the p-value
    lies between 0 and 1 and [h0_rejected] is the boolean
    [pvalue < alpha].  An exception of [compute_stat] goes through
    [perform_test] as it is.  That happens on valid input: with two
    identical samples the features are zero and [perform_test] raises
    [LinAlgError], for any test points and any nonzero width. *)
Theorem C1_perform_test
  (J d nx ny : nat) (X : 'M[R]_(nx, d)) (Y : 'M[R]_(ny, d))
  (scf : SmoothCFTest.t J d)
  (J' d' nx' ny' : nat) (X' : 'M[R]_(nx', d')) (Y' : 'M[R]_(ny', d'))
  (met : MeanEmbeddingTest.t J' d') :
  [/\ forall s, SmoothCFTest.compute_stat scf X Y = Return s ->
        exists2 r, SmoothCFTest.perform_test chi2_sf scf X Y = Return r &
                   result_of_stat (2 * J) (SmoothCFTest.alpha scf) s r,
      forall s, MeanEmbeddingTest.compute_stat met X' Y' = Return s ->
        exists2 r, MeanEmbeddingTest.perform_test chi2_sf met X' Y' = Return r &
                   result_of_stat J' (MeanEmbeddingTest.alpha met) s r,
      forall e,
        (SmoothCFTest.compute_stat scf X Y = Raise e ->
         SmoothCFTest.perform_test chi2_sf scf X Y = Raise e) /\
        (MeanEmbeddingTest.compute_stat met X' Y' = Raise e ->
         MeanEmbeddingTest.perform_test chi2_sf met X' Y' = Raise e)
    & forall (J0 d0 n : nat) (Xs : 'M[R]_(n.+2, d0)) (T : 'M[R]_(J0.+1, d0))
        (w a : R),
        w != 0 ->
        SmoothCFTest.perform_test chi2_sf (SmoothCFTest.Make (Some T) w a)
          Xs Xs = Raise LinAlgError /\
        MeanEmbeddingTest.perform_test chi2_sf
          (MeanEmbeddingTest.Make (Some T) w a) Xs Xs = Raise LinAlgError].
Proof.
split.
- move=> s hs; rewrite /SmoothCFTest.perform_test hs bind_Return.
  by eexists; [reflexivity | split => //=; exact: chi2_sf_range].
- move=> s hs; rewrite /MeanEmbeddingTest.perform_test hs bind_Return.
  by eexists; [reflexivity | split => //=; exact: chi2_sf_range].
- move=> e; split=> he.
    by rewrite /SmoothCFTest.perform_test he.
  by rewrite /MeanEmbeddingTest.perform_test he.
- move=> J0 d0 n Xs T w a w0; split.
    by rewrite /SmoothCFTest.perform_test compute_stat_same.
  rewrite /MeanEmbeddingTest.perform_test.
  rewrite MeanEmbeddingTest_compute_stat_same_rows me_features_same //.
  by rewrite bind_Return stat_of_features0.
Qed.

End PerformTest.

Lemma C1_perform_test_witness :
  (exists2 r,
     SmoothCFTest.perform_test chi2_sf_2
       (SmoothCFTest.Make (Some (ex_T 1)) 1 (/ 100)) ex_X ex_Y = Return r &
     result_of_stat chi2_sf_2 (2 * 1) (/ 100) 4%:R r) /\
  (exists2 r,
     MeanEmbeddingTest.perform_test chi2_sf_2
       (MeanEmbeddingTest.Make (Some me_T) 1 (/ 100)) me_X me_Y = Return r &
     result_of_stat chi2_sf_2 2 (/ 100) 0 r).
Proof.
have [h1 h2 _ _] := C1_perform_test chi2_sf_2_range ex_X ex_Y
  (SmoothCFTest.Make (Some (ex_T 1)) 1 (/ 100)) me_X me_Y
  (MeanEmbeddingTest.Make (Some me_T) 1 (/ 100)).
split.
- exact: (h1 4%:R (ex_compute_stat (/ 100) (oner_neq0 _))).
- exact: (h2 0 (me_compute_stat (/ 100))).
Defined.

(** * Properties of the further classes and methods *)

(** ** HotellingT2Test *)

Lemma Hotelling_compute_statE d nx ny (self : HotellingT2Test.t)
  (X : 'M[R]_(nx.+2, d)) (Y : 'M[R]_(ny.+2, d)) :
  HotellingT2Test.compute_stat self X Y =
  if d == 1%N then Raise LinAlgError
  else if pooled_cov X Y \in unitmx
       then Return (dot (invmx (pooled_cov X Y) *m (col_mean X - col_mean Y))
                        (col_mean X - col_mean Y))
       else Raise LinAlgError.
Proof.
rewrite /HotellingT2Test.compute_stat /np_mean0 /np_cov_T /=.
rewrite /pooled_cov /scatter /col_mean /=.
by case: (d == 1%N) => //=; case: ifP.
Qed.

Lemma Hotelling_small d nx ny (self : HotellingT2Test.t)
  (X : 'M[R]_(nx, d)) (Y : 'M[R]_(ny, d)) :
  (nx <= 1)%N || (ny <= 1)%N ->
  HotellingT2Test.compute_stat self X Y = NonFinite.
Proof.
rewrite /HotellingT2Test.compute_stat /np_mean0 /np_cov_T.
by case: nx X => [|[|nx]] X; case: ny Y => [|[|ny]] Y.
Qed.

Lemma pooled_covC nx ny d (X : 'M[R]_(nx, d)) (Y : 'M[R]_(ny, d)) :
  pooled_cov Y X = pooled_cov X Y.
Proof. by rewrite /pooled_cov addrC. Qed.

Lemma dot_solveN m (C : 'M[R]_m) (b : 'cV[R]_m) :
  dot (invmx C *m (- b)) (- b) = dot (invmx C *m b) b.
Proof. by rewrite mulmxN dotNN. Qed.

(** The statistic of Hotelling does not depend on the order of the two
    samples: [compute_stat] and [perform_test] give the same outcome on
    [(Y, X)] as on [(X, Y)], whatever the numbers of rows. *)
Theorem Hotelling_swap_samples (chi2_sf : R -> nat -> R) (d nx ny : nat)
  (self : HotellingT2Test.t) (X : 'M[R]_(nx, d)) (Y : 'M[R]_(ny, d)) :
  HotellingT2Test.compute_stat self Y X =
    HotellingT2Test.compute_stat self X Y /\
  HotellingT2Test.perform_test chi2_sf self Y X =
    HotellingT2Test.perform_test chi2_sf self X Y.
Proof.
have e : HotellingT2Test.compute_stat self Y X =
         HotellingT2Test.compute_stat self X Y.
  case h : ((nx <= 1)%N || (ny <= 1)%N).
    by rewrite !Hotelling_small // orbC.
  case: nx X h => [|[|nx]] X //; case: ny Y => [|[|ny]] Y // _.
  rewrite !Hotelling_compute_statE pooled_covC -opprB dot_solveN.
  by [].
by split=> //; rewrite /HotellingT2Test.perform_test e.
Qed.

Lemma Hotelling_one_dim nx ny (self : HotellingT2Test.t)
  (X : 'M[R]_(nx.+2, 1)) (Y : 'M[R]_(ny.+2, 1)) :
  HotellingT2Test.compute_stat self X Y = Raise LinAlgError.
Proof.
rewrite /HotellingT2Test.compute_stat /np_mean0 /np_cov_T.
rewrite [nx.+2 == 0%N]/= [ny.+2 == 0%N]/= !bind_Return.
reflexivity.
Qed.

Lemma Hotelling_one_dim_rows (nx ny : nat) (self : HotellingT2Test.t)
  (X : 'M[R]_(nx, 1)) (Y : 'M[R]_(ny, 1)) :
  (1 < nx)%N -> (1 < ny)%N ->
  HotellingT2Test.compute_stat self X Y = Raise LinAlgError.
Proof.
case: nx X => [|[|nx]] X lx; try discriminate lx.
case: ny Y => [|[|ny]] Y ly; try discriminate ly.
exact: Hotelling_one_dim.
Qed.

Lemma Hotelling_one_dim_never (nx ny : nat) (self : HotellingT2Test.t)
  (X : 'M[R]_(nx, 1)) (Y : 'M[R]_(ny, 1)) :
  is_Return (HotellingT2Test.compute_stat self X Y) = false.
Proof.
case h : ((nx <= 1)%N || (ny <= 1)%N).
  rewrite (Hotelling_small self X Y h); reflexivity.
have lx : (1 < nx)%N by rewrite ltnNge; case/norP: (negbT h).
have ly : (1 < ny)%N by rewrite ltnNge; case/norP: (negbT h).
rewrite (Hotelling_one_dim_rows self X Y lx ly); reflexivity.
Qed.

(** On data of dimension 1 the test of Hotelling returns no statistic:
    [np.cov] gives arrays of dimension 0 and [np.linalg.solve] refuses
    their sum.  With two rows or more in each sample [compute_stat]
    and [perform_test] raise [LinAlgError]. *)
Theorem Hotelling_one_dimension (chi2_sf : R -> nat -> R) (nx ny : nat)
  (self : HotellingT2Test.t) (X : 'M[R]_(nx, 1)) (Y : 'M[R]_(ny, 1)) :
  [/\ is_Return (HotellingT2Test.compute_stat self X Y) = false,
      is_Return (HotellingT2Test.perform_test chi2_sf self X Y) = false &
      (1 < nx)%N -> (1 < ny)%N ->
      HotellingT2Test.compute_stat self X Y = Raise LinAlgError /\
      HotellingT2Test.perform_test chi2_sf self X Y = Raise LinAlgError].
Proof.
have h := Hotelling_one_dim_never self X Y.
split.
- exact: h.
- rewrite /HotellingT2Test.perform_test.
  move: h; case: (HotellingT2Test.compute_stat self X Y) => [s|e|] h;
    [discriminate h | reflexivity | reflexivity].
- move=> lx ly; have e := Hotelling_one_dim_rows self X Y lx ly.
  split; first exact: e.
  rewrite /HotellingT2Test.perform_test e; reflexivity.
Qed.

(** ** The static constructors and the state of the random generator *)

Section StaticMethods.

Variable rnd : numpy_random.
Variable mvn :
  rng_state rnd -> forall d : nat, 'cV[R]_d -> 'M[R]_d ->
  forall n : nat, 'M[R]_(n, d) * rng_state rnd.
Variables (J nx ny : nat).

Lemma stacked_rows0 : (nx.+1 + ny.+1 == 0)%N = false.
Proof. by rewrite addSn. Qed.

Lemma stacked_rows1 : (nx.+1 + ny.+1 <= 1)%N = false.
Proof. by rewrite addSn addnS. Qed.

Lemma stacked_mean d (X : 'M[R]_(nx.+1, d)) (Y : 'M[R]_(ny.+1, d)) :
  exists mean, np_mean0 (col_mx X Y) = Return mean.
Proof. by rewrite /np_mean0 stacked_rows0; eexists. Qed.

Lemma stacked_cov d (X : 'M[R]_(nx.+1, d)) (Y : 'M[R]_(ny.+1, d)) :
  exists c, np_cov_T (col_mx X Y) = Return c /\
            c = if d == 1%N then Cov0d (cov_matrix c) else Cov2d (cov_matrix c).
Proof.
rewrite /np_cov_T stacked_rows1.
by case: ifP => _; eexists; split; reflexivity.
Qed.

(** [create_fit_gauss_heuristic] on two samples that are not empty:
    the locations are drawn from the seeded generator, and the saved
    state is put back if the constructor accepts the width. *)
Lemma create_fit_gauss_heuristicE d (g : rng_state rnd)
  (X : 'M[R]_(nx.+1, d.+1)) (Y : 'M[R]_(ny.+1, d.+1)) (alpha : R)
  (seed : nat) :
  exists mean c,
    [/\ np_mean0 (col_mx X Y) = Return mean,
        np_cov_T (col_mx X Y) = Return c &
        let draw := mvn (rng_seed rnd seed) mean (cov_matrix c) J in
        let width := ((\sum_j np_std0 X j) / d.+1%:R +
                      (\sum_j np_std0 Y j) / d.+1%:R) / 2%:R in
        MeanEmbeddingTestStatic.create_fit_gauss_heuristic mvn J g X Y alpha
          seed =
        if Rltb 0 width
        then (Return (MeanEmbeddingTest.Make (Some draw.1) width alpha), g)
        else (Raise ValueError, draw.2)].
Proof.
have [mean em] := stacked_mean X Y.
have [c [ec _]] := stacked_cov X Y.
exists mean, c; split=> // draw width.
rewrite /MeanEmbeddingTestStatic.create_fit_gauss_heuristic em ec /bind_st.
rewrite /MeanEmbeddingTestStatic.multivariate_normal /np_mean_std0 /=.
rewrite /draw /width /cov_matrix /MeanEmbeddingTest.init.
by case: c {ec draw} => c0 /=; case: (Rltb 0 _).
Qed.

(** On data of dimension 1 [np.cov] gives an array of dimension 0,
    which [np.random.multivariate_normal] refuses before it draws. *)
Lemma init_locs_randn_one_dim (g : rng_state rnd)
  (X : 'M[R]_(nx.+1, 1)) (Y : 'M[R]_(ny.+1, 1)) (seed : nat) :
  MeanEmbeddingTestStatic.init_locs_randn mvn J g X Y seed =
  (Raise ValueError, rng_seed rnd seed).
Proof.
rewrite /MeanEmbeddingTestStatic.init_locs_randn.
rewrite /np_mean0 /np_cov_T stacked_rows0 stacked_rows1.
reflexivity.
Qed.

End StaticMethods.

(** The two constructors that draw their test points.  [create_randn]
    puts the saved state of [np.random] back before it builds the
    test: the state is the one at the call whatever the outcome, and
    the frequencies are the draw that follows the seed.
    [create_fit_gauss_heuristic] puts it back after the constructor:
    on two samples that are not empty it returns the test and the
    state at the call when the width, the average of the standard
    deviations, is positive; otherwise the constructor raises
    [ValueError] and the generator stays as the draw left it. *)
Theorem constructors_random_state (rnd : numpy_random)
  (mvn : rng_state rnd -> forall d : nat, 'cV[R]_d -> 'M[R]_d ->
         forall n : nat, 'M[R]_(n, d) * rng_state rnd)
  (mean_std : forall n d : nat, 'M[R]_(n, d) -> 'M[R]_(n, d) -> R)
  (J d nx ny n' : nat) (g : rng_state rnd)
  (X' Y' : 'M[R]_(n', d))
  (X : 'M[R]_(nx.+1, d.+1)) (Y : 'M[R]_(ny.+1, d.+1))
  (alpha : R) (seed : nat) :
  [/\ (SmoothCFTestStatic.create_randn mean_std J g X' Y' alpha seed).2 = g,
      (SmoothCFTestStatic.create_randn mean_std J g X' Y' alpha seed).1 =
      SmoothCFTest.init (Some (rng_randn (rng_seed rnd seed) J d).1)
        (mean_std n' d X' Y') alpha
    & exists mean c,
        [/\ np_mean0 (col_mx X Y) = Return mean,
            np_cov_T (col_mx X Y) = Return c &
            let draw := mvn (rng_seed rnd seed) _ mean (cov_matrix c) J in
            let width := ((\sum_j np_std0 X j) / d.+1%:R +
                          (\sum_j np_std0 Y j) / d.+1%:R) / 2%:R in
            MeanEmbeddingTestStatic.create_fit_gauss_heuristic mvn J g X Y
              alpha seed =
            if Rltb 0 width
            then (Return (MeanEmbeddingTest.Make (Some draw.1) width alpha),
                  g)
            else (Raise ValueError, draw.2)]].
Proof. by split=> //; exact: create_fit_gauss_heuristicE. Qed.

Lemma np_std0_ones (j : 'I_1) : np_std0 (const_mx 1 : 'M[R]_(1, 1)) j = 0.
Proof.
rewrite /np_std0 !big_ord1 !mxE -[RHS]sqrt_0; congr sqrt.
by real_unfold; field.
Qed.

(** An instance with a width that is not positive: two samples of one
    row [[1.]].  The generator, in the state 0 at the call, is left in
    the state after the seed 5 and the draw. *)
Lemma constructors_random_state_witness :
  MeanEmbeddingTestStatic.create_fit_gauss_heuristic
    (rnd := counting_rng 0) counting_mvn 1 0%N
    (const_mx 1 : 'M[R]_(1, 1)) (const_mx 1 : 'M[R]_(1, 1)) (/ 100) 5 =
  (Raise ValueError, 6%N).
Proof.
have [_ _ [mean [c [_ _ h]]]] :=
  @constructors_random_state (counting_rng 0) counting_mvn avg_std 1 0 0 0 0
    0%N (const_mx 0) (const_mx 0) (const_mx 1) (const_mx 1) (/ 100) 5.
rewrite h !big_ord1 !np_std0_ones.
have -> : Rltb 0 ((0 / 1%:R + 0 / 1%:R) / 2%:R) = false.
  by apply/RltbP; real_unfold; lra.
by [].
Defined.

(** Data of dimension 1 and the test locations.  [init_locs_randn]
    hands the covariance to [np.random.multivariate_normal] as
    [np.cov] returned it, of dimension 0: the call raises [ValueError]
    and leaves the generator seeded, and so [optimize_locs_width]
    raises [ValueError] on every one-dimensional dataset.
    [create_fit_gauss_heuristic] wraps that covariance and returns a
    test when the width is positive. *)
Theorem locations_one_dimension (rnd : numpy_random)
  (mvn : rng_state rnd -> forall d : nat, 'cV[R]_d -> 'M[R]_d ->
         forall n : nat, 'M[R]_(n, d) * rng_state rnd)
  (mean_std : forall n d : nat, 'M[R]_(n, d) -> 'M[R]_(n, d) -> R)
  (J nx ny : nat)
  (gra_T : forall nb : nat, 'M[R]_(nb, 1) -> 'M[R]_(nb, 1) ->
           'M[R]_(J, 1) -> R -> 'M[R]_(J, 1))
  (gra_gamma_sq : forall nb : nat, 'M[R]_(nb, 1) -> 'M[R]_(nb, 1) ->
                  'M[R]_(J, 1) -> R -> R)
  (g : rng_state rnd)
  (X : 'M[R]_(nx.+1, 1)) (Y : 'M[R]_(ny.+1, 1)) (Y' : 'M[R]_(nx.+1, 1))
  (max_iter : nat) (locs_step_size gwidth_step_size : R)
  (batch_proportion : float64) (tol_fun alpha : R) (seed : nat) :
  [/\ MeanEmbeddingTestStatic.init_locs_randn mvn J g X Y seed =
      (Raise ValueError, rng_seed rnd seed),
      MeanEmbeddingTestStatic.optimize_locs_width mvn mean_std
        gra_T gra_gamma_sq g X Y' max_iter locs_step_size gwidth_step_size
        batch_proportion tol_fun seed = Raise ValueError
    & Rltb 0 (((\sum_j np_std0 X j) / 1%:R + (\sum_j np_std0 Y j) / 1%:R) /
              2%:R) ->
      exists met,
        MeanEmbeddingTestStatic.create_fit_gauss_heuristic mvn J g X Y
          alpha seed = (Return met, g)].
Proof.
split.
- exact: init_locs_randn_one_dim.
- rewrite /MeanEmbeddingTestStatic.optimize_locs_width.
  by rewrite init_locs_randn_one_dim.
- move=> w0.
  have [mean [c [_ _ h]]] := create_fit_gauss_heuristicE mvn J g X Y alpha seed.
  by rewrite h w0; eexists.
Qed.
